(** * Web-traffic forecast service: feature pipeline and drift check

    A shallow embedding of the Python sources

      - [app/features.py]      (timestamp parsing, [make_features])
      - [app/model_utils.py]   ([_ensure_columns], [predict_from_df])
      - [app/main.py]          (the [/predict] and [/report] handlers)
      - [scripts/check_drift.py] ([load_recent_data], [build_features],
                                  [detect_drift])
      - [scripts/retrain.py]   ([load_data], [build_training_features],
                                [train_model])
      - [scripts/train.py]     (the stand-alone training script)

    Conventions of the embedding.

    - A pandas [DataFrame] is a row count with an ordered list of labelled
      columns.  Frames are Python objects: they live in a heap and are
      passed by reference, so that in-place column assignment is visible to
      every holder of the reference.
    - Python code runs in the monad [Py]: a state-passing computation over a
      [World] (heap, files, standard output, clock) that either returns a
      value or raises an exception; the world reached when the exception is
      raised is kept.
    - Python floats are idealised as exact rationals ([Q]); NaN, None and NaT
      are the single null cell [CNull].  Rounding is not modelled.
    - The libraries the program calls but does not contain (dateutil's
      parser, [pandas.to_datetime], [pandas.read_csv], the trained
      regressor) are the fields of the class [External]. *)

From Stdlib Require Import QArith Qabs ZArith String Ascii DecimalString.
From stdpp Require Import base list strings gmap sorting.

Local Open Scope string_scope.
Local Open Scope Z_scope.
Local Open Scope list_scope.

(** ** Scalars *)

(** A calendar instant, as [pandas.Timestamp] / [datetime.datetime] expose
    it (second resolution, no time zone). *)
Record Timestamp := mkTimestamp {
  ts_year : Z; ts_month : Z; ts_day : Z;
  ts_hour : Z; ts_minute : Z; ts_second : Z
}.

(** One cell of a frame, or one Python scalar. *)
Inductive cell :=
| CNull                      (* NaN / None / NaT *)
| CInt (z : Z)
| CFloat (q : Q)
| CStr (s : string)
| CTime (t : Timestamp).

Definition isna (c : cell) : bool :=
  match c with CNull => true | _ => false end.

Definition notna (c : cell) : bool := negb (isna c).

(** The numeric value of a cell, when it has one. *)
Definition cell_num (c : cell) : option Q :=
  match c with
  | CInt z => Some (inject_Z z)
  | CFloat q => Some q
  | _ => None
  end.

(** Conversion of one cell of an integer column promoted to float64. *)
Definition to_float (c : cell) : cell :=
  match c with
  | CInt z => CFloat (inject_Z z)
  | c => c
  end.

Module Calendar.
(** Proleptic Gregorian calendar arithmetic, as the datetime library
    computes ordinals and week days. *)

Definition is_leap (y : Z) : bool :=
  (y mod 4 =? 0) && (negb (y mod 100 =? 0) || (y mod 400 =? 0)).

Definition days_before_year (year : Z) : Z :=
  let y := year - 1 in y * 365 + y / 4 - y / 100 + y / 400.

Definition days_before_month_table : list Z :=
  [0; 0; 31; 59; 90; 120; 151; 181; 212; 243; 273; 304; 334].

Definition days_before_month (year month : Z) : Z :=
  default 0 (days_before_month_table !! Z.to_nat month)
  + (if (2 <? month) && is_leap year then 1 else 0).

Definition ymd2ord (year month day : Z) : Z :=
  days_before_year year + days_before_month year month + day.

Definition toordinal (t : Timestamp) : Z :=
  ymd2ord (ts_year t) (ts_month t) (ts_day t).

(** 0 = Monday .. 6 = Sunday. *)
Definition dayofweek (t : Timestamp) : Z := (toordinal t + 6) mod 7.

(** Seconds on the time line; the sort key of a timestamp column. *)
Definition epoch (t : Timestamp) : Z :=
  ((toordinal t * 24 + ts_hour t) * 60 + ts_minute t) * 60 + ts_second t.
End Calendar.

(** ** Frames *)

(** A pandas [Series]: one column of cells. *)
Abbreviation Series := (list cell).

Record DataFrame := mkDF {
  nrows : nat;
  columns : list (string * Series)
}.

Module pd.
(** The pandas operations the program uses, on frame values. *)

Definition labels (d : DataFrame) : list string := (columns d).*1.

Definition contains (d : DataFrame) (col : string) : bool :=
  bool_decide (col ∈ labels d).

(** First entry under a key in an ordered association list. *)
Definition assoc {A} (l : list (string * A)) (k : string) : option A :=
  (λ r, r.2.2) <$> list_find (λ p, p.1 = k) l.

(** [d[col]]: the first column with that label. *)
Definition getcol (d : DataFrame) (col : string) : option Series :=
  assoc (columns d) col.

(** [d[col] = s]: every column labelled [col] is replaced where it
    stands; a new label is appended as the last column. *)
Definition setcol (d : DataFrame) (col : string) (s : Series) : DataFrame :=
  if contains d col
  then mkDF (nrows d)
            ((λ p, if decide (p.1 = col) then (p.1, s) else p) <$> columns d)
  else mkDF (nrows d) (columns d ++ [(col, s)]).

(** [d[col] = v] with a scalar [v]: broadcast over the rows. *)
Definition setscalar (d : DataFrame) (col : string) (v : cell) : DataFrame :=
  setcol d col (replicate (nrows d) v).

(** [d[cols]]: the columns named by [cols], in the order of [cols]; a
    label that occurs several times in [d] yields each of its columns.
    [None] is pandas' KeyError for a label that [d] lacks. *)
Definition select (d : DataFrame) (cols : list string) : option DataFrame :=
  if forallb (contains d) cols
  then Some (mkDF (nrows d)
               (cols ≫= λ c, filter (λ p, p.1 = c) (columns d)))
  else None.

Definition at_ (s : Series) (i : nat) : cell := default CNull (s !! i).

(** [d.iloc[idx]]: the rows at the positions [idx], in that order. *)
Definition take_rows (idx : list nat) (d : DataFrame) : DataFrame :=
  mkDF (length idx) ((λ p, (p.1, at_ p.2 <$> idx)) <$> columns d).

Definition row_at (d : DataFrame) (i : nat) : list cell :=
  (λ p, at_ p.2 i) <$> columns d.

Definition rows (d : DataFrame) : list (list cell) :=
  row_at d <$> seq 0 (nrows d).

(** Positions of the rows that satisfy [keep]. *)
Definition where_ (keep : nat → bool) (n : nat) : list nat :=
  filter (λ i, keep i = true) (seq 0 n).

(** [d.dropna()]: keep the rows without any null cell. *)
Definition row_complete (d : DataFrame) (i : nat) : bool :=
  forallb notna (row_at d i).

Definition dropna (d : DataFrame) : DataFrame :=
  take_rows (where_ (row_complete d) (nrows d)) d.

(** [d[mask]] for a boolean series [mask]. *)
Definition mask_rows (mask : list bool) (d : DataFrame) : DataFrame :=
  take_rows (where_ (λ i, default false (mask !! i)) (nrows d)) d.

(** [d.tail(n)]: the last [n] rows. *)
Definition tail (n : nat) (d : DataFrame) : DataFrame :=
  take_rows (seq (nrows d - n) (Nat.min n (nrows d))) d.

(** [s.shift(k)]: values move down by [k] positions, the first [k]
    become NaN, and an integer column is promoted to float. *)
Definition shift (k : nat) (s : Series) : Series :=
  take (length s) (replicate k CNull ++ (to_float <$> s)).

Definition isna_any (s : Series) : bool := existsb isna s.
Definition isna_all (s : Series) : bool := forallb isna s.

Definition fillna (v : cell) (s : Series) : Series :=
  (λ c, if isna c then v else c) <$> s.

Definition Qsum (l : list Q) : Q := foldr Qplus 0%Q l.

Definition Qmean (l : list Q) : Q :=
  (Qsum l / inject_Z (Z.of_nat (length l)))%Q.

(** [s.mean()]: nulls are skipped; the mean of no value is NaN; [None]
    is the TypeError pandas raises on a non-numeric column. *)
Definition mean (s : Series) : option cell :=
  let present := filter (λ c, isna c = false) s in
  vals ← mapM cell_num present;
  Some (match vals with [] => CNull | _ => CFloat (Qmean vals) end).

(** Sorting by a timestamp column: NaT goes last. *)
Definition sort_key (c : cell) : option Z :=
  match c with CTime t => Some (Calendar.epoch t) | _ => None end.

Definition key_le (a b : option Z * nat) : Prop :=
  match a.1, b.1 with
  | Some x, Some y => x ≤ y
  | _, None => True
  | None, Some _ => False
  end.

#[export] Instance key_le_dec a b : Decision (key_le a b).
Proof.
  unfold key_le. destruct a.1, b.1; [apply Z_le_dec | | | ];
    first [left; exact I | right; exact (λ f, f)].
Defined.

Definition argsort (s : Series) : list nat :=
  (merge_sort key_le (zip (sort_key <$> s) (seq 0 (length s)))).*2.

(** [d.sort_values(col).reset_index(drop=True)]. *)
Definition sort_values (d : DataFrame) (col : string) : option DataFrame :=
  s ← getcol d col; Some (take_rows (argsort s) d).

(** [d.dropna(subset=cols)]: keep the rows whose cells in the columns
    [cols] are not null; [None] is the KeyError for a missing label. *)
Definition dropna_subset (d : DataFrame) (cols : list string) : option DataFrame :=
  ss ← mapM (getcol d) cols;
  Some (take_rows (where_ (λ i, forallb (λ s, notna (at_ s i)) ss) (nrows d)) d).

(** [s.iloc[0]]; [None] is the IndexError on an empty series. *)
Definition iloc0 (s : Series) : option cell := s !! 0%nat.

(** Lookup in a Python dictionary kept as an ordered association list. *)
Definition dict_get (r : list (string * cell)) (k : string) : option cell :=
  assoc r k.

(** [pd.DataFrame(records, columns=cols)]: a key a record lacks is NaN. *)
Definition from_records (records : list (list (string * cell)))
    (cols : list string) : DataFrame :=
  mkDF (length records)
       ((λ c, (c, (λ r, default CNull (dict_get r c)) <$> records)) <$> cols).

(** [d.to_dict(orient="records")]: one ordered dictionary per row. *)
Definition to_records (d : DataFrame) : list (list (string * cell)) :=
  (λ i, (λ p, (p.1, at_ p.2 i)) <$> columns d) <$> seq 0 (nrows d).
End pd.

(** ** Exceptions, files and the world *)

Inductive exn :=
| ValueError (msg : string)
| FileNotFoundError (msg : string)
| KeyError (key : string)
| IndexError
| TypeError
| AttributeError
| ReferenceError
| HTTPException (status_code : Z) (detail : string).

(** A fitted regressor, seen through [predict]. *)
Definition Model := DataFrame → exn + list Q.

(** The drift report, a dictionary with four fixed keys. *)
Module Report.
Record t := mk {
  timestamp : string;
  mae : Q;
  drift_scores : gmap string cell;
  decision : string
}.
End Report.

Inductive File :=
| FCsv (lines : list (list string))
| FModel (m : Model)
| FJson (r : Report.t).

(** A reference to a frame: its position in the heap. *)
Abbreviation loc := nat.

Record World := mkWorld {
  heap : list DataFrame;
  files : gmap string File;
  stdout : list string;
  clock : string
}.

Definition set_heap (h : list DataFrame) (w : World) : World :=
  mkWorld h (files w) (stdout w) (clock w).
Definition set_files (f : gmap string File) (w : World) : World :=
  mkWorld (heap w) f (stdout w) (clock w).
Definition set_stdout (o : list string) (w : World) : World :=
  mkWorld (heap w) (files w) o (clock w).

(** ** The monad of Python computations *)

Definition Py (A : Type) : Type := World → (exn + A) * World.

Definition ret {A} (a : A) : Py A := λ w, (inr a, w).

Definition raise {A} (e : exn) : Py A := λ w, (inl e, w).

Definition bind {A B} (m : Py A) (k : A → Py B) : Py B :=
  λ w, match m w with
       | (inr a, w') => k a w'
       | (inl e, w') => (inl e, w')
       end.

(** [try: m except Exception as e: h e]. *)
Definition try_except {A} (m : Py A) (h : exn → Py A) : Py A :=
  λ w, match m w with
       | (inr a, w') => (inr a, w')
       | (inl e, w') => h e w'
       end.

Declare Scope py_scope.
Notation "x ← y ; z" := (bind y (λ x, z))
  (at level 20, y at level 100, z at level 200, only parsing) : py_scope.
Notation "y ;; z" := (bind y (λ _, z))
  (at level 100, z at level 200, only parsing, right associativity) : py_scope.
Local Open Scope py_scope.

Definition of_option {A} (e : exn) (o : option A) : Py A :=
  match o with Some a => ret a | None => raise e end.

Definition of_sum {A} (r : exn + A) : Py A :=
  match r with inr a => ret a | inl e => raise e end.

(** [for x in l: body x]. *)
Fixpoint for_each {A} (l : list A) (body : A → Py unit) : Py unit :=
  match l with
  | [] => ret tt
  | x :: l' => bind (body x) (λ _, for_each l' body)
  end.

(** *** The heap of frames *)

Definition alloc (d : DataFrame) : Py loc :=
  λ w, (inr (length (heap w)), set_heap (heap w ++ [d]) w).

Definition deref (x : loc) : Py DataFrame :=
  λ w, match heap w !! x with
       | Some d => (inr d, w)
       | None => (inl ReferenceError, w)
       end.

Definition store (x : loc) (d : DataFrame) : Py unit :=
  λ w, (inr tt, set_heap (<[x := d]> (heap w)) w).

(** *** Files and output *)

Definition path_exists (p : string) : Py bool :=
  λ w, (inr (bool_decide (is_Some (files w !! p))), w).

Definition write_file (p : string) (f : File) : Py unit :=
  λ w, (inr tt, set_files (<[p := f]> (files w)) w).

Definition print (msg : string) : Py unit :=
  λ w, (inr tt, set_stdout (stdout w ++ [msg]) w).

Definition now_isoformat : Py string := λ w, (inr (clock w), w).

(** *** Frame methods on references *)

Definition df_copy (x : loc) : Py loc := d ← deref x; alloc d.

Definition df_contains (x : loc) (col : string) : Py bool :=
  d ← deref x; ret (pd.contains d col).

Definition df_setscalar (x : loc) (col : string) (v : cell) : Py unit :=
  d ← deref x; store x (pd.setscalar d col v).

Definition df_setcol (x : loc) (col : string) (s : Series) : Py unit :=
  d ← deref x; store x (pd.setcol d col s).

Definition df_getcol (x : loc) (col : string) : Py Series :=
  d ← deref x; of_option (KeyError col) (pd.getcol d col).

Definition df_select (x : loc) (cols : list string) : Py loc :=
  d ← deref x;
  d' ← of_option (KeyError "not in index") (pd.select d cols);
  alloc d'.

Definition df_len (x : loc) : Py nat := d ← deref x; ret (nrows d).

Definition df_dropna (x : loc) : Py loc := d ← deref x; alloc (pd.dropna d).

Definition df_dropna_subset (x : loc) (cols : list string) : Py loc :=
  d ← deref x;
  d' ← of_option (KeyError "subset") (pd.dropna_subset d cols);
  alloc d'.

Definition df_mask (x : loc) (mask : list bool) : Py loc :=
  d ← deref x; alloc (pd.mask_rows mask d).

Definition df_sort_values (x : loc) (col : string) : Py loc :=
  d ← deref x;
  d' ← of_option (KeyError col) (pd.sort_values d col);
  alloc d'.

(** [x.reset_index(drop=True)]: a new frame with the same rows (row labels
    are not part of the model). *)
Definition df_reset_index (x : loc) : Py loc := df_copy x.

Definition df_tail (x : loc) (n : nat) : Py loc :=
  d ← deref x; alloc (pd.tail n d).

(** ** Text *)

Definition str_of_nat (n : nat) : string :=
  NilEmpty.string_of_uint (Nat.to_uint n).

Definition str_of_Z (z : Z) : string :=
  NilZero.string_of_int (Z.to_int z).

(** Two digits, zero padded ([%m], [%d], [%H], [%M], [%S]). *)
Definition pad2 (z : Z) : string :=
  if z <? 10 then "0" +:+ str_of_Z z else str_of_Z z.

(** [ts.strftime("%Y-%m-%d %H:%M:%S")]. *)
Definition strftime (t : Timestamp) : string :=
  str_of_Z (ts_year t) +:+ "-" +:+ pad2 (ts_month t) +:+ "-" +:+ pad2 (ts_day t)
  +:+ " " +:+ pad2 (ts_hour t) +:+ ":" +:+ pad2 (ts_minute t)
  +:+ ":" +:+ pad2 (ts_second t).

Definition is_space (a : ascii) : bool :=
  let n := nat_of_ascii a in
  ((9 <=? n) && (n <=? 13) || (28 <=? n) && (n <=? 32))%nat.

Fixpoint lstrip (s : string) : string :=
  match s with
  | String a s' => if is_space a then lstrip s' else s
  | EmptyString => EmptyString
  end.

Fixpoint rstrip (s : string) : string :=
  match s with
  | String a s' =>
      match rstrip s' with
      | EmptyString => if is_space a then EmptyString else String a EmptyString
      | r => String a r
      end
  | EmptyString => EmptyString
  end.

(** [s.strip()]. *)
Definition strip (s : string) : string := rstrip (lstrip s).

(** The line feed, as in the Python literal with a backslash and [n]. *)
Definition newline : string := String (ascii_of_nat 10) EmptyString.

(** ** External collaborators *)

Class External := {
  (** [dateutil.parser.parse]; [None] when it raises. *)
  dateutil_parse : string → option Timestamp;
  (** [pandas.to_datetime(column, infer_datetime_format=flag,
      errors="coerce")] on a column of strings, [flag] being the first
      argument;
      [None] is NaT.  The call sees the whole column. *)
  to_datetime : bool → list string → list (option Timestamp);
  to_datetime_length : ∀ flag l, length (to_datetime flag l) = length l;
  (** [pandas.read_csv] on the lines of a file. *)
  read_csv : list (list string) → exn + DataFrame;
  (** [str] of a float. *)
  float_repr : Q → string
}.

(** ** app/features.py *)

Module Features.
Section with_external.
Context `{External}.

(** What a caller may pass as [timestamp]. *)
Inductive ts_arg :=
| TsNone
| TsStamp (t : Timestamp)
| TsStr (s : string).

Definition _parse_timestamp (ts_str : ts_arg) : Py Timestamp :=
match ts_str with
| TsNone => raise (ValueError "timestamp is required")
| TsStamp t => ret t
| TsStr s =>
    dt ← try_except
           (of_option (ValueError "Unknown string format") (dateutil_parse s))
           (λ e, raise (ValueError ("Invalid timestamp format: " +:+ s)));
    ret dt
end.

Definition make_features (timestamp : ts_arg) (lag_1 lag_2 : option Q)
  (is_festival : option Z) : Py loc :=
ts ← _parse_timestamp timestamp;
let hour := ts_hour ts in
let day_of_week := Calendar.dayofweek ts in
let month := ts_month ts in
let is_weekend := if 5 <=? day_of_week then 1 else 0 in
let row :=
  [ ("lag_1", match lag_1 with Some v => CFloat v | None => CNull end);
    ("lag_2", match lag_2 with Some v => CFloat v | None => CNull end);
    ("hour", CInt hour);
    ("day_of_week", CInt day_of_week);
    ("month", CInt month);
    ("is_weekend", CInt is_weekend);
    ("is_festival", CInt (match is_festival with Some f => f | None => 0 end)) ] in
alloc (pd.from_records [row]
         ["lag_1"; "lag_2"; "hour"; "day_of_week"; "month"; "is_weekend";
          "is_festival"]).
End with_external.
End Features.

(** ** app/model_utils.py *)

Module ModelUtils.
Definition MODEL_PATH : string := "models/traffic_model.joblib".

Definition FEATURE_COLS : list string :=
  ["lag_1"; "lag_2"; "hour"; "day_of_week"; "month"; "is_weekend"; "is_festival"].

(** [joblib.load]. *)
Definition joblib_load (p : string) : Py Model :=
  λ w, match files w !! p with
       | Some (FModel m) => (inr m, w)
       | Some _ => (inl (ValueError "not a model artifact"), w)
       | None => (inl (FileNotFoundError p), w)
       end.

Definition _load_model : Py Model :=
  found ← path_exists MODEL_PATH;
  if negb found
  then raise (FileNotFoundError
                ("Model not found at " +:+ MODEL_PATH +:+ ". Train the model first."))
  else joblib_load MODEL_PATH.

Definition _ensure_columns (X : loc) : Py loc :=
  X ← df_copy X;
  for_each FEATURE_COLS (λ col,
    present ← df_contains X col;
    if negb present
    then if bool_decide (col ∈ ["lag_1"; "lag_2"])
         then df_setscalar X col CNull
         else df_setscalar X col (CInt 0)
    else ret tt);;
  X ← df_select X FEATURE_COLS;
  ret X.

(** [x[cols].isna().any().any()]. *)
Definition df_isna_any_any (x : loc) (cols : list string) : Py bool :=
  d ← deref x;
  sub ← of_option (KeyError "not in index") (pd.select d cols);
  ret (existsb (λ p, pd.isna_any p.2) (columns sub)).

Definition impute_lags (Xp : loc) : Py unit :=
  anyna ← df_isna_any_any Xp ["lag_1"; "lag_2"];
  if anyna
  then for_each ["lag_1"; "lag_2"] (λ col,
         s ← df_getcol Xp col;
         if pd.isna_all s
         then df_setscalar Xp col (CFloat 0)
         else
           s ← df_getcol Xp col;
           mean_val ← of_option TypeError (pd.mean s);
           s ← df_getcol Xp col;
           df_setcol Xp col (pd.fillna mean_val s))
  else ret tt.

Definition predict_from_df (X : loc) : Py (list Q) :=
  model ← _load_model;
  Xp ← _ensure_columns X;
  impute_lags Xp;;
  d ← deref Xp;
  preds ← of_sum (model d);
  ret preds.
End ModelUtils.

(** ** Frames and text files *)

Section csv.
Context `{External}.

(** [str(c)], the text of a cell under [astype(str)]. *)
Definition astype_str (c : cell) : string :=
  match c with
  | CNull => "nan"
  | CInt z => str_of_Z z
  | CFloat q => float_repr q
  | CStr s => s
  | CTime t => strftime t
  end.

(** The text of a cell in a CSV file: a null cell is an empty field. *)
Definition csv_field (c : cell) : string :=
  match c with CNull => "" | c => astype_str c end.

(** [pd.read_csv(p)]: a fresh frame. *)
Definition pd_read_csv (p : string) : Py loc :=
  λ w, match files w !! p with
       | Some (FCsv lines) => bind (of_sum (read_csv lines)) alloc w
       | Some _ => (inl (ValueError "not a CSV file"), w)
       | None => (inl (FileNotFoundError p), w)
       end.

(** [x.to_csv(p, index=False)]: header line, then one line per row. *)
Definition df_to_csv (x : loc) (p : string) : Py unit :=
  d ← deref x;
  write_file p (FCsv (pd.labels d :: ((λ r : list cell, csv_field <$> r) <$> pd.rows d))).

(** [pd.to_datetime(s, errors="coerce")], with or without
    [infer_datetime_format=True]. *)
Definition pd_to_datetime (infer_datetime_format : bool) (s : Series) : Series :=
  (λ o, match o with Some t => CTime t | None => CNull end)
    <$> to_datetime infer_datetime_format (astype_str <$> s).

(** [s.dt.<field>]: AttributeError unless the column holds datetimes; a
    NaT makes the result a float column. *)
Definition dt_field (f : Timestamp → Z) (s : Series) : Py Series :=
  r ← of_option AttributeError
        (mapM (λ c, match c with
                    | CTime t => Some (CInt (f t))
                    | CNull => Some CNull
                    | _ => None
                    end) s);
  ret (if pd.isna_any r then to_float <$> r else r).

Definition Qltb (x y : Q) : bool := negb (Qle_bool y x).

(** [(s >= k).astype(int)]: a comparison with NaN is false. *)
Definition ge_astype_int (s : Series) (k : Z) : Py Series :=
  of_option TypeError
    (mapM (λ c, match c with
                | CInt z => Some (CInt (if k <=? z then 1 else 0))
                | CFloat q => Some (CInt (if Qle_bool (inject_Z k) q then 1 else 0))
                | CNull => Some (CInt 0)
                | _ => None
                end) s).
End csv.

(** ** app/main.py *)

Module Main.
Module PredictRequest.
Record t := mk {
  timestamp : string;
  lag_1 : option Q;
  lag_2 : option Q;
  is_festival : option Z
}.
End PredictRequest.

Module PredictResponse.
Record t := mk {
  prediction : Q;
  input : list (string * cell)
}.
End PredictResponse.

Module ReportRequest.
Record t := mk {
  timestamp : string;
  actual_page_views : Z;
  is_festival : option Z
}.
End ReportRequest.

Definition DATA_CSV : string := "data/traffic.csv".

(** [GET /health]. *)
Definition health : Py (list (string * string)) := ret [("status", "ok")].

(** [float(a)] of a numpy array: defined for one element only. *)
Definition float_of_array (a : list Q) : Py Q :=
  match a with [v] => ret v | _ => raise TypeError end.

(** [csv.writer(f).writerow(row)] on a file opened for appending. *)
Definition csv_append (p : string) (row : list string) : Py unit :=
  λ w, match files w !! p with
       | Some (FCsv lines) =>
           (inr tt, set_files (<[p := FCsv (lines ++ [row])]> (files w)) w)
       | None => (inr tt, set_files (<[p := FCsv [row]]> (files w)) w)
       | Some _ => (inl (ValueError "not a CSV file"), w)
       end.

Definition exn_str (e : exn) : string :=
  match e with
  | ValueError m | FileNotFoundError m | HTTPException _ m => m
  | KeyError k => k
  | IndexError => "IndexError"
  | TypeError => "TypeError"
  | AttributeError => "AttributeError"
  | ReferenceError => "ReferenceError"
  end.

Section with_external.
Context `{External}.

Definition predict (req : PredictRequest.t) : Py PredictResponse.t :=
X ← Features.make_features (Features.TsStr (PredictRequest.timestamp req))
      (PredictRequest.lag_1 req) (PredictRequest.lag_2 req)
      (PredictRequest.is_festival req);
pred ← ModelUtils.predict_from_df X;
p ← float_of_array pred;
d ← deref X;
r ← of_option IndexError (pd.to_records d !! 0%nat);
ret (PredictResponse.mk p r).

Definition report (req : ReportRequest.t) : Py (list (string * string)) :=
ts ← try_except
       (of_option (ValueError "Unknown string format")
          (dateutil_parse (ReportRequest.timestamp req)))
       (λ _, raise (HTTPException 400 "Invalid timestamp format"));
file_exists ← path_exists DATA_CSV;
try_except
  ((if negb file_exists
    then csv_append DATA_CSV ["timestamp"; "page_views"; "is_festival"]
    else ret tt);;
   fest ← of_option TypeError (ReportRequest.is_festival req);
   csv_append DATA_CSV
     [strftime ts; str_of_Z (ReportRequest.actual_page_views req); str_of_Z fest])
  (λ e, raise (HTTPException 500 ("Failed to write CSV: " +:+ exn_str e)));;
ret [("status", "ok"); ("message", "Appended observation")].
End with_external.
End Main.

(** ** scripts/check_drift.py *)

Module CheckDrift.
Definition DATA_PATH : string := "data/traffic.csv".
Definition MODEL_PATH : string := "models/traffic_model.joblib".
Definition DRIFT_REPORT_PATH : string := "data/drift_metrics.json".

(** [for x in l: acc = body acc x], for a loop that fills a dictionary. *)
Fixpoint for_fold {A B} (l : list A) (acc : B) (body : B → A → Py B) : Py B :=
  match l with
  | [] => ret acc
  | x :: l' => bind (body acc x) (λ acc', for_fold l' acc' body)
  end.

(** [sklearn.metrics.mean_absolute_error(y_true, y_pred)]. *)
Definition mean_absolute_error (y_true : Series) (y_pred : list Q) : Py Q :=
  if negb (length y_true =? length y_pred)%nat
  then raise (ValueError "Found input variables with inconsistent numbers of samples")
  else match mapM cell_num y_true with
       | None => raise (ValueError "Input contains NaN or is not numeric")
       | Some [] => raise (ValueError "Found array with 0 sample(s)")
       | Some ys => ret (pd.Qmean (zip_with (λ t p, Qabs (p - t)) ys y_pred))
       end.

(** [float(abs(m - v))] for a mean [m] and a cell [v]. *)
Definition abs_diff (m v : cell) : option cell :=
  match m, v with
  | CNull, (CNull | CInt _ | CFloat _) => Some CNull
  | (CInt _ | CFloat _), CNull => Some CNull
  | _, _ =>
      match cell_num m, cell_num v with
      | Some a, Some b => Some (CFloat (Qabs (a - b)))
      | _, _ => None
      end
  end.

Section with_external.
Context `{External}.

Definition load_recent_data (window : nat) : Py loc :=
found ← path_exists DATA_PATH;
if negb found
then raise (FileNotFoundError "No data found. You must use /report to add real data.")
else
  df ← pd_read_csv DATA_PATH;
  present ← df_contains df "timestamp";
  if negb present
  then raise (ValueError "CSV missing 'timestamp' column")
  else
    s ← df_getcol df "timestamp";
    df_setcol df "timestamp" ((λ c, CStr (strip (astype_str c))) <$> s);;
    s ← df_getcol df "timestamp";
    df_setcol df "timestamp" (pd_to_datetime false s);;
    s ← df_getcol df "timestamp";
    let num_bad := length (filter (λ c, isna c = true) s) in
    (if (0 <? num_bad)%nat
     then
       print ("Warning: " +:+ str_of_nat num_bad +:+ " row(s) in " +:+ DATA_PATH
              +:+ " have invalid timestamps and will be dropped.");;
       s ← df_getcol df "timestamp";
       bad_rows ← df_mask df (isna <$> s);
       let bad_file := "data/bad_timestamp_rows_for_drift.csv" in
       df_to_csv bad_rows bad_file;;
       print ("Bad rows saved to: " +:+ bad_file)
     else ret tt);;
    df ← df_dropna_subset df ["timestamp"];
    df ← df_copy df;
    df ← df_sort_values df "timestamp";
    df ← df_reset_index df;
    n ← df_len df;
    if (n <? window + 2)%nat
    then raise (ValueError
                  ("Not enough valid data for drift detection. Need "
                   +:+ str_of_nat (window + 2) +:+ ", got " +:+ str_of_nat n))
    else
      t ← df_tail df window;
      df_copy t.

Definition build_features (df : loc) : Py loc :=
pv ← df_getcol df "page_views";
df_setcol df "lag_1" (pd.shift 1 pv);;
pv ← df_getcol df "page_views";
df_setcol df "lag_2" (pd.shift 2 pv);;
ts ← df_getcol df "timestamp";
h ← dt_field ts_hour ts;
df_setcol df "hour" h;;
ts ← df_getcol df "timestamp";
dow ← dt_field Calendar.dayofweek ts;
df_setcol df "day_of_week" dow;;
ts ← df_getcol df "timestamp";
m ← dt_field ts_month ts;
df_setcol df "month" m;;
dow ← df_getcol df "day_of_week";
wk ← ge_astype_int dow 5;
df_setcol df "is_weekend" wk;;
df ← df_dropna df;
ret df.

Definition detect_drift : Py Report.t :=
df ← load_recent_data 20;
df ← build_features df;
found ← path_exists MODEL_PATH;
if negb found
then raise (FileNotFoundError "No model found. Train model first.")
else
  model ← ModelUtils.joblib_load MODEL_PATH;
  let feature_cols :=
    ["lag_1"; "lag_2"; "hour"; "day_of_week"; "month"; "is_weekend"; "is_festival"] in
  X ← df_select df feature_cols;
  y_true ← df_getcol df "page_views";
  Xd ← deref X;
  y_pred ← of_sum (model Xd);
  mae ← mean_absolute_error y_true y_pred;
  drift_scores ← for_fold feature_cols (∅ : gmap string cell) (λ drift_scores col,
    s ← df_getcol df col;
    m ← of_option TypeError (pd.mean s);
    s ← df_getcol df col;
    v ← of_option IndexError (pd.iloc0 s);
    score ← of_option TypeError (abs_diff m v);
    ret (<[col := score]> drift_scores));
  let drift_status :=
    if Qltb mae 50 then "NO_DRIFT"
    else if Qltb mae 120 then "MILD_DRIFT"
    else "SEVERE_DRIFT" in
  now ← now_isoformat;
  let report := Report.mk now mae drift_scores drift_status in
  write_file DRIFT_REPORT_PATH (FJson report);;
  ret report.
End with_external.
End CheckDrift.

(** ** scripts/retrain.py *)

Module Retrain.
Definition DATA_PATH : string := "data/traffic.csv".
Definition MODEL_PATH : string := "models/traffic_model.joblib".

(** [joblib.dump(model, p)]. *)
Definition joblib_dump (model : Model) (p : string) : Py unit :=
  write_file p (FModel model).

Section with_external.
Context `{External}.

Definition load_data : Py loc :=
found ← path_exists DATA_PATH;
if negb found
then raise (FileNotFoundError
              ("No data found at " +:+ DATA_PATH +:+ ". Call /report first."))
else
  df ← pd_read_csv DATA_PATH;
  present ← df_contains df "timestamp";
  if present
  then
    s ← df_getcol df "timestamp";
    df_setcol df "timestamp" ((λ c, CStr (strip (astype_str c))) <$> s);;
    s ← df_getcol df "timestamp";
    df_setcol df "timestamp" (pd_to_datetime true s);;
    s ← df_getcol df "timestamp";
    let num_bad := length (filter (λ c, isna c = true) s) in
    (if (0 <? num_bad)%nat
     then
       print ("Warning: " +:+ str_of_nat num_bad +:+ " row(s) in " +:+ DATA_PATH
              +:+ " have invalid timestamps and will be dropped.");;
       s ← df_getcol df "timestamp";
       bad_rows ← df_mask df (isna <$> s);
       let bad_file := "data/bad_timestamp_rows.csv" in
       df_to_csv bad_rows bad_file;;
       print ("Bad rows saved to: " +:+ bad_file)
     else ret tt);;
    df ← df_dropna_subset df ["timestamp"];
    df ← df_copy df;
    df ← df_sort_values df "timestamp";
    df ← df_reset_index df;
    ret df
  else raise (ValueError "CSV missing 'timestamp' column").

Definition build_training_features (df : loc) : Py (loc * Series) :=
pv ← df_getcol df "page_views";
df_setcol df "lag_1" (pd.shift 1 pv);;
pv ← df_getcol df "page_views";
df_setcol df "lag_2" (pd.shift 2 pv);;
ts ← df_getcol df "timestamp";
h ← dt_field ts_hour ts;
df_setcol df "hour" h;;
ts ← df_getcol df "timestamp";
dow ← dt_field Calendar.dayofweek ts;
df_setcol df "day_of_week" dow;;
ts ← df_getcol df "timestamp";
m ← dt_field ts_month ts;
df_setcol df "month" m;;
dow ← df_getcol df "day_of_week";
wk ← ge_astype_int dow 5;
df_setcol df "is_weekend" wk;;
df ← df_dropna df;
X ← df_select df
      ["lag_1"; "lag_2"; "hour"; "day_of_week"; "month"; "is_weekend"; "is_festival"];
y ← df_getcol df "page_views";
ret (X, y).

(** [train_model].  [fit X y] stands for
    [RandomForestRegressor(n_estimators=200, random_state=42).fit(X, y)]:
    with its seed fixed, the fitted regressor is a function of the training
    table and the target, or the exception that scikit-learn raises. *)
Definition train_model (fit : DataFrame → Series → exn + Model) : Py unit :=
df ← load_data;
Xy ← build_training_features df;
let '(X, y) := Xy in
Xd ← deref X;
model ← of_sum (fit Xd y);
joblib_dump model MODEL_PATH;;
print (newline +:+ "=====================================");;
print " Retraining Completed Successfully";;
print "=====================================";;
print ("Model saved to: " +:+ MODEL_PATH);;
n ← df_len X;
print ("Total training samples: " +:+ str_of_nat n);;
print ("=====================================" +:+ newline).
End with_external.
End Retrain.

(** ** scripts/train.py *)

Module Train.
(** The script names its files relative to the directory it is started
    from; as everywhere in this development, that is the project root. *)
Definition DATA_PATH : string := "data/traffic.csv".
Definition MODEL_PATH : string := "models/traffic_model.joblib".

Section with_external.
Context `{External}.

(** [pd.to_datetime(column)], which raises on a text that is not a date. *)
Variable to_datetime_strict : Series → exn + Series.

(** [train_test_split(X, y, test_size=0.2, random_state=42)] on [n] rows:
    the positions of the training rows and of the test rows, or the
    exception that scikit-learn raises. *)
Variable train_test_split : nat → exn + (list nat * list nat).

(** One run of [RandomForestRegressor(n_estimators=200).fit(X, y)]; the
    forest is not seeded here. *)
Variable fit : DataFrame → Series → exn + Model.

Definition script : Py unit :=
df ← pd_read_csv DATA_PATH;
ts ← df_getcol df "timestamp";
parsed ← of_sum (to_datetime_strict ts);
df_setcol df "timestamp" parsed;;
ts ← df_getcol df "timestamp";
h ← dt_field ts_hour ts;
df_setcol df "hour" h;;
ts ← df_getcol df "timestamp";
d ← dt_field ts_day ts;
df_setcol df "day" d;;
ts ← df_getcol df "timestamp";
m ← dt_field ts_month ts;
df_setcol df "month" m;;
pv ← df_getcol df "page_views";
df_setcol df "lag_1" (pd.shift 1 pv);;
pv ← df_getcol df "page_views";
df_setcol df "lag_2" (pd.shift 2 pv);;
df ← df_dropna df;
X ← df_select df ["hour"; "day"; "month"; "lag_1"; "lag_2"; "is_festival"];
y ← df_getcol df "page_views";
Xd ← deref X;
idx ← of_sum (train_test_split (nrows Xd));
X_train ← alloc (pd.take_rows idx.1 Xd);
X_test ← alloc (pd.take_rows idx.2 Xd);
let y_train := pd.at_ y <$> idx.1 in
let y_test := pd.at_ y <$> idx.2 in
X_train_d ← deref X_train;
model ← of_sum (fit X_train_d y_train);
X_test_d ← deref X_test;
preds ← of_sum (model X_test_d);
mae ← CheckDrift.mean_absolute_error y_test preds;
print ("Model MAE: " +:+ float_repr mae);;
Retrain.joblib_dump model MODEL_PATH;;
print "✅ Model Saved Successfully!".
End with_external.
End Train.

(** ** Observations *)

(** A persisted observation, as a line of the store has it. *)
Record Observation := mkObservation {
  obs_timestamp : string;
  obs_page_views : Z;
  obs_is_festival : Z
}.

(** An observation whose timestamp has been parsed. *)
Record Sample := mkSample {
  time : Timestamp;
  views : Z;
  festival : Z
}.

(** A line of the store as [read_csv] types it: three cells, each of
    which is null when the field is blank. *)
Record Entry := mkEntry {
  entry_timestamp : cell;
  entry_page_views : cell;
  entry_is_festival : cell
}.

(** An entry whose timestamp has been parsed. *)
Record Reading := mkReading {
  reading_time : Timestamp;
  reading_views : cell;
  reading_festival : cell
}.

(** ** A reference instance of the external collaborators

    Used to run the program on concrete inputs: a fixed-width parser for
    [YYYY-MM-DD HH:MM[:SS]] (with a space or a [T] between date and time), a
    CSV reader that types a field of digits as an integer and an empty field
    as NaN, and a regressor that predicts [lag_1]. *)

Module Demo.
Local Close Scope py_scope.

Definition digits (s : string) : option Z :=
  match s with
  | EmptyString => None
  | _ => Z.of_uint <$> NilEmpty.uint_of_string s
  end.

Definition parse_timestamp (s : string) : option Timestamp :=
  let n := String.length s in
  if negb (bool_decide (n = 16%nat ∨ n = 19%nat)) then None
  else if negb (bool_decide (substring 4 1 s = "-" ∧ substring 7 1 s = "-"
                             ∧ (substring 10 1 s = " " ∨ substring 10 1 s = "T")
                             ∧ substring 13 1 s = ":"
                             ∧ (n = 19%nat → substring 16 1 s = ":")))
  then None
  else
    y ← digits (substring 0 4 s);
    m ← digits (substring 5 2 s);
    d ← digits (substring 8 2 s);
    hh ← digits (substring 11 2 s);
    mm ← digits (substring 14 2 s);
    ss ← (if bool_decide (n = 19%nat) then digits (substring 17 2 s) else Some 0);
    if bool_decide (1 ≤ m ≤ 12 ∧ 1 ≤ d ≤ 31 ∧ hh ≤ 23 ∧ mm ≤ 59 ∧ ss ≤ 59)
    then Some (mkTimestamp y m d hh mm ss)
    else None.

Definition csv_cell (s : string) : cell :=
  match s with
  | EmptyString => CNull
  | _ => match digits s with Some z => CInt z | None => CStr s end
  end.

Definition parse_csv (lines : list (list string)) : exn + DataFrame :=
  match lines with
  | [] => inl (ValueError "No columns to parse from file")
  | header :: body =>
      inr (mkDF (length body)
             (imap (λ j name, (name, (λ r, csv_cell (default "" (r !! j))) <$> body))
                   header))
  end.

#[export] Instance ext : External := {|
  dateutil_parse := parse_timestamp;
  to_datetime := λ _, fmap parse_timestamp;
  to_datetime_length := λ _ l, length_fmap parse_timestamp l;
  read_csv := parse_csv;
  float_repr := λ q, str_of_Z (Qnum q) +:+ "/" +:+ str_of_Z (Zpos (Qden q))
|}.

(** A regressor that answers with the [lag_1] column; like scikit-learn it
    refuses an empty table and null or non-numeric input. *)
Definition persistence_model : Model :=
  λ d, match d with
       | mkDF O _ => inl (ValueError "Found array with 0 sample(s)")
       | _ =>
           match pd.getcol d "lag_1" ≫= mapM cell_num with
           | Some ys => inr ys
           | None => inl (ValueError "Input contains NaN")
           end
       end.

Definition empty_world : World := mkWorld [] ∅ [] "2025-12-08T09:00:00".

(** A one-row batch without lag columns. *)
Definition no_lags : DataFrame :=
  mkDF 1 [("hour", [CInt 15]); ("day_of_week", [CInt 6]); ("month", [CInt 12]);
          ("is_weekend", [CInt 1]); ("is_festival", [CInt 1])].

(** A two-row batch whose first [lag_1] is null. *)
Definition half_lags : DataFrame :=
  mkDF 2 [("lag_1", [CNull; CFloat 80]); ("lag_2", [CFloat 70; CFloat 75]);
          ("hour", [CInt 15; CInt 16]); ("day_of_week", [CInt 6; CInt 6]);
          ("month", [CInt 12; CInt 12]); ("is_weekend", [CInt 1; CInt 1]);
          ("is_festival", [CInt 1; CInt 1])].

(** A table with its columns out of order, an extra column, and only
    two of the canonical columns. *)
Definition shuffled : DataFrame :=
  mkDF 2 [("month", [CInt 12; CInt 1]);
          ("visitor", [CStr "a"; CStr "b"]);
          ("lag_2", [CFloat 5; CNull])].

Definition world_with_model : World :=
  set_files {[ ModelUtils.MODEL_PATH := FModel persistence_model ]} empty_world.

(** A store: one observation per hour of 1 January 2025, from hour [n-1]
    down to hour 0, page views growing by 10 per hour, preceded by one row
    whose timestamp is not a date. *)
Definition hourly (i : nat) : Observation :=
  mkObservation ("2025-01-01 " +:+ pad2 (Z.of_nat i) +:+ ":00:00")
                (100 + 10 * Z.of_nat i) 0.

Definition store (n : nat) : list Observation :=
  mkObservation "bad stamp" 7 1 :: (hourly <$> reverse (seq 0 n)).

Definition store_lines (n : nat) : list (list string) :=
  ["timestamp"; "page_views"; "is_festival"]
  :: ((λ o, [obs_timestamp o; str_of_Z (obs_page_views o);
             str_of_Z (obs_is_festival o)]) <$> store n).

Definition world_with_store (n : nat) : World :=
  set_files (<[ "data/traffic.csv" := FCsv (store_lines n) ]> (files world_with_model))
            world_with_model.

(** A prediction request for Sunday 7 December 2025, 15:00, without lags. *)
Definition sunday_request : Main.PredictRequest.t :=
  Main.PredictRequest.mk "2025-12-07T15:00:00" None None (Some 1).
(** A training procedure for running [train_model]: like scikit-learn it
    refuses an empty training table; otherwise it returns the regressor
    that predicts [lag_1]. *)
Definition persistence_fit (X : DataFrame) (y : Series) : exn + Model :=
  match nrows X with
  | O => inl (ValueError "Found array with 0 sample(s)")
  | _ => inr persistence_model
  end.

(** A strict timestamp parser and a split for running the training
    script: the parser accepts the texts the reference parser accepts and
    raises on any other cell; the split keeps the last row for the test and
    refuses a table of fewer than two rows. *)
Definition strict_datetime (s : Series) : exn + Series :=
  match mapM (λ c, match c with
                   | CStr text => CTime <$> parse_timestamp text
                   | _ => None
                   end) s with
  | Some r => inr r
  | None => inl (ValueError "Unknown datetime string format")
  end.

Definition last_row_split (n : nat) : exn + (list nat * list nat) :=
  match n with
  | O | S O => inl (ValueError "the resulting train set will be empty")
  | S m => inr (seq 0 m, [m])
  end.

(** A store of [n] hourly observations, all with valid timestamps. *)
Definition clean_world (n : nat) : World :=
  set_files {[ "data/traffic.csv" :=
                 FCsv (["timestamp"; "page_views"; "is_festival"]
                       :: ((λ o, [obs_timestamp o; str_of_Z (obs_page_views o);
                                  str_of_Z (obs_is_festival o)])
                             <$> (hourly <$> seq 0 n))) ]}
    empty_world.
(** A table that carries the label [hour] twice. *)
Definition repeated_hour : DataFrame :=
  mkDF 1 [("hour", [CInt 3]); ("hour", [CInt 4]); ("lag_1", [CFloat 5])].








(** A store of 24 hourly observations, all with a valid timestamp, whose
    line for 15:00 has a blank [is_festival] field. *)
Definition blank_field_entries : list Entry :=
  (λ i, mkEntry (CStr (obs_timestamp (hourly i)))
                (CInt (obs_page_views (hourly i)))
                (if (i =? 15)%nat then CNull else CInt 0)) <$> seq 0 24.

Definition blank_field_lines : list (list string) :=
  ["timestamp"; "page_views"; "is_festival"]
  :: ((λ i, [obs_timestamp (hourly i); str_of_Z (obs_page_views (hourly i));
             if (i =? 15)%nat then "" else "0"]) <$> seq 0 24).

Definition blank_field_world : World :=
  set_files (<[ "data/traffic.csv" := FCsv blank_field_lines ]> (files world_with_model))
            world_with_model.
End Demo.

(** ** Vocabulary of the statements *)

(** A well-formed frame: distinct column labels, and every column as long
    as the frame has rows.  Every frame pandas builds from records or from
    a CSV file is of this kind. *)
Definition wf_frame (d : DataFrame) : Prop :=
  NoDup (pd.labels d) ∧ Forall (λ p, length p.2 = nrows d) (columns d).

(** The default [_ensure_columns] gives to an absent column. *)
Definition col_default (col : string) : cell :=
  if bool_decide (col ∈ ["lag_1"; "lag_2"]) then CNull else CInt 0.

(** One turn of the loop of [_ensure_columns], on the frame value. *)
Definition add_default (d : DataFrame) (col : string) : DataFrame :=
  if pd.contains d col then d else pd.setscalar d col (col_default col).

(** No canonical label is carried by two columns of the table. *)
Definition canonical_once (X : DataFrame) : Prop :=
  ∀ c, c ∈ ModelUtils.FEATURE_COLS →
       (length (filter (λ l, l = c) (pd.labels X)) ≤ 1)%nat.

(** The numeric entries of a column. *)
Definition present (s : Series) : list Q := omap cell_num s.

(** A column of numbers and nulls. *)
Definition numeric (s : Series) : Prop :=
  Forall (λ c, isna c = true ∨ is_Some (cell_num c)) s.

(** What the imputation pass leaves in a lag column [s] of a frame with
    [n] rows. *)
Definition imputed (n : nat) (s : Series) : Series :=
  if pd.isna_all s
  then replicate n (CFloat 0)
  else pd.fillna (CFloat (pd.Qmean (present s))) s.

(** The two passes [predict_from_df] runs on its argument before it calls
    the model: schema enforcement, then imputation of the lag columns. *)
Definition enforce_and_impute (X : loc) : Py loc :=
  Xp ← ModelUtils._ensure_columns X;
  ModelUtils.impute_lags Xp;;
  ret Xp.

(** The cell [make_features] stores for an optional lag. *)
Definition lag_cell (o : option Q) : cell :=
  match o with Some v => CFloat v | None => CNull end.

(** The cell the model is fed for an optional lag, after imputation of a
    one-row batch. *)
Definition lag_fed (o : option Q) : cell :=
  match o with Some v => CFloat v | None => CFloat 0 end.

(** A feature vector as a dictionary, in schema order. *)
Definition feature_record (lag_1 lag_2 : cell) (t : Timestamp) (is_festival : Z)
  : list (string * cell) :=
  [ ("lag_1", lag_1);
    ("lag_2", lag_2);
    ("hour", CInt (ts_hour t));
    ("day_of_week", CInt (Calendar.dayofweek t));
    ("month", CInt (ts_month t));
    ("is_weekend", CInt (if 5 <=? Calendar.dayofweek t then 1 else 0));
    ("is_festival", CInt is_festival) ].

(** The one-row frame that holds a dictionary. *)
Definition one_row (r : list (string * cell)) : DataFrame :=
  mkDF 1 ((λ p, (p.1, [p.2])) <$> r).

(** *** Observations *)

(** The frame with one row per element of [l] and one column per labelled
    field. *)
Definition table {A} (cols : list (string * (A → cell))) (l : list A) : DataFrame :=
  mkDF (length l) ((λ p, (p.1, p.2 <$> l)) <$> cols).

(** The frame [read_csv] yields for a store of observations. *)
Definition store_frame (obs : list Observation) : DataFrame :=
  table [("timestamp", λ o, CStr (obs_timestamp o));
         ("page_views", λ o, CInt (obs_page_views o));
         ("is_festival", λ o, CInt (obs_is_festival o))] obs.

Definition timed_columns : list (string * (Sample → cell)) :=
  [("timestamp", λ s, CTime (time s));
   ("page_views", λ s, CInt (views s));
   ("is_festival", λ s, CInt (festival s))].

(** The frame of a history of parsed observations. *)
Definition timed_frame (l : list Sample) : DataFrame := table timed_columns l.

(** The elements of [l] at the positions [idx]. *)
Definition pick {A} (l : list A) (idx : list nat) : list A :=
  omap (λ i, l !! i) idx.

(** A history in the order [sort_values("timestamp")] puts it in. *)
Definition chronological (l : list Sample) : list Sample :=
  pick l (pd.argsort ((λ s, CTime (time s)) <$> l)).

(** The last [n] elements. *)
Definition last_n {A} (n : nat) (l : list A) : list A := drop (length l - n) l.

Section store_vocabulary.
Context `{External}.

(** Whether the loader passes [infer_datetime_format=True]: [load_data]
    does, [load_recent_data] does not. *)
Variable infer : bool.

(** What [to_datetime] makes of the timestamp column of a store. *)
Definition parsed (obs : list Observation) : list (option Timestamp) :=
  to_datetime infer ((λ o, strip (obs_timestamp o)) <$> obs).

(** Each observation with its parsed timestamp, NaT being [None]. *)
Definition stamped (obs : list Observation) : list (option Timestamp * Observation) :=
  zip (parsed obs) obs.

Definition stamped_columns : list (string * (option Timestamp * Observation → cell)) :=
  [("timestamp", λ p, match p.1 with Some t => CTime t | None => CNull end);
   ("page_views", λ p, CInt (obs_page_views p.2));
   ("is_festival", λ p, CInt (obs_is_festival p.2))].

(** The valid observations of a store, in store order. *)
Definition samples (obs : list Observation) : list Sample :=
  omap (λ p, (λ t, mkSample t (obs_page_views p.2) (obs_is_festival p.2)) <$> p.1)
       (stamped obs).

(** The observations of a store whose timestamp does not parse. *)
Definition rejected (obs : list Observation) : list (option Timestamp * Observation) :=
  filter (λ p, p.1 = None) (stamped obs).

(** The lines of the side file for the rejected rows: the header, then
    each rejected row with an empty timestamp field. *)
Definition rejected_lines (obs : list Observation) : list (list string) :=
  ["timestamp"; "page_views"; "is_festival"]
  :: ((λ p, [""; str_of_Z (obs_page_views p.2); str_of_Z (obs_is_festival p.2)])
        <$> rejected obs).

(** The world after the quarantine block of a loader: nothing happens
    without a rejected row; otherwise a warning is printed, the frame of the
    rejected rows is built and written to [bad_file], and that is printed. *)
Definition quarantined (data_path bad_file : string) (obs : list Observation)
    (w : World) : World :=
  if (0 <? length (rejected obs))%nat
  then mkWorld (heap w ++ [table stamped_columns (rejected obs)])
               (<[bad_file := FCsv (rejected_lines obs)]> (files w))
               (stdout w ++
                ["Warning: " +:+ str_of_nat (length (rejected obs)) +:+ " row(s) in "
                 +:+ data_path +:+ " have invalid timestamps and will be dropped.";
                 "Bad rows saved to: " +:+ bad_file])
               (clock w)
  else w.

(** The world a loader leaves behind when it has sorted the valid rows:
    the frame read from the store (its timestamps parsed in place), the
    quarantine, then the valid rows, their copy, the sorted rows and the
    frame with a fresh index. *)
Definition loaded (data_path bad_file : string) (obs : list Observation)
    (w : World) : World :=
  let wq := quarantined data_path bad_file obs
              (set_heap (heap w ++ [table stamped_columns (stamped obs)]) w) in
  set_heap (heap wq ++
            [timed_frame (samples obs); timed_frame (samples obs);
             timed_frame (chronological (samples obs));
             timed_frame (chronological (samples obs))]) wq.
End store_vocabulary.

(** *** Derived features *)

(** The history with its six derived columns, before rows are dropped. *)
Definition augmented_frame (l : list Sample) : DataFrame :=
  mkDF (length l)
    [("timestamp", (λ s, CTime (time s)) <$> l);
     ("page_views", (λ s, CInt (views s)) <$> l);
     ("is_festival", (λ s, CInt (festival s)) <$> l);
     ("lag_1", pd.shift 1 ((λ s, CInt (views s)) <$> l));
     ("lag_2", pd.shift 2 ((λ s, CInt (views s)) <$> l));
     ("hour", (λ s, CInt (ts_hour (time s))) <$> l);
     ("day_of_week", (λ s, CInt (Calendar.dayofweek (time s))) <$> l);
     ("month", (λ s, CInt (ts_month (time s))) <$> l);
     ("is_weekend",
      (λ s, CInt (if 5 <=? Calendar.dayofweek (time s) then 1 else 0)) <$> l)].

(** The feature rows of a history: one for every element from the third
    on, with the page views of its two predecessors as lags. *)
Definition features_frame (l : list Sample) : DataFrame :=
  let n := (length l - 2)%nat in
  mkDF n
    [("timestamp", (λ s, CTime (time s)) <$> drop 2 l);
     ("page_views", (λ s, CInt (views s)) <$> drop 2 l);
     ("is_festival", (λ s, CInt (festival s)) <$> drop 2 l);
     ("lag_1", (λ s, CFloat (inject_Z (views s))) <$> take n (drop 1 l));
     ("lag_2", (λ s, CFloat (inject_Z (views s))) <$> take n l);
     ("hour", (λ s, CInt (ts_hour (time s))) <$> drop 2 l);
     ("day_of_week", (λ s, CInt (Calendar.dayofweek (time s))) <$> drop 2 l);
     ("month", (λ s, CInt (ts_month (time s))) <$> drop 2 l);
     ("is_weekend",
      (λ s, CInt (if 5 <=? Calendar.dayofweek (time s) then 1 else 0))
        <$> drop 2 l)].

(** The model's input for a history: the feature rows, restricted to the
    seven feature columns in schema order. *)
Definition model_input (l : list Sample) : DataFrame :=
  let n := (length l - 2)%nat in
  mkDF n
    [("lag_1", (λ s, CFloat (inject_Z (views s))) <$> take n (drop 1 l));
     ("lag_2", (λ s, CFloat (inject_Z (views s))) <$> take n l);
     ("hour", (λ s, CInt (ts_hour (time s))) <$> drop 2 l);
     ("day_of_week", (λ s, CInt (Calendar.dayofweek (time s))) <$> drop 2 l);
     ("month", (λ s, CInt (ts_month (time s))) <$> drop 2 l);
     ("is_weekend",
      (λ s, CInt (if 5 <=? Calendar.dayofweek (time s) then 1 else 0))
        <$> drop 2 l);
     ("is_festival", (λ s, CInt (festival s)) <$> drop 2 l)].

(** The drift score [detect_drift] computes for a column of the evaluated
    table; [None] when one of its steps raises. *)
Definition drift_score (F : DataFrame) (col : string) : option cell :=
  match pd.getcol F col with
  | Some s =>
      match pd.mean s, pd.iloc0 s with
      | Some m, Some v => CheckDrift.abs_diff m v
      | _, _ => None
      end
  | None => None
  end.

(** *** Stores with blank fields *)

Definition entry_columns : list (string * (Entry → cell)) :=
  [("timestamp", entry_timestamp);
   ("page_views", entry_page_views);
   ("is_festival", entry_is_festival)].

(** The frame [read_csv] yields for a store under the header
    [timestamp,page_views,is_festival]. *)
Definition entry_frame (es : list Entry) : DataFrame := table entry_columns es.

(** The entry of an observation: no field is blank. *)
Definition entry_of (o : Observation) : Entry :=
  mkEntry (CStr (obs_timestamp o)) (CInt (obs_page_views o)) (CInt (obs_is_festival o)).

Definition reading_columns : list (string * (Reading → cell)) :=
  [("timestamp", λ r, CTime (reading_time r));
   ("page_views", reading_views);
   ("is_festival", reading_festival)].

Definition reading_frame (l : list Reading) : DataFrame := table reading_columns l.

(** A reading without a blank field. *)
Definition complete (r : Reading) : bool :=
  notna (reading_views r) && notna (reading_festival r).

(** Readings in the order [sort_values("timestamp")] puts them in. *)
Definition by_time (l : list Reading) : list Reading :=
  pick l (pd.argsort ((λ r, CTime (reading_time r)) <$> l)).

Section entry_vocabulary.
Context `{External}.

(** The timestamp text of an entry after [astype(str).str.strip()]. *)
Definition entry_text (e : Entry) : string := strip (astype_str (entry_timestamp e)).

(** Each entry with what [to_datetime] makes of its timestamp in
    [load_recent_data], NaT being [None]. *)
Definition entry_stamped (es : list Entry) : list (option Timestamp * Entry) :=
  zip (to_datetime false (entry_text <$> es)) es.

Definition entry_stamped_columns
  : list (string * (option Timestamp * Entry → cell)) :=
  [("timestamp", λ p, match p.1 with Some t => CTime t | None => CNull end);
   ("page_views", λ p, entry_page_views p.2);
   ("is_festival", λ p, entry_is_festival p.2)].

(** The entries with a valid timestamp, in store order. *)
Definition readings (es : list Entry) : list Reading :=
  omap (λ p, (λ t, mkReading t (entry_page_views p.2) (entry_is_festival p.2)) <$> p.1)
       (entry_stamped es).
End entry_vocabulary.

(** The readings with their six derived columns, before rows are
    dropped. *)
Definition reading_augmented (l : list Reading) : DataFrame :=
  mkDF (length l)
    [("timestamp", (λ r, CTime (reading_time r)) <$> l);
     ("page_views", reading_views <$> l);
     ("is_festival", reading_festival <$> l);
     ("lag_1", pd.shift 1 (reading_views <$> l));
     ("lag_2", pd.shift 2 (reading_views <$> l));
     ("hour", (λ r, CInt (ts_hour (reading_time r))) <$> l);
     ("day_of_week", (λ r, CInt (Calendar.dayofweek (reading_time r))) <$> l);
     ("month", (λ r, CInt (ts_month (reading_time r))) <$> l);
     ("is_weekend",
      (λ r, CInt (if 5 <=? Calendar.dayofweek (reading_time r) then 1 else 0)) <$> l)].

(** The feature rows of readings without a blank field: one for every
    element from the third on, with the page views of its two predecessors
    as lags. *)
Definition reading_features (l : list Reading) : DataFrame :=
  let n := (length l - 2)%nat in
  mkDF n
    [("timestamp", (λ r, CTime (reading_time r)) <$> drop 2 l);
     ("page_views", reading_views <$> drop 2 l);
     ("is_festival", reading_festival <$> drop 2 l);
     ("lag_1", (λ r, to_float (reading_views r)) <$> take n (drop 1 l));
     ("lag_2", (λ r, to_float (reading_views r)) <$> take n l);
     ("hour", (λ r, CInt (ts_hour (reading_time r))) <$> drop 2 l);
     ("day_of_week", (λ r, CInt (Calendar.dayofweek (reading_time r))) <$> drop 2 l);
     ("month", (λ r, CInt (ts_month (reading_time r))) <$> drop 2 l);
     ("is_weekend",
      (λ r, CInt (if 5 <=? Calendar.dayofweek (reading_time r) then 1 else 0))
        <$> drop 2 l)].

(** *** The store and its reports *)

(** The header line [report] gives a new store. *)
Definition store_header : list string := ["timestamp"; "page_views"; "is_festival"].

(** The line [report] appends for an observation. *)
Definition report_line (t : Timestamp) (views fest : Z) : list string :=
  [strftime t; str_of_Z views; str_of_Z fest].

(** The answer of [report] when the observation is stored. *)
Definition report_ok : list (string * string) :=
  [("status", "ok"); ("message", "Appended observation")].

(** The store after a line has been appended to it; a store that does not
    exist yet starts with the header. *)
Definition appended (before : option (list (list string))) (row : list string)
  : list (list string) :=
  match before with
  | Some lines => lines ++ [row]
  | None => [store_header; row]
  end.

Section report_vocabulary.
Context `{External}.

(** A request [report] accepts: its timestamp parses and its festival flag
    is a number. *)
Definition accepted (req : Main.ReportRequest.t) : Prop :=
  is_Some (dateutil_parse (Main.ReportRequest.timestamp req))
  ∧ is_Some (Main.ReportRequest.is_festival req).

(** The line of an accepted request. *)
Definition line_of (req : Main.ReportRequest.t) : list string :=
  match dateutil_parse (Main.ReportRequest.timestamp req),
        Main.ReportRequest.is_festival req with
  | Some t, Some fest => report_line t (Main.ReportRequest.actual_page_views req) fest
  | _, _ => []
  end.

(** A client posting observations one after the other. *)
Definition report_all (reqs : list Main.ReportRequest.t) : Py unit :=
  for_each reqs (λ req, Main.report req;; ret tt).
End report_vocabulary.

(** *** What a run leaves alone *)

(** [m] ends, in every run and whether it returns or raises, in a world
    related by [R] to the one it started in. *)
Definition keeps {A} (R : relation World) (m : Py A) : Prop :=
  ∀ w, R w (m w).2.

(** No file outside [paths] has changed. *)
Definition same_files_outside (paths : list string) : relation World :=
  λ w w', ∀ p, p ∉ paths → files w' !! p = files w !! p.

(** Nothing has been printed. *)
Definition same_stdout : relation World := λ w w', stdout w' = stdout w.

(** No frame has been created or modified. *)
Definition same_heap : relation World := λ w w', heap w' = heap w.

(** [m] ends every run in which it raises in a world related by [R] to
    the one it started in. *)
Definition keeps_if_raised {A} (R : relation World) (m : Py A) : Prop :=
  ∀ w e w', m w = (inl e, w') → R w w'.

(** *** Stores and training *)

(** Two stored observations that differ at most by white space around
    the timestamp. *)
Definition same_up_to_whitespace (o o' : Observation) : Prop :=
  strip (obs_timestamp o) = strip (obs_timestamp o')
  ∧ obs_page_views o = obs_page_views o'
  ∧ obs_is_festival o = obs_is_festival o'.

(** What [train_model] prints once the model is saved, for [n] training
    rows. *)
Definition retraining_banner (n : nat) : list string :=
  [newline +:+ "=====================================";
   " Retraining Completed Successfully";
   "=====================================";
   "Model saved to: " +:+ Retrain.MODEL_PATH;
   "Total training samples: " +:+ str_of_nat n;
   "=====================================" +:+ newline].

(** *** Time order *)

(** [a] is no later than [b]. *)
Definition no_later (a b : Sample) : Prop :=
  Calendar.epoch (time a) ≤ Calendar.epoch (time b).

(** * Properties *)

(** ** Association lists and frame values *)

Section assoc_facts.
Context {A : Type}.
Implicit Types (l : list (string * A)) (k : string).

Lemma assoc_nil k : pd.assoc (@nil (string * A)) k = None.
Proof. reflexivity. Qed.

Lemma assoc_cons k' v l k :
  pd.assoc ((k', v) :: l) k = if decide (k' = k) then Some v else pd.assoc l k.
Proof.
  unfold pd.assoc. simpl. case_decide; [done|].
  by destruct (list_find _ l) as [[i [k'' v']]|].
Qed.

Lemma assoc_None l k : pd.assoc l k = None ↔ k ∉ l.*1.
Proof.
  induction l as [|[k' v] l IH]; simpl.
  - split; [intros _; apply not_elem_of_nil | done].
  - rewrite assoc_cons, not_elem_of_cons. case_decide.
    + split; [done | intros [? _]; congruence].
    + rewrite IH. split; [intros ?; split; [congruence | done] | tauto].
Qed.

Lemma assoc_is_Some l k : is_Some (pd.assoc l k) ↔ k ∈ l.*1.
Proof.
  rewrite <-not_eq_None_Some, assoc_None.
  split; [apply dec_stable | tauto].
Qed.

Lemma assoc_app l1 l2 k :
  pd.assoc (l1 ++ l2) k =
  match pd.assoc l1 k with Some v => Some v | None => pd.assoc l2 k end.
Proof.
  induction l1 as [|[k' v] l1 IH]; simpl; [done|].
  rewrite !assoc_cons. by case_decide.
Qed.

Lemma assoc_elem_of l k v : pd.assoc l k = Some v → (k, v) ∈ l.
Proof.
  induction l as [|[k' v'] l IH]; [done|].
  rewrite assoc_cons. case_decide; intros ?; simplify_eq.
  - left.
  - right. auto.
Qed.

Lemma filter_key_notin l k : k ∉ l.*1 → filter (λ p, p.1 = k) l = [].
Proof.
  induction l as [|[k' v'] l IH]; simpl; [done|].
  rewrite not_elem_of_cons. intros [? ?].
  rewrite filter_cons. simpl. case_decide; [congruence | auto].
Qed.

Lemma filter_key_NoDup l k v :
  NoDup l.*1 → pd.assoc l k = Some v → filter (λ p, p.1 = k) l = [(k, v)].
Proof.
  induction l as [|[k' v'] l IH]; [done|].
  simpl. rewrite NoDup_cons, assoc_cons, filter_cons. simpl.
  intros [Hk Hl]. case_decide; intros ?; simplify_eq.
  - by rewrite filter_key_notin.
  - auto.
Qed.

Lemma assoc_tabulate (f : string → A) (ks : list string) k :
  pd.assoc ((λ c, (c, f c)) <$> ks) k =
  if decide (k ∈ ks) then Some (f k) else None.
Proof.
  induction ks as [|k' ks IH].
  - rewrite decide_False; [done | apply not_elem_of_nil].
  - rewrite fmap_cons, assoc_cons, IH.
    destruct (decide (k' = k)) as [->|Hne].
    + rewrite decide_True; [done | left].
    + destruct (decide (k ∈ ks)) as [Hin|Hin].
      * rewrite decide_True; [done | by right].
      * rewrite decide_False; [done|].
        rewrite not_elem_of_cons. split; [congruence | done].
Qed.
End assoc_facts.

Section frame_facts.
Implicit Types (d : DataFrame) (c : string) (s : Series).

Lemma contains_true d c : pd.contains d c = true ↔ c ∈ pd.labels d.
Proof. unfold pd.contains. apply bool_decide_eq_true. Qed.

Lemma contains_false d c : pd.contains d c = false ↔ c ∉ pd.labels d.
Proof. unfold pd.contains. apply bool_decide_eq_false. Qed.

Lemma getcol_is_Some d c : is_Some (pd.getcol d c) ↔ c ∈ pd.labels d.
Proof. apply assoc_is_Some. Qed.

Lemma getcol_None d c : pd.getcol d c = None ↔ c ∉ pd.labels d.
Proof. apply assoc_None. Qed.

Lemma wf_getcol_length d c s :
  wf_frame d → pd.getcol d c = Some s → length s = nrows d.
Proof.
  intros [_ Hlen] Hs. apply assoc_elem_of in Hs.
  rewrite Forall_forall in Hlen. exact (Hlen _ Hs).
Qed.

Lemma add_default_absent d c :
  c ∉ pd.labels d →
  add_default d c
  = mkDF (nrows d) (columns d ++ [(c, replicate (nrows d) (col_default c))]).
Proof.
  intros Hc. unfold add_default, pd.setscalar, pd.setcol.
  by rewrite (proj2 (contains_false d c) Hc).
Qed.

Lemma add_default_present d c : c ∈ pd.labels d → add_default d c = d.
Proof.
  intros Hc. unfold add_default. by rewrite (proj2 (contains_true d c) Hc).
Qed.

(** The frame after the loop of [_ensure_columns]: the old columns, then
    the defaults of the labels that were absent. *)
Lemma fill_columns cols : ∀ d,
  ∃ ext,
    columns (foldl add_default d cols) = columns d ++ ext
    ∧ nrows (foldl add_default d cols) = nrows d
    ∧ Forall (λ p, p.1 ∈ cols ∧ (p.1 ∉ pd.labels d)
                   ∧ p.2 = replicate (nrows d) (col_default p.1)) ext
    ∧ NoDup ext.*1
    ∧ ∀ c, c ∈ cols → c ∈ pd.labels d ∨ c ∈ ext.*1.
Proof.
  induction cols as [|c cols IH]; intros d; simpl.
  - exists []. rewrite app_nil_r.
    split; [done|]. split; [done|]. split; [constructor|]. split; [constructor|].
    intros c' Hc. by apply elem_of_nil in Hc.
  - destruct (decide (c ∈ pd.labels d)) as [Hc|Hc].
    + rewrite (add_default_present d c Hc).
      destruct (IH d) as (ext & Hcols & Hn & Hext & Hnd & Hall).
      exists ext. repeat split; try done.
      * eapply Forall_impl; [exact Hext|]. simpl. intros p (? & ? & ?).
        repeat split; try done. by right.
      * intros c' [->|?]%elem_of_cons; [by left | auto].
    + rewrite (add_default_absent d c Hc).
      set (d1 := mkDF (nrows d) (columns d ++ [(c, replicate (nrows d) (col_default c))])).
      destruct (IH d1) as (ext & Hcols & Hn & Hext & Hnd & Hall).
      assert (Hl1 : pd.labels d1 = pd.labels d ++ [c])
        by (unfold pd.labels, d1; simpl; by rewrite fmap_app).
      exists ((c, replicate (nrows d) (col_default c)) :: ext).
      split; [rewrite Hcols; unfold d1; simpl; by rewrite <-app_assoc|].
      split; [done|].
      rewrite Forall_forall in Hext.
      split; [|split].
      * constructor.
        { simpl. split; [left|]. split; done. }
        apply Forall_forall. intros p Hp. destruct (Hext p Hp) as (? & Hnot & ->).
        rewrite Hl1 in Hnot. rewrite not_elem_of_app in Hnot.
        split; [by right|]. split; [tauto | done].
      * simpl. constructor; [|done].
        intros Hin. apply list_elem_of_fmap in Hin as (p & -> & Hp).
        destruct (Hext p Hp) as (_ & Hnot & _). apply Hnot.
        rewrite Hl1. apply elem_of_app. right. left.
      * intros c' [->|Hc']%elem_of_cons; [right; left|].
        destruct (Hall c' Hc') as [Hin|Hin]; [|right; by right].
        rewrite Hl1 in Hin. apply elem_of_app in Hin as [?|Hin]; [by left|].
        apply list_elem_of_singleton in Hin as ->. right. left.
Qed.

Lemma fill_getcol cols d c :
  c ∈ cols →
  pd.getcol (foldl add_default d cols) c
  = Some (match pd.getcol d c with
          | Some s => s
          | None => replicate (nrows d) (col_default c)
          end).
Proof.
  intros Hc. destruct (fill_columns cols d) as (ext & Hcols & _ & Hext & _ & Hall).
  unfold pd.getcol. rewrite Hcols, assoc_app.
  destruct (pd.assoc (columns d) c) as [s|] eqn:Hs; [done|].
  apply assoc_None in Hs. destruct (Hall c Hc) as [?|Hin]; [done|].
  apply assoc_is_Some in Hin as [v Hv]. rewrite Hv.
  apply assoc_elem_of in Hv. rewrite Forall_forall in Hext.
  destruct (Hext _ Hv) as (_ & _ & Heq). simpl in Heq. by rewrite Heq.
Qed.

Lemma fill_labels_NoDup cols d :
  NoDup (pd.labels d) → NoDup (pd.labels (foldl add_default d cols)).
Proof.
  intros Hd. destruct (fill_columns cols d) as (ext & Hcols & _ & Hext & Hnd & _).
  unfold pd.labels. rewrite Hcols, fmap_app. apply NoDup_app.
  split; [done|]. split; [|done].
  intros c Hc Hin. apply list_elem_of_fmap in Hin as (p & -> & Hp).
  rewrite Forall_forall in Hext. by destruct (Hext p Hp) as (_ & ? & _).
Qed.

Lemma fill_labels_all cols d c :
  c ∈ cols → c ∈ pd.labels (foldl add_default d cols).
Proof.
  intros Hc. apply getcol_is_Some. rewrite (fill_getcol cols d c Hc). eauto.
Qed.

(** Selecting labels that are all present in a frame with distinct
    labels yields exactly one column per requested label. *)
Lemma select_NoDup d cols :
  NoDup (pd.labels d) →
  (∀ c, c ∈ cols → c ∈ pd.labels d) →
  pd.select d cols
  = Some (mkDF (nrows d) ((λ c, (c, default [] (pd.getcol d c))) <$> cols)).
Proof.
  intros Hnd Hall. unfold pd.select.
  assert (forallb (pd.contains d) cols = true) as ->.
  { apply forallb_forall. intros c Hc%list_elem_of_In. apply contains_true; auto. }
  do 2 f_equal. induction cols as [|c cols IH]; [done|].
  rewrite bind_cons, fmap_cons, IH.
  2:{ intros c' Hc'. apply Hall. by right. }
  destruct (proj2 (getcol_is_Some d c) (Hall c ltac:(left))) as [s Hs].
  rewrite Hs. simpl. unfold pd.getcol in Hs.
  by rewrite (filter_key_NoDup _ _ _ Hnd Hs).
Qed.
End frame_facts.

(** ** Running Python computations *)

Section run_facts.
Implicit Types (w : World) (x : loc) (d : DataFrame).

Lemma set_heap_id w : set_heap (heap w) w = w.
Proof. by destruct w. Qed.

Lemma set_heap_set_heap h h' w : set_heap h (set_heap h' w) = set_heap h w.
Proof. done. Qed.

Lemma bind_run {A B} (m : Py A) (k : A → Py B) w a w' :
  m w = (inr a, w') → bind m k w = k a w'.
Proof. unfold bind. by intros ->. Qed.

Lemma bind_fail {A B} (m : Py A) (k : A → Py B) w e w' :
  m w = (inl e, w') → bind m k w = (inl e, w').
Proof. unfold bind. by intros ->. Qed.

(** A computation that returns went through both halves of a [bind]. *)
Lemma bind_inv {A B} (m : Py A) (k : A → Py B) w b w' :
  bind m k w = (inr b, w') →
  ∃ a w1, m w = (inr a, w1) ∧ k a w1 = (inr b, w').
Proof.
  unfold bind. destruct (m w) as [[e|a] w1]; [done|]. eauto.
Qed.

Lemma deref_run w x d : heap w !! x = Some d → deref x w = (inr d, w).
Proof. unfold deref. by intros ->. Qed.

Lemma deref_inv w x d w' :
  deref x w = (inr d, w') → heap w !! x = Some d ∧ w' = w.
Proof. unfold deref. destruct (heap w !! x); naive_solver. Qed.

Lemma alloc_run w d :
  alloc d w = (inr (length (heap w)), set_heap (heap w ++ [d]) w).
Proof. done. Qed.

Lemma df_copy_run w x d :
  heap w !! x = Some d →
  df_copy x w = (inr (length (heap w)), set_heap (heap w ++ [d]) w).
Proof. intros Hx. unfold df_copy. by rewrite (bind_run _ _ _ _ _ (deref_run _ _ _ Hx)). Qed.

Lemma df_contains_run w x d col :
  heap w !! x = Some d → df_contains x col w = (inr (pd.contains d col), w).
Proof. intros Hx. unfold df_contains. by rewrite (bind_run _ _ _ _ _ (deref_run _ _ _ Hx)). Qed.

Lemma df_setscalar_run w x d col v :
  heap w !! x = Some d →
  df_setscalar x col v w
  = (inr tt, set_heap (<[x := pd.setscalar d col v]> (heap w)) w).
Proof. intros Hx. unfold df_setscalar. by rewrite (bind_run _ _ _ _ _ (deref_run _ _ _ Hx)). Qed.

Lemma df_setcol_run w x d col s :
  heap w !! x = Some d →
  df_setcol x col s w = (inr tt, set_heap (<[x := pd.setcol d col s]> (heap w)) w).
Proof. intros Hx. unfold df_setcol. by rewrite (bind_run _ _ _ _ _ (deref_run _ _ _ Hx)). Qed.

Lemma df_getcol_run w x d col s :
  heap w !! x = Some d → pd.getcol d col = Some s →
  df_getcol x col w = (inr s, w).
Proof.
  intros Hx Hs. unfold df_getcol.
  rewrite (bind_run _ _ _ _ _ (deref_run _ _ _ Hx)). by rewrite Hs.
Qed.

Lemma df_select_run w x d cols d' :
  heap w !! x = Some d → pd.select d cols = Some d' →
  df_select x cols w = (inr (length (heap w)), set_heap (heap w ++ [d']) w).
Proof.
  intros Hx Hs. unfold df_select.
  rewrite (bind_run _ _ _ _ _ (deref_run _ _ _ Hx)). by rewrite Hs.
Qed.

(** The loop of [_ensure_columns] updates the frame at [x] in place. *)
Lemma ensure_loop_run cols : ∀ w x d,
  heap w !! x = Some d →
  for_each cols (λ col,
    present ← df_contains x col;
    if negb present
    then if bool_decide (col ∈ ["lag_1"; "lag_2"])
         then df_setscalar x col CNull
         else df_setscalar x col (CInt 0)
    else ret tt) w
  = (inr tt, set_heap (<[x := foldl add_default d cols]> (heap w)) w).
Proof.
  induction cols as [|c cols IH]; intros w x d Hx; simpl.
  - by rewrite list_insert_id, set_heap_id.
  - rewrite (bind_run _ _ _ tt
               (set_heap (<[x := add_default d c]> (heap w)) w)).
    + rewrite (IH _ x (add_default d c)).
      * simpl. by rewrite list_insert_insert_eq.
      * simpl. apply list_lookup_insert_eq. by eapply lookup_lt_Some.
    + rewrite (bind_run _ _ _ _ _ (df_contains_run _ _ _ c Hx)).
      unfold add_default, col_default.
      destruct (pd.contains d c); simpl.
      * by rewrite list_insert_id, set_heap_id.
      * destruct (bool_decide _); by apply df_setscalar_run.
Qed.

Lemma ensure_columns_run w x X :
  heap w !! x = Some X →
  NoDup (pd.labels X) →
  let filled := foldl add_default X ModelUtils.FEATURE_COLS in
  ModelUtils._ensure_columns x w
  = (inr (S (length (heap w))),
     set_heap (heap w ++
               [filled;
                mkDF (nrows filled)
                  ((λ c, (c, default [] (pd.getcol filled c)))
                     <$> ModelUtils.FEATURE_COLS)]) w).
Proof.
  intros Hx Hnd filled.
  assert (Hsel : pd.select filled ModelUtils.FEATURE_COLS
                 = Some (mkDF (nrows filled)
                           ((λ c, (c, default [] (pd.getcol filled c)))
                              <$> ModelUtils.FEATURE_COLS))).
  { apply select_NoDup; [by apply fill_labels_NoDup|].
    intros c Hc. by apply fill_labels_all. }
  assert (Hloop := ensure_loop_run ModelUtils.FEATURE_COLS
                     (set_heap (heap w ++ [X]) w) (length (heap w)) X
                     (list_lookup_middle _ _ _ _ eq_refl)).
  fold filled in Hloop. clearbody filled.
  unfold ModelUtils._ensure_columns.
  rewrite (bind_run _ _ _ _ _ (df_copy_run _ _ _ Hx)).
  rewrite (bind_run _ _ _ _ _ Hloop).
  cbn [heap set_heap].
  rewrite (insert_app_r_alt _ _ (length (heap w))) by done.
  rewrite Nat.sub_diag. cbn [insert list_insert].
  erewrite bind_run.
  2:{ eapply df_select_run; [|exact Hsel].
      cbn [heap set_heap]. by apply list_lookup_middle. }
  unfold ret. cbn [heap set_heap files stdout clock].
  rewrite length_app, <-app_assoc. cbn [length app].
  by rewrite Nat.add_1_r.
Qed.
End run_facts.

(** ** Schema enforcement *)

Lemma tabulate_labels (f : string → Series) (cols : list string) n :
  pd.labels (mkDF n ((λ c, (c, f c)) <$> cols)) = cols.
Proof.
  unfold pd.labels. cbn [columns].
  induction cols as [|c cols IH]; [done|].
  rewrite !fmap_cons. cbn [fst]. by rewrite IH.
Qed.

Lemma fill_nrows cols d : nrows (foldl add_default d cols) = nrows d.
Proof. by destruct (fill_columns cols d) as (ext & _ & Hn & _). Qed.

Lemma col_default_lag c : c ∈ ["lag_1"; "lag_2"] → col_default c = CNull.
Proof. intros Hc. unfold col_default. by rewrite bool_decide_eq_true_2. Qed.

Lemma col_default_calendar c :
  c ∈ ["hour"; "day_of_week"; "month"; "is_weekend"; "is_festival"] →
  col_default c = CInt 0.
Proof.
  intros Hc. unfold col_default. rewrite bool_decide_eq_false_2; [done|].
  intros Hl. repeat (apply elem_of_cons in Hc as [->|Hc];
    [repeat (apply elem_of_cons in Hl as [Hl|Hl]; [discriminate|]);
     by apply elem_of_nil in Hl|]).
  by apply elem_of_nil in Hc.
Qed.

Section select_facts.
Implicit Types (d : DataFrame) (c : string).

Lemma filter_key_labels {A} (l : list (string * A)) c :
  (filter (λ p, p.1 = c) l).*1 = filter (λ k, k = c) l.*1.
Proof.
  induction l as [|[k v] l IH]; [done|].
  rewrite fmap_cons, !filter_cons. cbn [fst].
  destruct (decide (k = c)); cbn; by rewrite IH.
Qed.

(** The labels of [d[cols]]: for each requested label, one entry per
    column of [d] that carries it. *)
Lemma select_labels d cols Y :
  pd.select d cols = Some Y →
  nrows Y = nrows d
  ∧ pd.labels Y = cols ≫= λ c, filter (λ k, k = c) (pd.labels d).
Proof.
  unfold pd.select. destruct (forallb _ _); [|done]. intros [= <-].
  split; [done|]. unfold pd.labels. cbn [columns].
  induction cols as [|c cols IH]; [done|].
  rewrite !bind_cons, fmap_app, IH. by rewrite filter_key_labels.
Qed.

Lemma select_all_present d cols :
  (∀ c, c ∈ cols → c ∈ pd.labels d) → is_Some (pd.select d cols).
Proof.
  intros Hall. unfold pd.select.
  assert (forallb (pd.contains d) cols = true) as ->; [|eauto].
  apply forallb_forall. intros c Hc%list_elem_of_In. apply contains_true; auto.
Qed.

Lemma filter_eq_absent (l : list string) c :
  c ∉ l → filter (λ k, k = c) l = [].
Proof.
  induction l as [|k l IH]; [done|].
  rewrite not_elem_of_cons. intros [Hne Hl].
  rewrite filter_cons_False by congruence. auto.
Qed.

Lemma filter_eq_NoDup (l : list string) c :
  NoDup l → c ∈ l → filter (λ k, k = c) l = [c].
Proof.
  induction 1 as [|k l Hk Hnd IH]; [by intros ?%elem_of_nil|].
  intros [->|Hc]%elem_of_cons.
  - rewrite filter_cons_True by done. by rewrite filter_eq_absent.
  - rewrite filter_cons_False; [auto|]. intros ->. done.
Qed.

Lemma filter_eq_present (l : list string) c :
  c ∈ l → (1 ≤ length (filter (λ k, k = c) l))%nat.
Proof.
  intros Hc. assert (Hin : c ∈ filter (λ k, k = c) l)
    by (by apply list_elem_of_filter).
  destruct (filter _ l); [by apply elem_of_nil in Hin | cbn; lia].
Qed.

Lemma filter_eq_once (l : list string) c :
  length (filter (λ k, k = c) l) = 1%nat → filter (λ k, k = c) l = [c].
Proof.
  intros Hlen. destruct (filter (λ k, k = c) l) as [|k [|? ?]] eqn:Hf; try done.
  assert (Hk : k ∈ filter (λ k, k = c) l) by (rewrite Hf; left).
  apply list_elem_of_filter in Hk as [-> _]. done.
Qed.

(** The labels of the table after the loop of [_ensure_columns], counted
    per canonical label. *)
Lemma fill_label_count cols d c :
  c ∈ cols →
  filter (λ k, k = c) (pd.labels (foldl add_default d cols))
  = if decide (c ∈ pd.labels d) then filter (λ k, k = c) (pd.labels d) else [c].
Proof.
  intros Hc. destruct (fill_columns cols d) as (ext & Hcols & _ & Hext & Hnd & Hall).
  unfold pd.labels at 1. rewrite Hcols, fmap_app, filter_app.
  fold (pd.labels d). rewrite Forall_forall in Hext.
  destruct (decide (c ∈ pd.labels d)) as [Hin|Hin].
  - rewrite (filter_eq_absent ext.*1), app_nil_r; [done|].
    intros (p & -> & Hp)%list_elem_of_fmap. by destruct (Hext p Hp) as (_ & ? & _).
  - rewrite (filter_eq_absent (pd.labels d)) by done. cbn [app].
    apply filter_eq_NoDup; [done|]. by destruct (Hall c Hc).
Qed.

(** A concatenation of non-empty blocks is as long as the list of blocks
    only if every block is a singleton. *)
Lemma bind_length_singletons {A B} (f : A → list B) (l : list A) :
  (∀ a, a ∈ l → 1 ≤ length (f a))%nat →
  length (l ≫= f) = length l →
  ∀ a, a ∈ l → length (f a) = 1%nat.
Proof.
  induction l as [|x l IH]; intros Hpos Hlen a Ha; [by apply elem_of_nil in Ha|].
  rewrite bind_cons, length_app in Hlen. cbn [length] in Hlen.
  assert (Hx := Hpos x ltac:(left)).
  assert (Hrest : (length l ≤ length (l ≫= f))%nat).
  { clear -Hpos. induction l as [|y l IH]; [done|].
    rewrite bind_cons, length_app. cbn [length].
    assert (Hy := Hpos y ltac:(right; left)).
    assert (length l ≤ length (l ≫= f))%nat; [|lia].
    apply IH. intros a Ha. apply Hpos.
    apply elem_of_cons in Ha as [->|Ha]; [left | right; by right]. }
  apply elem_of_cons in Ha as [->|Ha]; [lia|].
  apply IH; [|lia|done]. intros b Hb. apply Hpos. by right.
Qed.

Lemma bind_singletons (f : string → list string) (l : list string) :
  (∀ a, a ∈ l → f a = [a]) → l ≫= f = l.
Proof.
  induction l as [|x l IH]; intros Hf; [done|].
  rewrite bind_cons, (Hf x) by left. cbn. f_equal.
  apply IH. intros a Ha. apply Hf. by right.
Qed.
End select_facts.

Section ensure_any.
Implicit Types (w : World) (x : loc) (X : DataFrame).

(** [_ensure_columns] on any table: the copy with the defaults added, then
    the selection of the canonical labels from it. *)
Lemma ensure_columns_run_any w x X :
  heap w !! x = Some X →
  let filled := foldl add_default X ModelUtils.FEATURE_COLS in
  ∃ Y, pd.select filled ModelUtils.FEATURE_COLS = Some Y
       ∧ ModelUtils._ensure_columns x w
         = (inr (S (length (heap w))), set_heap (heap w ++ [filled; Y]) w).
Proof.
  intros Hx filled.
  destruct (select_all_present filled ModelUtils.FEATURE_COLS) as [Y Hsel].
  { intros c Hc. by apply fill_labels_all. }
  exists Y. split; [exact Hsel|].
  assert (Hloop := ensure_loop_run ModelUtils.FEATURE_COLS
                     (set_heap (heap w ++ [X]) w) (length (heap w)) X
                     (list_lookup_middle _ _ _ _ eq_refl)).
  fold filled in Hloop. clearbody filled.
  unfold ModelUtils._ensure_columns.
  rewrite (bind_run _ _ _ _ _ (df_copy_run _ _ _ Hx)).
  rewrite (bind_run _ _ _ _ _ Hloop).
  cbn [heap set_heap].
  rewrite (insert_app_r_alt _ _ (length (heap w))) by done.
  rewrite Nat.sub_diag. cbn [insert list_insert].
  erewrite bind_run.
  2:{ eapply df_select_run; [|exact Hsel].
      cbn [heap set_heap]. by apply list_lookup_middle. }
  unfold ret. cbn [heap set_heap files stdout clock].
  rewrite length_app, <-app_assoc. cbn [length app].
  by rewrite Nat.add_1_r.
Qed.

(** The labels of the enforced table: the canonical labels in order, each
    as often as the input carries it and at least once. *)
Lemma ensured_labels X Y :
  pd.select (foldl add_default X ModelUtils.FEATURE_COLS) ModelUtils.FEATURE_COLS
  = Some Y →
  pd.labels Y
  = ModelUtils.FEATURE_COLS ≫= λ c,
      if decide (c ∈ pd.labels X) then filter (λ k, k = c) (pd.labels X) else [c].
Proof.
  intros Hsel. apply select_labels in Hsel as [_ ->].
  generalize (λ c, fill_label_count ModelUtils.FEATURE_COLS X c).
  generalize (foldl add_default X ModelUtils.FEATURE_COLS).
  intros d Hd.
  assert (Hsub : ∀ cols, (∀ c, c ∈ cols → c ∈ ModelUtils.FEATURE_COLS) →
     cols ≫= (λ c, filter (λ k, k = c) (pd.labels d))
     = cols ≫= (λ c, if decide (c ∈ pd.labels X)
                     then filter (λ k, k = c) (pd.labels X) else [c])).
  { induction cols as [|c cols IH]; intros Hc; [done|].
    rewrite !bind_cons, IH by (intros ? ?; apply Hc; by right).
    by rewrite Hd by (apply Hc; left). }
  by apply Hsub.
Qed.

Lemma ensured_labels_canonical X Y :
  pd.select (foldl add_default X ModelUtils.FEATURE_COLS) ModelUtils.FEATURE_COLS
  = Some Y →
  pd.labels Y = ModelUtils.FEATURE_COLS ↔ canonical_once X.
Proof.
  intros Hsel. rewrite (ensured_labels X Y Hsel).
  set (block := λ c : string, if decide (c ∈ pd.labels X)
                     then filter (λ k, k = c) (pd.labels X) else [c]).
  assert (Hpos : ∀ c, c ∈ ModelUtils.FEATURE_COLS → (1 ≤ length (block c))%nat).
  { intros c _. unfold block. destruct (decide _); [by apply filter_eq_present | done]. }
  split.
  - intros Heq c Hc.
    assert (Hlen : length (ModelUtils.FEATURE_COLS ≫= block)
                   = length ModelUtils.FEATURE_COLS) by (by rewrite Heq).
    pose proof (bind_length_singletons block _ Hpos Hlen c Hc) as H1.
    unfold block in H1. destruct (decide (c ∈ pd.labels X)); [lia|].
    rewrite filter_eq_absent by done. cbn [length]. lia.
  - intros Honce. apply bind_singletons. intros c Hc. unfold block.
    destruct (decide (c ∈ pd.labels X)) as [Hin|Hin]; [|done].
    apply filter_eq_once. pose proof (Honce c Hc). pose proof (filter_eq_present _ _ Hin). lia.
Qed.

(** The columns of the enforced table, for a canonical label the input
    carries at most once. *)
Lemma ensured_getcol X Y c :
  pd.select (foldl add_default X ModelUtils.FEATURE_COLS) ModelUtils.FEATURE_COLS
  = Some Y →
  c ∈ ModelUtils.FEATURE_COLS →
  pd.getcol Y c
  = Some (match pd.getcol X c with
          | Some s => s
          | None => replicate (nrows X) (col_default c)
          end).
Proof.
  intros Hsel Hc.
  rewrite <-(fill_getcol ModelUtils.FEATURE_COLS X c Hc).
  revert Hsel. generalize (foldl add_default X ModelUtils.FEATURE_COLS). intros d.
  unfold pd.select. destruct (forallb _ _) eqn:Hall; [|done]. intros [= <-].
  unfold pd.getcol. cbn [columns].
  assert (Hgen : ∀ cols, NoDup cols →
     pd.assoc (cols ≫= λ c0, filter (λ p, p.1 = c0) (columns d)) c
     = if decide (c ∈ cols) then pd.assoc (columns d) c else None).
  { induction cols as [|c0 cols IH]; intros Hnd.
    - by rewrite decide_False by apply not_elem_of_nil.
    - apply NoDup_cons in Hnd as [Hc0 Hnd].
      rewrite bind_cons, assoc_app, IH by done.
      destruct (decide (c0 = c)) as [->|Hne].
      + rewrite (decide_True (P := c ∈ c :: cols)) by left.
        rewrite (decide_False (P := c ∈ cols)) by done.
        clear. induction (columns d) as [|[k v] l IHl]; [done|].
        rewrite filter_cons, !assoc_cons. cbn [fst].
        destruct (decide (k = c)) as [->|?].
        * by rewrite assoc_cons, decide_True.
        * exact IHl.
      + assert (pd.assoc (filter (λ p, p.1 = c0) (columns d)) c = None) as ->.
        { apply assoc_None. intros (p & -> & Hp)%list_elem_of_fmap.
          apply list_elem_of_filter in Hp as [? _]. done. }
        destruct (decide (c ∈ cols)) as [Hin|Hin].
        * rewrite decide_True; [done | by right].
        * rewrite decide_False; [done|]. rewrite not_elem_of_cons. done. }
  assert (Hnd : NoDup ModelUtils.FEATURE_COLS)
    by (apply (bool_decide_unpack _); vm_compute; exact I).
  etrans; [exact (Hgen ModelUtils.FEATURE_COLS Hnd)|].
  by rewrite decide_True.
Qed.
End ensure_any.

(** C1. [_ensure_columns] returns a new table with as many rows as its
    argument, and the columns of that table are exactly [lag_1, lag_2,
    hour, day_of_week, month, is_weekend, is_festival], in this order, if
    and only if no canonical label is carried by two columns of the
    argument: the order of the input columns and its other columns do not
    matter, but a table that repeats a canonical label keeps the
    repetition, so that the schema does not hold on every input table.  A
    canonical column the input carries is carried over; an absent calendar
    or categorical column is filled with 0 and an absent lag column with
    null. *)
Theorem ensure_columns_schema (w : World) (x : loc) (X : DataFrame) :
  heap w !! x = Some X →
  ∃ x' w' Y,
    ModelUtils._ensure_columns x w = (inr x', w')
    ∧ heap w' !! x' = Some Y
    ∧ nrows Y = nrows X
    ∧ (pd.labels Y
       = ["lag_1"; "lag_2"; "hour"; "day_of_week"; "month"; "is_weekend"; "is_festival"]
       ↔ canonical_once X)
    ∧ (canonical_once X →
       ∀ c s, c ∈ ModelUtils.FEATURE_COLS →
              pd.getcol X c = Some s → pd.getcol Y c = Some s)
    ∧ (∀ c, c ∈ ["hour"; "day_of_week"; "month"; "is_weekend"; "is_festival"] →
            c ∉ pd.labels X →
            pd.getcol Y c = Some (replicate (nrows X) (CInt 0)))
    ∧ (∀ c, c ∈ ["lag_1"; "lag_2"] →
            c ∉ pd.labels X →
            pd.getcol Y c = Some (replicate (nrows X) CNull)).
Proof.
  intros Hx.
  destruct (ensure_columns_run_any w x X Hx) as (Y & Hsel & Hrun).
  eexists _, _, Y.
  split; [exact Hrun|].
  split.
  { cbn [heap set_heap].
    match goal with |- (?h ++ [?a; ?b]) !! _ = _ =>
      change (h ++ [a; b]) with (h ++ [a] ++ [b]) end.
    rewrite app_assoc. apply list_lookup_middle.
    rewrite length_app. cbn [length]. lia. }
  split.
  { destruct (select_labels _ _ _ Hsel) as [-> _]. apply fill_nrows. }
  split; [exact (ensured_labels_canonical X Y Hsel)|].
  split; [|split].
  - intros _ c s Hc Hs. rewrite (ensured_getcol X Y c Hsel Hc). by rewrite Hs.
  - intros c Hc Hnot.
    assert (Hc' : c ∈ ModelUtils.FEATURE_COLS).
    { unfold ModelUtils.FEATURE_COLS. do 2 right. exact Hc. }
    rewrite (ensured_getcol X Y c Hsel Hc').
    rewrite (proj2 (getcol_None X c) Hnot).
    by rewrite col_default_calendar.
  - intros c Hc Hnot.
    assert (Hc' : c ∈ ModelUtils.FEATURE_COLS).
    { unfold ModelUtils.FEATURE_COLS.
      apply elem_of_cons in Hc as [->|Hc]; [left|].
      apply elem_of_cons in Hc as [->|Hc]; [right; left|].
      by apply elem_of_nil in Hc. }
    rewrite (ensured_getcol X Y c Hsel Hc').
    rewrite (proj2 (getcol_None X c) Hnot).
    by rewrite col_default_lag.
Qed.

Lemma ensure_columns_schema_witness :
  (let w := set_heap [Demo.shuffled] Demo.empty_world in
   canonical_once Demo.shuffled
   ∧ ∃ x' w' Y,
       ModelUtils._ensure_columns 0%nat w = (inr x', w')
       ∧ heap w' !! x' = Some Y
       ∧ nrows Y = 2%nat
       ∧ pd.labels Y
         = ["lag_1"; "lag_2"; "hour"; "day_of_week"; "month"; "is_weekend"; "is_festival"]
       ∧ pd.getcol Y "month" = Some [CInt 12; CInt 1]
       ∧ pd.getcol Y "lag_2" = Some [CFloat 5; CNull]
       ∧ pd.getcol Y "hour" = Some [CInt 0; CInt 0]
       ∧ pd.getcol Y "lag_1" = Some [CNull; CNull])
  ∧ (let w := set_heap [Demo.repeated_hour] Demo.empty_world in
     ∃ x' w' Y,
       ModelUtils._ensure_columns 0%nat w = (inr x', w')
       ∧ heap w' !! x' = Some Y
       ∧ pd.labels Y
         = ["lag_1"; "lag_2"; "hour"; "hour"; "day_of_week"; "month"; "is_weekend";
            "is_festival"]
       ∧ length (columns Y) = 8%nat
       ∧ ¬ canonical_once Demo.repeated_hour).
Proof.
  split.
  - intros w.
    assert (Honce : canonical_once Demo.shuffled).
    { intros c Hc. unfold ModelUtils.FEATURE_COLS in Hc.
      repeat (apply elem_of_cons in Hc as [->|Hc]; [vm_compute; lia|]).
      by apply elem_of_nil in Hc. }
    split; [exact Honce|].
    destruct (ensure_columns_schema w 0%nat Demo.shuffled eq_refl)
      as (x' & w' & Y & Hrun & HY & Hn & Hlabels & Hkeep & Hcal & Hlag).
    exists x', w', Y.
    split; [exact Hrun|]. split; [exact HY|]. split; [exact Hn|].
    split; [exact (proj2 Hlabels Honce)|].
    split; [apply (Hkeep Honce); [do 4 right; left | reflexivity]|].
    split; [apply (Hkeep Honce); [right; left | reflexivity]|].
    split.
    + apply (Hcal "hour"); [left|].
      intros Hin. cbn in Hin.
      repeat (apply elem_of_cons in Hin as [Hin|Hin]; [discriminate Hin|]).
      by apply elem_of_nil in Hin.
    + apply (Hlag "lag_1"); [left|].
      intros Hin. cbn in Hin.
      repeat (apply elem_of_cons in Hin as [Hin|Hin]; [discriminate Hin|]).
      by apply elem_of_nil in Hin.
  - intros w. do 3 eexists.
    split; [vm_compute; reflexivity|]. split; [reflexivity|].
    split; [reflexivity|]. split; [reflexivity|].
    intros Honce.
    destruct (ensure_columns_schema w 0%nat Demo.repeated_hour eq_refl)
      as (x' & w' & Y & Hrun & HY & _ & Hlabels & _).
    apply Hlabels in Honce.
    vm_compute in Hrun. injection Hrun as <- <-.
    vm_compute in HY. injection HY as <-.
    vm_compute in Honce. discriminate Honce.
Defined.

(** ** Imputation of the lag columns *)

Section impute_facts.
Implicit Types (d : DataFrame) (c col : string) (s : Series).

Lemma assoc_replace (l : list (string * Series)) col s c :
  pd.assoc ((λ p, if decide (p.1 = col) then (p.1, s) else p) <$> l) c
  = if decide (c = col)
    then (if decide (col ∈ l.*1) then Some s else None)
    else pd.assoc l c.
Proof.
  induction l as [|[k v] l IH].
  - cbn. destruct (decide (c = col)); [|done].
    rewrite decide_False; [done | apply not_elem_of_nil].
  - rewrite !fmap_cons. cbn [fst]. destruct (decide (k = col)) as [->|Hk].
    + rewrite !assoc_cons. destruct (decide (c = col)) as [->|Hne].
      * rewrite decide_True by done. rewrite decide_True; [done | left].
      * rewrite decide_False by congruence. rewrite IH.
        by rewrite decide_False by done.
    + rewrite !assoc_cons, IH. destruct (decide (c = col)) as [->|Hne].
      * rewrite decide_False by done.
        destruct (decide (col ∈ l.*1)) as [Hin|Hnin].
        -- rewrite decide_True; [done | by right].
        -- rewrite decide_False; [done|].
           rewrite not_elem_of_cons. split; [congruence | done].
      * done.
Qed.

Lemma getcol_setcol d col s c :
  pd.getcol (pd.setcol d col s) c
  = if decide (c = col) then Some s else pd.getcol d c.
Proof.
  unfold pd.setcol, pd.getcol.
  destruct (pd.contains d col) eqn:Hc; cbn [columns].
  - apply contains_true in Hc. rewrite assoc_replace.
    destruct (decide (c = col)); [|done].
    by rewrite decide_True by exact Hc.
  - apply contains_false in Hc. rewrite assoc_app.
    destruct (decide (c = col)) as [->|Hne].
    + rewrite (proj2 (assoc_None _ _) Hc), assoc_cons. by rewrite decide_True.
    + destruct (pd.assoc (columns d) c); [done|].
      rewrite assoc_cons. by rewrite decide_False by congruence.
Qed.

Lemma labels_setcol_present d col s :
  col ∈ pd.labels d → pd.labels (pd.setcol d col s) = pd.labels d.
Proof.
  intros Hc. unfold pd.setcol. rewrite (proj2 (contains_true d col) Hc).
  unfold pd.labels. cbn [columns]. rewrite <-list_fmap_compose.
  apply list_fmap_ext. intros i [k v] _. simpl. by case_decide.
Qed.

Lemma labels_setcol_absent d col s :
  col ∉ pd.labels d → pd.labels (pd.setcol d col s) = pd.labels d ++ [col].
Proof.
  intros Hc. unfold pd.setcol. rewrite (proj2 (contains_false d col) Hc).
  unfold pd.labels. cbn [columns]. by rewrite fmap_app.
Qed.

Lemma nrows_setcol d col s : nrows (pd.setcol d col s) = nrows d.
Proof. unfold pd.setcol. by destruct (pd.contains d col). Qed.

Lemma present_filter s :
  numeric s →
  mapM cell_num (filter (λ x : cell, isna x = false) s) = Some (present s).
Proof.
  unfold numeric, present. induction 1 as [|x s Hc Hs IH]; [done|].
  rewrite filter_cons. destruct x; simpl in *;
    try (destruct Hc as [?|[? ?]]; discriminate);
    try (rewrite IH; reflexivity); exact IH.
Qed.

Lemma present_nil s : numeric s → present s = [] → pd.isna_all s = true.
Proof.
  unfold numeric, present, pd.isna_all. induction 1 as [|x s Hc Hs IH]; [done|].
  destruct x; simpl in *; try discriminate;
    try (destruct Hc as [?|[? ?]]; discriminate). auto.
Qed.

(** The mean pandas computes on a column of numbers and nulls that has
    at least one number. *)
Lemma mean_numeric s :
  numeric s → pd.isna_all s = false →
  pd.mean s = Some (CFloat (pd.Qmean (present s))).
Proof.
  intros Hnum Hall. unfold pd.mean. rewrite (present_filter s Hnum). simpl.
  destruct (present s) eqn:Hp; [|done].
  rewrite (present_nil s Hnum Hp) in Hall. discriminate.
Qed.

Lemma fillna_no_null s v : pd.isna_any s = false → pd.fillna v s = s.
Proof.
  unfold pd.isna_any, pd.fillna. induction s as [|x s IH]; [done|].
  rewrite fmap_cons. cbn [existsb]. intros [Hc Hs]%orb_false_iff.
  by rewrite Hc, (IH Hs).
Qed.

Lemma isna_all_no_null s :
  pd.isna_any s = false → pd.isna_all s = true → s = [].
Proof.
  destruct s as [|x s]; [done|]. unfold pd.isna_any, pd.isna_all. simpl.
  intros [Hc _]%orb_false_iff [Hc' _]%andb_true_iff. congruence.
Qed.

Lemma imputed_no_null d s :
  length s = nrows d → pd.isna_any s = false → imputed (nrows d) s = s.
Proof.
  intros Hlen Hany. unfold imputed. destruct (pd.isna_all s) eqn:Hall.
  - rewrite (isna_all_no_null s Hany Hall) in *. simpl in Hlen. by rewrite <-Hlen.
  - by apply fillna_no_null.
Qed.
End impute_facts.

Section impute_run.
Implicit Types (w : World) (d : DataFrame).

Lemma setcol_same d col (s : Series) :
  NoDup (pd.labels d) → pd.getcol d col = Some s → pd.setcol d col s = d.
Proof.
  intros Hnd Hs. unfold pd.setcol.
  assert (Hin : col ∈ pd.labels d) by (apply getcol_is_Some; eauto).
  rewrite (proj2 (contains_true d col) Hin).
  destruct d as [n cols]. cbn [nrows columns] in *. f_equal.
  unfold pd.getcol, pd.labels in *. cbn [columns] in *. clear Hin.
  induction cols as [|[k v] cols IH]; [done|].
  rewrite fmap_cons in Hnd. apply NoDup_cons in Hnd as [Hk Hnd].
  rewrite assoc_cons in Hs. rewrite fmap_cons. cbn [fst].
  destruct (decide (k = col)) as [->|Hne].
  - simplify_eq. f_equal.
    rewrite <-(list_fmap_id cols) at 2. apply list_fmap_ext.
    intros i [k' v'] Hi. cbn. case_decide as Hk'; [|done]. subst k'.
    exfalso. apply Hk. apply list_elem_of_fmap. exists (col, v').
    split; [done|]. by eapply list_elem_of_lookup_2.
  - f_equal. auto.
Qed.

(** One turn of the imputation loop. *)
Lemma impute_step w xp d col (s : Series) :
  heap w !! xp = Some d → pd.getcol d col = Some s → numeric s →
  bind (df_getcol xp col) (λ s,
    if pd.isna_all s
    then df_setscalar xp col (CFloat 0)
    else
      bind (df_getcol xp col) (λ s,
      bind (of_option TypeError (pd.mean s)) (λ mean_val,
      bind (df_getcol xp col) (λ s,
      df_setcol xp col (pd.fillna mean_val s))))) w
  = (inr tt, set_heap (<[xp := pd.setcol d col (imputed (nrows d) s)]> (heap w)) w).
Proof.
  intros Hx Hs Hnum.
  rewrite (bind_run _ _ _ _ _ (df_getcol_run _ _ _ _ _ Hx Hs)).
  unfold imputed. destruct (pd.isna_all s) eqn:Hall.
  - by rewrite (df_setscalar_run _ _ _ _ _ Hx).
  - rewrite (bind_run _ _ _ _ _ (df_getcol_run _ _ _ _ _ Hx Hs)).
    rewrite (mean_numeric s Hnum Hall). cbn [of_option].
    rewrite (bind_run _ _ _ (CFloat (pd.Qmean (present s))) w) by done.
    rewrite (bind_run _ _ _ _ _ (df_getcol_run _ _ _ _ _ Hx Hs)).
    by rewrite (df_setcol_run _ _ _ _ _ Hx).
Qed.

Lemma impute_lags_run w xp Y (s1 s2 : Series) :
  heap w !! xp = Some Y → wf_frame Y →
  pd.getcol Y "lag_1" = Some s1 → pd.getcol Y "lag_2" = Some s2 →
  numeric s1 → numeric s2 →
  ModelUtils.impute_lags xp w
  = (inr tt,
     set_heap (<[xp := pd.setcol (pd.setcol Y "lag_1" (imputed (nrows Y) s1))
                         "lag_2" (imputed (nrows Y) s2)]> (heap w)) w).
Proof.
  intros Hx [Hnd Hlen] H1 H2 Hn1 Hn2.
  assert (Hl1 : length s1 = nrows Y) by (by apply (wf_getcol_length Y "lag_1")).
  assert (Hl2 : length s2 = nrows Y) by (by apply (wf_getcol_length Y "lag_2")).
  unfold ModelUtils.impute_lags, ModelUtils.df_isna_any_any.
  rewrite (bind_run _ _ _ (pd.isna_any s1 || pd.isna_any s2) w).
  2:{ rewrite (bind_run _ _ _ _ _ (deref_run _ _ _ Hx)).
      rewrite select_NoDup; [|done|].
      2:{ intros c Hc. apply getcol_is_Some.
          apply elem_of_cons in Hc as [->|Hc]; [eauto|].
          apply elem_of_cons in Hc as [->|Hc]; [eauto|].
          by apply elem_of_nil in Hc. }
      unfold of_option, bind, ret. cbn. rewrite H1, H2. cbn.
      by rewrite orb_false_r. }
  destruct (pd.isna_any s1 || pd.isna_any s2) eqn:Hany.
  - cbn [for_each].
    rewrite (bind_run _ _ _ _ _ (impute_step _ _ _ _ _ Hx H1 Hn1)).
    erewrite bind_run.
    2:{ apply impute_step with (s := s2); [| |exact Hn2].
        - cbn [heap set_heap]. apply list_lookup_insert_eq.
          by eapply lookup_lt_Some.
        - rewrite getcol_setcol. by rewrite decide_False. }
    unfold ret. cbn [heap set_heap]. rewrite list_insert_insert_eq.
    by rewrite nrows_setcol.
  - apply orb_false_iff in Hany as [Ha1 Ha2]. unfold ret.
    rewrite (imputed_no_null Y s1 Hl1 Ha1), (imputed_no_null Y s2 Hl2 Ha2).
    rewrite (setcol_same Y "lag_1" s1 Hnd H1), (setcol_same Y "lag_2" s2 Hnd H2).
    by rewrite list_insert_id, set_heap_id.
Qed.
End impute_run.

(** C2. The imputation pass of [predict_from_df], on a frame whose lag
    columns hold numbers and nulls: each lag column is treated on its own;
    a column in which every row is null becomes 0.0 in every row, and
    otherwise every null entry becomes the mean of the non-null entries of
    that column in the same batch, the other entries being kept.  A one-row
    batch without lags comes out with [lag_1 = 0.0] and [lag_2 = 0.0]; a
    two-row batch with [lag_1 = [null, 80.0]] comes out with
    [lag_1 = [80.0, 80.0]]. *)
Theorem impute_lags_mean_or_zero :
  (∀ (w : World) (xp : loc) (Y : DataFrame) (s1 s2 : Series),
     heap w !! xp = Some Y → wf_frame Y →
     pd.getcol Y "lag_1" = Some s1 → pd.getcol Y "lag_2" = Some s2 →
     numeric s1 → numeric s2 →
     ∃ w' Y',
       ModelUtils.impute_lags xp w = (inr tt, w')
       ∧ heap w' !! xp = Some Y'
       ∧ (∀ c, c ≠ "lag_1" → c ≠ "lag_2" → pd.getcol Y' c = pd.getcol Y c)
       ∧ ∀ col s, (col, s) ∈ [("lag_1", s1); ("lag_2", s2)] →
           ∃ s', pd.getcol Y' col = Some s'
             ∧ (pd.isna_all s = true → s' = replicate (length s) (CFloat 0))
             ∧ (pd.isna_all s = false →
                s' = (λ c, if isna c then CFloat (pd.Qmean (present s)) else c) <$> s))
  ∧ (∃ xp w' Y',
       enforce_and_impute 0%nat (set_heap [Demo.no_lags] Demo.empty_world) = (inr xp, w')
       ∧ heap w' !! xp = Some Y'
       ∧ pd.getcol Y' "lag_1" = Some [CFloat 0]
       ∧ pd.getcol Y' "lag_2" = Some [CFloat 0])
  ∧ (∃ xp w' Y',
       enforce_and_impute 0%nat (set_heap [Demo.half_lags] Demo.empty_world) = (inr xp, w')
       ∧ heap w' !! xp = Some Y'
       ∧ pd.getcol Y' "lag_1" = Some [CFloat 80; CFloat 80]).
Proof.
  split; [|split].
  - intros w xp Y s1 s2 Hx Hwf H1 H2 Hn1 Hn2.
    pose proof (impute_lags_run w xp Y s1 s2 Hx Hwf H1 H2 Hn1 Hn2) as Hrun.
    set (Y' := pd.setcol (pd.setcol Y "lag_1" (imputed (nrows Y) s1))
                 "lag_2" (imputed (nrows Y) s2)) in *.
    exists (set_heap (<[xp := Y']> (heap w)) w), Y'.
    split; [exact Hrun|]. split.
    { cbn [heap set_heap]. apply list_lookup_insert_eq. by eapply lookup_lt_Some. }
    split.
    { intros c Hc1 Hc2. unfold Y'. rewrite !getcol_setcol.
      by rewrite !decide_False by done. }
    intros col s Hin.
    assert (pd.getcol Y' col = Some (imputed (nrows Y) s) ∧ length s = nrows Y)
      as [HY' Hlen].
    { unfold Y'. rewrite !getcol_setcol.
      apply elem_of_cons in Hin as [Heq|Hin]; [|apply elem_of_cons in Hin as [Heq|Hin]].
      - injection Heq as -> ->. split; [done|].
        by apply (wf_getcol_length Y "lag_1").
      - injection Heq as -> ->. split; [done|].
        by apply (wf_getcol_length Y "lag_2").
      - by apply elem_of_nil in Hin. }
    exists (imputed (nrows Y) s). split; [exact HY'|].
    unfold imputed. split; intros ->; [by rewrite Hlen | done].
  - do 3 eexists. split; [vm_compute; reflexivity|].
    split; [reflexivity|]. split; reflexivity.
  - do 3 eexists. split; [vm_compute; reflexivity|].
    split; reflexivity.
Qed.

Lemma impute_lags_mean_or_zero_witness :
  ∃ w' Y',
    ModelUtils.impute_lags 0%nat (set_heap [Demo.half_lags] Demo.empty_world)
    = (inr tt, w')
    ∧ heap w' !! 0%nat = Some Y'
    ∧ (∀ c, c ≠ "lag_1" → c ≠ "lag_2" → pd.getcol Y' c = pd.getcol Demo.half_lags c)
    ∧ ∀ col s, (col, s) ∈ [("lag_1", [CNull; CFloat 80]);
                           ("lag_2", [CFloat 70; CFloat 75])] →
        ∃ s', pd.getcol Y' col = Some s'
          ∧ (pd.isna_all s = true → s' = replicate (length s) (CFloat 0))
          ∧ (pd.isna_all s = false →
             s' = (λ c, if isna c then CFloat (pd.Qmean (present s)) else c) <$> s).
Proof.
  apply (proj1 impute_lags_mean_or_zero
           (set_heap [Demo.half_lags] Demo.empty_world) 0%nat Demo.half_lags).
  - reflexivity.
  - split; [apply (bool_decide_unpack _); vm_compute; exact I|].
    repeat constructor.
  - reflexivity.
  - reflexivity.
  - repeat (apply Forall_cons; split;
              [first [left; reflexivity | right; eexists; reflexivity]|]).
    apply Forall_nil_2.
  - repeat (apply Forall_cons; split;
              [first [left; reflexivity | right; eexists; reflexivity]|]).
    apply Forall_nil_2.
Defined.

(** ** The feature-vector builder *)

Section features_facts.
Context `{External}.

Lemma parse_timestamp_stamp w t :
  Features._parse_timestamp (Features.TsStamp t) w = (inr t, w).
Proof. done. Qed.

Lemma parse_timestamp_str_ok w s t :
  dateutil_parse s = Some t →
  Features._parse_timestamp (Features.TsStr s) w = (inr t, w).
Proof.
  intros Hs. unfold Features._parse_timestamp, try_except, bind, of_option.
  by rewrite Hs.
Qed.

Lemma parse_timestamp_str_fail w s :
  dateutil_parse s = None →
  Features._parse_timestamp (Features.TsStr s) w
  = (inl (ValueError ("Invalid timestamp format: " +:+ s)), w).
Proof.
  intros Hs. unfold Features._parse_timestamp, try_except, bind, of_option.
  by rewrite Hs.
Qed.

Lemma make_features_run w arg t lag_1 lag_2 is_festival :
  Features._parse_timestamp arg w = (inr t, w) →
  Features.make_features arg lag_1 lag_2 is_festival w
  = (inr (length (heap w)),
     set_heap (heap w ++
       [one_row (feature_record (lag_cell lag_1) (lag_cell lag_2) t
                   (default 0 is_festival))]) w).
Proof.
  intros Hp. unfold Features.make_features.
  rewrite (bind_run _ _ _ _ _ Hp). unfold alloc.
  by destruct lag_1, lag_2, is_festival.
Qed.
End features_facts.

(** C5. For every canonical timestamp and optional inputs, [make_features]
    returns a frame of one row with exactly the fields [lag_1, lag_2, hour,
    day_of_week, month, is_weekend, is_festival]; an absent [is_festival]
    is 0, and an absent lag stays null (it is not given a zero at this
    stage).  A timestamp text that parses gives the row of the parsed
    instant.  For a Sunday at hour 15 in December (7 December 2025 is one)
    with [lag_1 = 120.0], [lag_2 = 100.0], [is_festival = 1] the row is
    [{lag_1: 120.0, lag_2: 100.0, hour: 15, day_of_week: 6, month: 12,
    is_weekend: 1, is_festival: 1}]. *)
Theorem make_features_vector (ext : External) :
  (∀ (w : World) (t : Timestamp) (lag_1 lag_2 : option Q) (is_festival : option Z),
     ∃ x w' F,
       Features.make_features (Features.TsStamp t) lag_1 lag_2 is_festival w
       = (inr x, w')
       ∧ heap w' !! x = Some F
       ∧ nrows F = 1%nat
       ∧ pd.to_records F
         = [[ ("lag_1", match lag_1 with Some v => CFloat v | None => CNull end);
              ("lag_2", match lag_2 with Some v => CFloat v | None => CNull end);
              ("hour", CInt (ts_hour t));
              ("day_of_week", CInt (Calendar.dayofweek t));
              ("month", CInt (ts_month t));
              ("is_weekend", CInt (if 5 <=? Calendar.dayofweek t then 1 else 0));
              ("is_festival",
               CInt (match is_festival with Some f => f | None => 0 end)) ]])
  ∧ (∀ (w : World) (s : string) (t : Timestamp) lag_1 lag_2 is_festival,
       dateutil_parse s = Some t →
       Features.make_features (Features.TsStr s) lag_1 lag_2 is_festival w
       = Features.make_features (Features.TsStamp t) lag_1 lag_2 is_festival w)
  ∧ (∀ (w : World) (t : Timestamp),
       ts_hour t = 15 → Calendar.dayofweek t = 6 → ts_month t = 12 →
       ∃ x w' F,
         Features.make_features (Features.TsStamp t)
           (Some 120%Q) (Some 100%Q) (Some 1) w = (inr x, w')
         ∧ heap w' !! x = Some F
         ∧ pd.to_records F
           = [[ ("lag_1", CFloat 120); ("lag_2", CFloat 100); ("hour", CInt 15);
                ("day_of_week", CInt 6); ("month", CInt 12); ("is_weekend", CInt 1);
                ("is_festival", CInt 1) ]])
  ∧ Calendar.dayofweek (mkTimestamp 2025 12 7 15 0 0) = 6.
Proof.
  split; [|split; [|split]].
  - intros w t lag_1 lag_2 is_festival.
    do 3 eexists. split.
    { apply make_features_run. apply parse_timestamp_stamp. }
    split; [cbn [heap set_heap]; by apply list_lookup_middle|].
    split; [done|]. by destruct lag_1, lag_2, is_festival.
  - intros w s t lag_1 lag_2 is_festival Hs.
    rewrite (make_features_run w (Features.TsStr s) t)
      by (by apply parse_timestamp_str_ok).
    by rewrite (make_features_run w (Features.TsStamp t) t)
      by apply parse_timestamp_stamp.
  - intros w t Hh Hd Hm.
    do 3 eexists. split.
    { apply make_features_run. apply parse_timestamp_stamp. }
    split; [cbn [heap set_heap]; by apply list_lookup_middle|].
    unfold one_row, feature_record, pd.to_records. cbn.
    by rewrite Hh, Hd, Hm.
  - reflexivity.
Qed.

Lemma make_features_vector_witness :
  (dateutil_parse (External := Demo.ext) "2025-12-07T15:00:00"
   = Some (mkTimestamp 2025 12 7 15 0 0)
   ∧ Features.make_features (H := Demo.ext) (Features.TsStr "2025-12-07T15:00:00")
       (Some 120%Q) (Some 100%Q) (Some 1) Demo.empty_world
     = Features.make_features (H := Demo.ext)
         (Features.TsStamp (mkTimestamp 2025 12 7 15 0 0))
         (Some 120%Q) (Some 100%Q) (Some 1) Demo.empty_world)
  ∧ ∃ x w' F,
      Features.make_features (H := Demo.ext)
        (Features.TsStamp (mkTimestamp 2025 12 7 15 0 0))
        (Some 120%Q) (Some 100%Q) (Some 1) Demo.empty_world = (inr x, w')
      ∧ heap w' !! x = Some F
      ∧ pd.to_records F
        = [[ ("lag_1", CFloat 120); ("lag_2", CFloat 100); ("hour", CInt 15);
             ("day_of_week", CInt 6); ("month", CInt 12); ("is_weekend", CInt 1);
             ("is_festival", CInt 1) ]].
Proof.
  destruct (make_features_vector Demo.ext) as (_ & Hstr & Hsunday & _).
  split.
  - split; [reflexivity|]. apply Hstr. reflexivity.
  - apply Hsunday; reflexivity.
Defined.

(** ** Invalid timestamps on the two request paths *)

(** C6. [_parse_timestamp] fails exactly on a missing timestamp and on a
    text the parser rejects, always with a [ValueError].  On the report
    path the handler turns the parser's failure into [HTTPException(400)],
    a client-input error.  On the prediction path the handler does not: a
    request whose timestamp does not parse leaves [predict] with the bare
    [ValueError] of [_parse_timestamp], which is not an HTTP client error. *)
Theorem invalid_timestamp_paths (ext : External) :
  (∀ (arg : Features.ts_arg) (w : World),
     (∃ e, Features._parse_timestamp arg w = (inl e, w))
     ↔ (arg = Features.TsNone
        ∨ ∃ s, arg = Features.TsStr s ∧ dateutil_parse s = None))
  ∧ (∀ (arg : Features.ts_arg) (w w' : World) (e : exn),
       Features._parse_timestamp arg w = (inl e, w') →
       w' = w ∧ ∃ msg, e = ValueError msg)
  ∧ (∀ (text : string) (w : World),
       dateutil_parse text = None →
       (∀ views fest,
          Main.report (Main.ReportRequest.mk text views fest) w
          = (inl (HTTPException 400 "Invalid timestamp format"), w))
       ∧ (∀ lag_1 lag_2 fest,
            Main.predict (Main.PredictRequest.mk text lag_1 lag_2 fest) w
            = (inl (ValueError ("Invalid timestamp format: " +:+ text)), w))).
Proof.
  split; [|split].
  - intros arg w. split.
    + intros [e He]. destruct arg as [|t|s]; [by left | done |].
      right. exists s. split; [done|].
      destruct (dateutil_parse s) as [t|] eqn:Hs; [|done].
      by rewrite (parse_timestamp_str_ok w s t Hs) in He.
    + intros [->|(s & -> & Hs)].
      * by eexists.
      * eexists. by apply parse_timestamp_str_fail.
  - intros arg w w' e He. destruct arg as [|t|s].
    + cbn in He. injection He as <- <-. eauto.
    + done.
    + destruct (dateutil_parse s) as [t|] eqn:Hs.
      * by rewrite (parse_timestamp_str_ok w s t Hs) in He.
      * rewrite (parse_timestamp_str_fail w s Hs) in He.
        injection He as <- <-. eauto.
  - intros text w Hp. split.
    + intros views fest. unfold Main.report. cbn [Main.ReportRequest.timestamp].
      erewrite bind_fail; [done|].
      unfold try_except, of_option. by rewrite Hp.
    + intros lag_1 lag_2 fest. unfold Main.predict.
      cbn [Main.PredictRequest.timestamp].
      erewrite bind_fail; [done|].
      unfold Features.make_features.
      erewrite bind_fail; [done|]. by apply parse_timestamp_str_fail.
Qed.

Lemma invalid_timestamp_paths_witness :
  dateutil_parse (External := Demo.ext) "not a date" = None
  ∧ (∀ views fest,
       Main.report (H := Demo.ext) (Main.ReportRequest.mk "not a date" views fest)
         Demo.world_with_model
       = (inl (HTTPException 400 "Invalid timestamp format"), Demo.world_with_model))
  ∧ (∀ lag_1 lag_2 fest,
       Main.predict (H := Demo.ext) (Main.PredictRequest.mk "not a date" lag_1 lag_2 fest)
         Demo.world_with_model
       = (inl (ValueError "Invalid timestamp format: not a date"),
          Demo.world_with_model)).
Proof.
  split; [reflexivity|].
  exact (proj2 (proj2 (invalid_timestamp_paths Demo.ext))
           "not a date" Demo.world_with_model eq_refl).
Defined.

(** ** The prediction path *)

Lemma load_model_run w m :
  files w !! ModelUtils.MODEL_PATH = Some (FModel m) →
  ModelUtils._load_model w = (inr m, w).
Proof.
  intros Hf. unfold ModelUtils._load_model, path_exists, bind, ModelUtils.joblib_load.
  rewrite Hf. rewrite bool_decide_eq_true_2 by eauto. cbn. by rewrite Hf.
Qed.

Lemma load_model_inv w m w' :
  ModelUtils._load_model w = (inr m, w') →
  files w !! ModelUtils.MODEL_PATH = Some (FModel m) ∧ w' = w.
Proof.
  unfold ModelUtils._load_model, path_exists, bind, ModelUtils.joblib_load, raise.
  destruct (files w !! ModelUtils.MODEL_PATH) as [[| m' |]|] eqn:Hf.
  - rewrite bool_decide_eq_true_2 by eauto. cbn. by rewrite Hf.
  - rewrite bool_decide_eq_true_2 by eauto. cbn. rewrite Hf.
    intros [= -> ->]. done.
  - rewrite bool_decide_eq_true_2 by eauto. cbn. by rewrite Hf.
  - rewrite bool_decide_eq_false_2; [done|]. by intros [? ?].
Qed.

(** [predict_from_df] on a one-row frame in schema order: the frame at [x]
    is left as it is, and the model is called on a new frame in which a
    null lag is 0.0. *)
Lemma predict_from_df_one_row w x (l1 l2 : option Q) (h d mo wk fe : cell) m :
  let X := one_row [("lag_1", lag_cell l1); ("lag_2", lag_cell l2); ("hour", h);
                    ("day_of_week", d); ("month", mo); ("is_weekend", wk);
                    ("is_festival", fe)] in
  let fed := one_row [("lag_1", lag_fed l1); ("lag_2", lag_fed l2); ("hour", h);
                      ("day_of_week", d); ("month", mo); ("is_weekend", wk);
                      ("is_festival", fe)] in
  heap w !! x = Some X →
  files w !! ModelUtils.MODEL_PATH = Some (FModel m) →
  ModelUtils.predict_from_df x w = (m fed, set_heap (heap w ++ [X; fed]) w).
Proof.
  intros X fed Hx Hf.
  assert (Hnd : NoDup (pd.labels X))
    by (apply (bool_decide_unpack _); vm_compute; exact I).
  pose proof (ensure_columns_run w x X Hx Hnd) as Hens. cbv zeta in Hens.
  replace (foldl add_default X ModelUtils.FEATURE_COLS) with X in Hens
    by (vm_compute; reflexivity).
  replace (mkDF (nrows X)
             ((λ c, (c, default [] (pd.getcol X c))) <$> ModelUtils.FEATURE_COLS))
    with X in Hens by reflexivity.
  assert (Hwf : wf_frame X).
  { split; [exact Hnd|]. unfold X, one_row. cbn. repeat constructor. }
  assert (Hnum : ∀ l, numeric [lag_cell l]).
  { intros [v|]; (apply Forall_cons; split; [|apply Forall_nil_2]);
      [right; by eexists | by left]. }
  pose proof (impute_lags_run (set_heap (heap w ++ [X; X]) w) (S (length (heap w)))
                X [lag_cell l1] [lag_cell l2]) as Himp.
  replace (pd.setcol (pd.setcol X "lag_1" (imputed (nrows X) [lag_cell l1]))
             "lag_2" (imputed (nrows X) [lag_cell l2])) with fed in Himp
    by (by destruct l1, l2).
  assert (Hxp : heap (set_heap (heap w ++ [X; X]) w) !! S (length (heap w)) = Some X).
  { cbn [heap set_heap]. change [X; X] with ([X] ++ [X]). rewrite app_assoc.
    apply list_lookup_middle. rewrite length_app. cbn [length]. lia. }
  specialize (Himp Hxp Hwf eq_refl eq_refl (Hnum l1) (Hnum l2)).
  assert (Hins : <[S (length (heap w)) := fed]> (heap w ++ [X; X]) = heap w ++ [X; fed]).
  { change [X; X] with ([X] ++ [X]). rewrite app_assoc.
    rewrite (insert_app_r_alt _ _ (S (length (heap w))))
      by (rewrite length_app; cbn [length]; lia).
    replace (S (length (heap w)) - length (heap w ++ [X]))%nat with 0%nat
      by (rewrite length_app; cbn [length]; lia).
    cbn [insert list_insert]. by rewrite <-app_assoc. }
  cbn [heap set_heap] in Himp. rewrite Hins in Himp.
  change (set_heap (heap w ++ [X; fed]) (set_heap (heap w ++ [X; X]) w))
    with (set_heap (heap w ++ [X; fed]) w) in Himp.
  unfold ModelUtils.predict_from_df.
  rewrite (bind_run _ _ _ _ _ (load_model_run w m Hf)).
  rewrite (bind_run _ _ _ _ _ Hens).
  rewrite (bind_run _ _ _ _ _ Himp).
  erewrite bind_run.
  2:{ apply deref_run. cbn [heap set_heap].
      change [X; fed] with ([X] ++ [fed]). rewrite app_assoc.
      apply list_lookup_middle. rewrite length_app. cbn [length]. lia. }
  unfold bind, of_sum, ret, raise. by destruct (m fed).
Qed.

(** C10. Whenever [/predict] answers, the [input] field of the response is
    the feature vector as [make_features] built it from the request, with a
    lag that the request left out still null.  The frame that vector lives
    in is not touched: schema enforcement works on a copy, imputation on
    the re-ordered selection of that copy, and it is this third frame, with
    0.0 in place of a null lag, that the model is called on. *)
Theorem predict_echoes_built_vector (ext : External)
    (req : Main.PredictRequest.t) (w w' : World) (resp : Main.PredictResponse.t) :
  Main.predict req w = (inr resp, w') →
  ∃ (t : Timestamp) (m : Model),
    dateutil_parse (Main.PredictRequest.timestamp req) = Some t
    ∧ files w !! ModelUtils.MODEL_PATH = Some (FModel m)
    ∧ let fest := default 0 (Main.PredictRequest.is_festival req) in
      let built := feature_record (lag_cell (Main.PredictRequest.lag_1 req))
                     (lag_cell (Main.PredictRequest.lag_2 req)) t fest in
      let fed := feature_record (lag_fed (Main.PredictRequest.lag_1 req))
                   (lag_fed (Main.PredictRequest.lag_2 req)) t fest in
      Main.PredictResponse.input resp = built
      ∧ heap w' = heap w ++ [one_row built; one_row built; one_row fed]
      ∧ m (one_row fed) = inr [Main.PredictResponse.prediction resp].
Proof.
  destruct req as [text l1 l2 f]. cbn [Main.PredictRequest.timestamp
    Main.PredictRequest.lag_1 Main.PredictRequest.lag_2
    Main.PredictRequest.is_festival].
  unfold Main.predict. cbn [Main.PredictRequest.timestamp
    Main.PredictRequest.lag_1 Main.PredictRequest.lag_2
    Main.PredictRequest.is_festival].
  intros Hrun.
  apply bind_inv in Hrun as (x & w1 & Hmk & Hrun).
  destruct (dateutil_parse text) as [t|] eqn:Hp.
  2:{ unfold Features.make_features in Hmk.
      by rewrite (bind_fail _ _ _ _ _ (parse_timestamp_str_fail w text Hp)) in Hmk. }
  rewrite (make_features_run w _ t) in Hmk by (by apply parse_timestamp_str_ok).
  injection Hmk as <- <-.
  apply bind_inv in Hrun as (pred & w2 & Hpred & Hrun).
  pose proof Hpred as Hload. unfold ModelUtils.predict_from_df in Hload.
  apply bind_inv in Hload as (m & w1' & Hload & _).
  apply load_model_inv in Hload as [Hfile _]. cbn [files set_heap] in Hfile.
  set (built := feature_record (lag_cell l1) (lag_cell l2) t (default 0 f)) in *.
  rewrite (predict_from_df_one_row _ (length (heap w)) l1 l2
             (CInt (ts_hour t)) (CInt (Calendar.dayofweek t)) (CInt (ts_month t))
             (CInt (if 5 <=? Calendar.dayofweek t then 1 else 0))
             (CInt (default 0 f)) m) in Hpred.
  2:{ cbn [heap set_heap]. by apply list_lookup_middle. }
  2:{ exact Hfile. }
  injection Hpred as Hm <-.
  apply bind_inv in Hrun as (p & w3 & Hp3 & Hrun).
  destruct pred as [|v [|? ?]]; try discriminate Hp3.
  injection Hp3 as <- <-.
  apply bind_inv in Hrun as (d & w4 & Hd & Hrun).
  apply deref_inv in Hd as [Hd ->].
  cbn [heap set_heap] in Hd.
  rewrite lookup_app_l in Hd by (rewrite length_app; cbn [length]; lia).
  rewrite list_lookup_middle in Hd by done. injection Hd as <-.
  apply bind_inv in Hrun as (r & w5 & Hr & Hrun).
  cbn in Hr. injection Hr as <- <-.
  injection Hrun as <- <-.
  exists t, m. split; [done|]. split; [done|].
  cbn [Main.PredictResponse.input Main.PredictResponse.prediction heap set_heap].
  split; [done|]. split; [by rewrite <-app_assoc | done].
Qed.

Lemma predict_echoes_built_vector_witness :
  let out := Main.predict (H := Demo.ext) Demo.sunday_request Demo.world_with_model in
  let resp :=
    Main.PredictResponse.mk 0
      [("lag_1", CNull); ("lag_2", CNull); ("hour", CInt 15); ("day_of_week", CInt 6);
       ("month", CInt 12); ("is_weekend", CInt 1); ("is_festival", CInt 1)] in
  out = (inr resp, out.2)
  ∧ ∃ (t : Timestamp) (m : Model),
      dateutil_parse (External := Demo.ext) "2025-12-07T15:00:00" = Some t
      ∧ files Demo.world_with_model !! ModelUtils.MODEL_PATH = Some (FModel m)
      ∧ Main.PredictResponse.input resp
        = feature_record CNull CNull t 1
      ∧ heap out.2
        = [one_row (feature_record CNull CNull t 1);
           one_row (feature_record CNull CNull t 1);
           one_row (feature_record (CFloat 0) (CFloat 0) t 1)]
      ∧ m (one_row (feature_record (CFloat 0) (CFloat 0) t 1)) = inr [0%Q].
Proof.
  intros out resp.
  assert (Hout : out = (inr resp, out.2)) by (vm_compute; reflexivity).
  split; [exact Hout|].
  exact (predict_echoes_built_vector Demo.ext Demo.sunday_request
           Demo.world_with_model out.2 resp Hout).
Defined.

(** ** Rows picked by position *)

Section pick_facts.
Context {A : Type}.
Implicit Types (l : list A) (idx : list nat).

Lemma pick_in_range l idx :
  Forall (λ i, i < length l)%nat idx → length (pick l idx) = length idx.
Proof.
  unfold pick. induction 1 as [|i idx Hi _ IH]; [done|].
  cbn. destruct (lookup_lt_is_Some_2 l i Hi) as [a ->]. cbn. by rewrite IH.
Qed.

Lemma pick_app_l l k idx :
  Forall (λ i, i < length l)%nat idx → pick (l ++ k) idx = pick l idx.
Proof.
  unfold pick. induction 1 as [|i idx Hi _ IH]; [done|].
  cbn. by rewrite lookup_app_l, IH.
Qed.

Lemma where_in_range keep n : Forall (λ i, i < n)%nat (pd.where_ keep n).
Proof.
  unfold pd.where_. apply Forall_forall. intros i Hi.
  apply list_elem_of_filter in Hi as [_ Hi]. apply elem_of_seq in Hi. lia.
Qed.

(** Picking the positions that pass a test on the element is filtering. *)
Lemma pick_where l (keep : nat → bool) (P : A → bool) :
  (∀ i a, l !! i = Some a → keep i = P a) →
  pick l (pd.where_ keep (length l)) = filter (λ a, P a = true) l.
Proof.
  induction l as [|a l IH] using rev_ind; intros Hk; [done|].
  rewrite length_app. cbn [length]. unfold pd.where_.
  rewrite Nat.add_1_r, seq_S, !filter_app. cbn [Nat.add].
  unfold pick. rewrite omap_app.
  fold (pd.where_ keep (length l)). fold (pick (l ++ [a]) (pd.where_ keep (length l))).
  rewrite pick_app_l by apply where_in_range.
  rewrite IH.
  2:{ intros i b Hi. apply Hk. by apply lookup_app_l_Some. }
  f_equal. rewrite !filter_cons, !filter_nil.
  rewrite (Hk (length l) a) by (by apply list_lookup_middle).
  destruct (decide (P a = true)); [|done].
  cbn. by rewrite list_lookup_middle.
Qed.

Lemma pick_seq l k m :
  (k + m ≤ length l)%nat → pick l (seq k m) = take m (drop k l).
Proof.
  revert k l. induction m as [|m IH]; intros k l Hlen; [by rewrite take_0|].
  cbn [seq]. unfold pick. cbn [omap list_omap].
  destruct (lookup_lt_is_Some_2 l k ltac:(lia)) as [a Ha]. rewrite Ha.
  fold (pick l (seq (S k) m)). rewrite IH by lia.
  rewrite (drop_S l a k Ha). by cbn.
Qed.

Lemma pick_all l : pick l (seq 0 (length l)) = l.
Proof. rewrite pick_seq by lia. by rewrite drop_0, firstn_all. Qed.

Lemma pick_permutation l idx : idx ≡ₚ seq 0 (length l) → pick l idx ≡ₚ l.
Proof.
  intros Hp. unfold pick. rewrite Hp. fold (pick l (seq 0 (length l))).
  by rewrite pick_all.
Qed.

Lemma at_fmap_pick (f : A → cell) l idx :
  Forall (λ i, i < length l)%nat idx →
  pd.at_ (f <$> l) <$> idx = f <$> pick l idx.
Proof.
  unfold pick. induction 1 as [|i idx Hi _ IH]; [done|].
  cbn. destruct (lookup_lt_is_Some_2 l i Hi) as [a Ha]. rewrite Ha. cbn.
  rewrite <-IH. f_equal. unfold pd.at_. by rewrite list_lookup_fmap, Ha.
Qed.

Lemma take_rows_table (cols : list (string * (A → cell))) l idx :
  Forall (λ i, i < length l)%nat idx →
  pd.take_rows idx (table cols l) = table cols (pick l idx).
Proof.
  intros Hidx. unfold pd.take_rows, table. cbn [nrows columns].
  rewrite (pick_in_range l idx Hidx). f_equal.
  rewrite <-list_fmap_compose. apply list_fmap_ext.
  intros i [c f] _. cbn. by rewrite at_fmap_pick.
Qed.

Lemma getcol_table (cols : list (string * (A → cell))) l c :
  pd.getcol (table cols l) c = (λ f : A → cell, f <$> l) <$> pd.assoc cols c.
Proof.
  unfold pd.getcol, table. cbn [columns].
  induction cols as [|[k f] cols IH]; [done|].
  rewrite fmap_cons. cbn [fst snd]. rewrite !assoc_cons.
  by destruct (decide (k = c)).
Qed.

Lemma table_where (cols : list (string * (A → cell))) l keep (P : A → bool) :
  (∀ i a, l !! i = Some a → keep i = P a) →
  pd.take_rows (pd.where_ keep (length l)) (table cols l)
  = table cols (filter (λ a, P a = true) l).
Proof.
  intros Hk. rewrite take_rows_table by apply where_in_range.
  by rewrite (pick_where l keep P Hk).
Qed.
End pick_facts.

Lemma argsort_permutation (s : Series) : pd.argsort s ≡ₚ seq 0 (length s).
Proof.
  unfold pd.argsort. rewrite merge_sort_Permutation.
  rewrite snd_zip; [done|]. by rewrite length_fmap, length_seq.
Qed.

Lemma argsort_in_range (s : Series) :
  Forall (λ i, i < length s)%nat (pd.argsort s).
Proof.
  apply Forall_forall. intros i Hi. rewrite argsort_permutation in Hi.
  apply elem_of_seq in Hi. lia.
Qed.

Lemma chronological_permutation (l : list Sample) : chronological l ≡ₚ l.
Proof.
  unfold chronological. apply pick_permutation.
  rewrite argsort_permutation. by rewrite length_fmap.
Qed.

Lemma chronological_length (l : list Sample) : length (chronological l) = length l.
Proof. by rewrite chronological_permutation. Qed.

(** ** The frames of a loader *)

Section loader_frames.
Context `{External}.
Variable infer : bool.
Implicit Types (obs : list Observation).

Lemma parsed_length obs : length (parsed infer obs) = length obs.
Proof. unfold parsed. by rewrite to_datetime_length, length_fmap. Qed.

Lemma stamped_length obs : length (stamped infer obs) = length obs.
Proof. unfold stamped. rewrite length_zip, parsed_length. lia. Qed.

Lemma stamped_fst {B} (g : option Timestamp → B) obs :
  (λ p, g p.1) <$> stamped infer obs = g <$> parsed infer obs.
Proof.
  unfold stamped. transitivity (g <$> (zip (parsed infer obs) obs).*1).
  - by rewrite <-list_fmap_compose.
  - by rewrite fst_zip by (rewrite parsed_length; lia).
Qed.

Lemma stamped_snd {B} (g : Observation → B) obs :
  (λ p, g p.2) <$> stamped infer obs = g <$> obs.
Proof.
  unfold stamped. transitivity (g <$> (zip (parsed infer obs) obs).*2).
  - by rewrite <-list_fmap_compose.
  - by rewrite snd_zip by (rewrite parsed_length; lia).
Qed.

(** The timestamp column after [astype(str).str.strip()]. *)
Lemma stripped_column obs :
  (λ c, CStr (strip (astype_str c))) <$> ((λ o, CStr (obs_timestamp o)) <$> obs)
  = (λ o, CStr (strip (obs_timestamp o))) <$> obs.
Proof. by rewrite <-list_fmap_compose. Qed.

(** The timestamp column after [pd.to_datetime(.., errors="coerce")]. *)
Lemma datetime_column obs :
  pd_to_datetime infer ((λ o, CStr (strip (obs_timestamp o))) <$> obs)
  = (λ p, match p.1 with Some t => CTime t | None => CNull end) <$> stamped infer obs.
Proof.
  unfold pd_to_datetime. rewrite <-list_fmap_compose.
  by rewrite (stamped_fst (λ o, match o with Some t => CTime t | None => CNull end)).
Qed.

(** The frame of a store once its timestamp column has been parsed. *)
Lemma stamped_frame_eq obs :
  pd.setcol
    (pd.setcol (store_frame obs) "timestamp"
       ((λ o, CStr (strip (obs_timestamp o))) <$> obs))
    "timestamp"
    ((λ p, match p.1 with Some t => CTime t | None => CNull end) <$> stamped infer obs)
  = table stamped_columns (stamped infer obs).
Proof.
  unfold table, stamped_columns. rewrite stamped_length. cbn [fmap list_fmap fst snd].
  rewrite (stamped_snd (λ o, CInt (obs_page_views o))).
  rewrite (stamped_snd (λ o, CInt (obs_is_festival o))).
  reflexivity.
Qed.

Lemma num_bad_rejected obs :
  length (filter (λ c, isna c = true)
            ((λ p : option Timestamp * Observation,
                match p.1 with Some t => CTime t | None => CNull end) <$> stamped infer obs))
  = length (rejected infer obs).
Proof.
  unfold rejected. induction (stamped infer obs) as [|[[t|] o] l IH]; [done| |].
  - rewrite fmap_cons, !filter_cons_False by done. exact IH.
  - rewrite fmap_cons, !filter_cons_True by done. cbn [length]. by rewrite IH.
Qed.

Lemma rejected_frame_eq obs :
  pd.mask_rows
    (isna <$> ((λ p : option Timestamp * Observation,
                  match p.1 with Some t => CTime t | None => CNull end)
               <$> stamped infer obs))
    (table stamped_columns (stamped infer obs))
  = table stamped_columns (rejected infer obs).
Proof.
  unfold pd.mask_rows, rejected. cbn [nrows table].
  rewrite (table_where _ _ _ (λ p, bool_decide (p.1 = None))).
  - f_equal. apply list_filter_iff. intros p. apply bool_decide_eq_true.
  - intros i [[t|] o] Hi; rewrite <-list_fmap_compose, list_lookup_fmap, Hi; done.
Qed.

Lemma rejected_csv obs :
  pd.labels (table stamped_columns (rejected infer obs))
  :: ((λ r : list cell, csv_field <$> r) <$> pd.rows (table stamped_columns (rejected infer obs)))
  = rejected_lines infer obs.
Proof.
  unfold rejected_lines. f_equal. unfold pd.rows, table. cbn [nrows columns].
  apply list_eq. intros i.
  rewrite !list_lookup_fmap.
  destruct (decide (i < length (rejected infer obs))%nat) as [Hi|Hi].
  - rewrite lookup_seq_lt by done. cbn.
    destruct (lookup_lt_is_Some_2 _ _ Hi) as [p Hp]. rewrite Hp. cbn.
    unfold pd.row_at, pd.at_. cbn. rewrite !list_lookup_fmap, Hp. cbn.
    assert (p.1 = None) as ->; [|done].
    apply list_elem_of_lookup_2 in Hp. unfold rejected in Hp.
    by apply list_elem_of_filter in Hp as [? _].
  - rewrite lookup_seq_ge by lia. by rewrite lookup_ge_None_2 by lia.
Qed.

(** The rows with a parsed timestamp are the samples of the store. *)
Lemma valid_frame_eq obs :
  pd.dropna_subset (table stamped_columns (stamped infer obs)) ["timestamp"]
  = Some (timed_frame (samples infer obs)).
Proof.
  unfold pd.dropna_subset. cbn [mapM]. rewrite getcol_table.
  replace (pd.assoc stamped_columns "timestamp")
    with (Some (λ p : option Timestamp * Observation,
                  match p.1 with Some t => CTime t | None => CNull end))
    by reflexivity.
  cbn -[table pd.take_rows pd.where_ forallb].
  change (nrows (table stamped_columns (stamped infer obs))) with (length (stamped infer obs)).
  f_equal.
  rewrite (table_where _ _ _
             (λ p, notna (match p.1 with Some t => CTime t | None => CNull end) && true)).
  2:{ intros i p Hi. unfold pd.at_. cbn [forallb].
      by rewrite list_lookup_fmap, Hi. }
  unfold samples. induction (stamped infer obs) as [|[[t|] o] l IH]; [done| |].
  - rewrite filter_cons_True by done. cbn [omap list_omap fst snd fmap option_fmap option_map].
    unfold table, timed_frame, table in *.
    cbn in *. injection IH as Hn H1 H2 H3. by rewrite Hn, H1, H2, H3.
  - rewrite filter_cons_False by done. exact IH.
Qed.

Lemma sorted_frame_eq (v : list Sample) :
  pd.sort_values (timed_frame v) "timestamp"
  = Some (timed_frame (chronological v)).
Proof.
  unfold pd.sort_values, timed_frame. rewrite getcol_table.
  replace (pd.assoc timed_columns "timestamp")
    with (Some (λ s : Sample, CTime (time s))) by reflexivity.
  cbn -[pd.take_rows pd.argsort table].
  f_equal. unfold chronological.
  rewrite <-take_rows_table; [done|].
  rewrite <-(length_fmap (λ s, CTime (time s))). apply argsort_in_range.
Qed.

Lemma tail_frame_eq n (l : list Sample) :
  pd.tail n (timed_frame l) = timed_frame (last_n n l).
Proof.
  unfold pd.tail. change (nrows (timed_frame l)) with (length l).
  unfold timed_frame. rewrite take_rows_table.
  2:{ apply Forall_forall. intros i Hi%elem_of_seq. lia. }
  f_equal. rewrite pick_seq by lia. unfold last_n.
  apply take_ge. rewrite length_drop. lia.
Qed.
End loader_frames.

(** ** Running the loaders *)

Ltac py_step tac := erewrite bind_run; [cbv beta | tac].

Section loader_run.
Context `{External}.
Variable infer : bool.
Implicit Types (w : World) (obs : list Observation).

Lemma path_exists_run w p f :
  files w !! p = Some f → path_exists p w = (inr true, w).
Proof. intros Hf. unfold path_exists. by rewrite Hf, bool_decide_eq_true_2 by eauto. Qed.

Lemma pd_read_csv_run w p lines d :
  files w !! p = Some (FCsv lines) → read_csv lines = inr d →
  pd_read_csv p w = (inr (length (heap w)), set_heap (heap w ++ [d]) w).
Proof. intros Hf Hr. unfold pd_read_csv. by rewrite Hf, Hr. Qed.

Lemma df_mask_run w x d mask :
  heap w !! x = Some d →
  df_mask x mask w
  = (inr (length (heap w)), set_heap (heap w ++ [pd.mask_rows mask d]) w).
Proof. intros Hx. unfold df_mask. by rewrite (bind_run _ _ _ _ _ (deref_run _ _ _ Hx)). Qed.

Lemma df_dropna_run w x d :
  heap w !! x = Some d →
  df_dropna x w = (inr (length (heap w)), set_heap (heap w ++ [pd.dropna d]) w).
Proof. intros Hx. unfold df_dropna. by rewrite (bind_run _ _ _ _ _ (deref_run _ _ _ Hx)). Qed.

Lemma df_dropna_subset_run w x d cols d' :
  heap w !! x = Some d → pd.dropna_subset d cols = Some d' →
  df_dropna_subset x cols w = (inr (length (heap w)), set_heap (heap w ++ [d']) w).
Proof.
  intros Hx Hd. unfold df_dropna_subset.
  rewrite (bind_run _ _ _ _ _ (deref_run _ _ _ Hx)). by rewrite Hd.
Qed.

Lemma df_sort_values_run w x d col d' :
  heap w !! x = Some d → pd.sort_values d col = Some d' →
  df_sort_values x col w = (inr (length (heap w)), set_heap (heap w ++ [d']) w).
Proof.
  intros Hx Hd. unfold df_sort_values.
  rewrite (bind_run _ _ _ _ _ (deref_run _ _ _ Hx)). by rewrite Hd.
Qed.

Lemma df_tail_run w x d n :
  heap w !! x = Some d →
  df_tail x n w = (inr (length (heap w)), set_heap (heap w ++ [pd.tail n d]) w).
Proof. intros Hx. unfold df_tail. by rewrite (bind_run _ _ _ _ _ (deref_run _ _ _ Hx)). Qed.

Lemma df_len_run w x d :
  heap w !! x = Some d → df_len x w = (inr (nrows d), w).
Proof. intros Hx. unfold df_len. by rewrite (bind_run _ _ _ _ _ (deref_run _ _ _ Hx)). Qed.

Lemma df_to_csv_run w x d p :
  heap w !! x = Some d →
  df_to_csv x p w
  = (inr tt,
     set_files (<[p := FCsv (pd.labels d
                             :: ((λ r : list cell, csv_field <$> r) <$> pd.rows d))]>
                  (files w)) w).
Proof. intros Hx. unfold df_to_csv. by rewrite (bind_run _ _ _ _ _ (deref_run _ _ _ Hx)). Qed.

(** The quarantine block of a loader. *)
Lemma quarantine_run data_path bad_file obs w x :
  heap w !! x = Some (table stamped_columns (stamped infer obs)) →
  (if (0 <? length (rejected infer obs))%nat
   then
     bind (print ("Warning: " +:+ str_of_nat (length (rejected infer obs)) +:+ " row(s) in "
                  +:+ data_path +:+ " have invalid timestamps and will be dropped."))
       (λ _,
     bind (df_getcol x "timestamp") (λ s,
     bind (df_mask x (isna <$> s)) (λ bad_rows,
     bind (df_to_csv bad_rows bad_file) (λ _,
     print ("Bad rows saved to: " +:+ bad_file)))))
   else ret tt) w
  = (inr tt, quarantined infer data_path bad_file obs w).
Proof.
  intros Hx. unfold quarantined.
  destruct (0 <? length (rejected infer obs))%nat; [|done].
  py_step ltac:(reflexivity).
  py_step ltac:(eapply df_getcol_run; [exact Hx|];
                rewrite getcol_table; reflexivity).
  py_step ltac:(eapply df_mask_run; exact Hx).
  rewrite rejected_frame_eq.
  py_step ltac:(apply df_to_csv_run; cbn [heap set_heap set_stdout];
                by apply list_lookup_middle).
  rewrite rejected_csv. unfold print, set_files, set_heap, set_stdout.
  cbn [heap files stdout clock]. by rewrite <-app_assoc.
Qed.

Lemma quarantined_heap_prefix data_path bad_file obs w x d :
  heap w !! x = Some d →
  heap (quarantined infer data_path bad_file obs w) !! x = Some d.
Proof.
  intros Hx. unfold quarantined.
  destruct (0 <? length (rejected infer obs))%nat; [|done].
  cbn [heap]. by apply lookup_app_l_Some.
Qed.

(** The steps of a loader from [dropna(subset=["timestamp"])] to
    [reset_index(drop=True)], followed by any continuation. *)
Lemma load_tail_run {B} obs w x (k : loc → Py B) :
  heap w !! x = Some (table stamped_columns (stamped infer obs)) →
  bind (df_dropna_subset x ["timestamp"]) (λ df,
  bind (df_copy df) (λ df,
  bind (df_sort_values df "timestamp") (λ df,
  bind (df_reset_index df) k))) w
  = k (length (heap w) + 3)%nat
      (set_heap (heap w ++
                 [timed_frame (samples infer obs); timed_frame (samples infer obs);
                  timed_frame (chronological (samples infer obs));
                  timed_frame (chronological (samples infer obs))]) w).
Proof.
  intros Hx.
  py_step ltac:(eapply df_dropna_subset_run; [exact Hx | apply valid_frame_eq]).
  py_step ltac:(apply df_copy_run; cbn [heap set_heap]; by apply list_lookup_middle).
  py_step ltac:(eapply df_sort_values_run;
                [cbn [heap set_heap]; by apply list_lookup_middle
                | apply sorted_frame_eq]).
  py_step ltac:(apply df_copy_run; cbn [heap set_heap]; by apply list_lookup_middle).
  cbn [heap set_heap]. rewrite !length_app. cbn [length].
  rewrite <-!app_assoc. cbn [app].
  replace (length (heap w) + 1 + 1 + 1)%nat with (length (heap w) + 3)%nat by lia.
  reflexivity.
Qed.
End loader_run.

Section loaders.
Context `{External}.
Implicit Types (w : World) (obs : list Observation).

(** The steps every loader starts with, up to the quarantine block. *)
Ltac load_head Hfile Hread :=
  py_step ltac:(eapply path_exists_run; exact Hfile);
  cbn [negb];
  py_step ltac:(eapply pd_read_csv_run; [exact Hfile | exact Hread]);
  py_step ltac:(apply df_contains_run; cbn [heap set_heap]; by apply list_lookup_middle);
  replace (pd.contains (store_frame _) "timestamp") with true by reflexivity;
  cbn [negb];
  py_step ltac:(eapply df_getcol_run;
                [cbn [heap set_heap]; by apply list_lookup_middle
                | unfold store_frame; rewrite getcol_table; reflexivity]);
  py_step ltac:(apply df_setcol_run; cbn [heap set_heap]; by apply list_lookup_middle);
  cbn [heap set_heap];
  rewrite (insert_app_r_alt _ _ (length (heap _))) by done;
  rewrite Nat.sub_diag; cbn [insert list_insert];
  rewrite stripped_column;
  py_step ltac:(eapply df_getcol_run;
                [cbn [heap set_heap]; by apply list_lookup_middle
                | rewrite getcol_setcol; reflexivity]);
  py_step ltac:(apply df_setcol_run; cbn [heap set_heap]; by apply list_lookup_middle);
  cbn [heap set_heap];
  rewrite (insert_app_r_alt _ _ (length (heap _))) by done;
  rewrite Nat.sub_diag; cbn [insert list_insert];
  rewrite datetime_column, stamped_frame_eq;
  py_step ltac:(eapply df_getcol_run;
                [cbn [heap set_heap]; by apply list_lookup_middle
                | rewrite getcol_table; reflexivity]);
  cbv zeta; rewrite num_bad_rejected, ?set_heap_set_heap.

Lemma load_data_run obs w lines :
  files w !! Retrain.DATA_PATH = Some (FCsv lines) →
  read_csv lines = inr (store_frame obs) →
  let wl := loaded true Retrain.DATA_PATH "data/bad_timestamp_rows.csv" obs w in
  Retrain.load_data w = (inr (length (heap wl) - 1)%nat, wl).
Proof.
  intros Hfile Hread wl. unfold Retrain.load_data.
  load_head Hfile Hread.
  py_step ltac:(eapply (quarantine_run true Retrain.DATA_PATH);
                cbn [heap set_heap]; by apply list_lookup_middle).
  rewrite (load_tail_run true obs).
  2:{ apply quarantined_heap_prefix. cbn [heap set_heap]. by apply list_lookup_middle. }
  unfold ret, wl, loaded. cbv zeta. do 2 f_equal.
  cbn [heap set_heap]. rewrite length_app. cbn [length]. lia.
Qed.

Lemma load_recent_data_run obs w lines window :
  files w !! CheckDrift.DATA_PATH = Some (FCsv lines) →
  read_csv lines = inr (store_frame obs) →
  let wl := loaded false CheckDrift.DATA_PATH "data/bad_timestamp_rows_for_drift.csv" obs w in
  let recent := timed_frame (last_n window (chronological (samples false obs))) in
  CheckDrift.load_recent_data window w
  = if (length (samples false obs) <? window + 2)%nat
    then (inl (ValueError
                 ("Not enough valid data for drift detection. Need "
                  +:+ str_of_nat (window + 2) +:+ ", got "
                  +:+ str_of_nat (length (samples false obs)))), wl)
    else (inr (S (length (heap wl))), set_heap (heap wl ++ [recent; recent]) wl).
Proof.
  intros Hfile Hread wl recent. unfold CheckDrift.load_recent_data.
  load_head Hfile Hread.
  py_step ltac:(eapply (quarantine_run false CheckDrift.DATA_PATH);
                cbn [heap set_heap]; by apply list_lookup_middle).
  rewrite (load_tail_run false obs).
  2:{ apply quarantined_heap_prefix. cbn [heap set_heap]. by apply list_lookup_middle. }
  fold (loaded false CheckDrift.DATA_PATH "data/bad_timestamp_rows_for_drift.csv" obs w).
  fold wl.
  assert (Hlast : ∀ x, x = (length (heap wl) - 1)%nat →
                       heap wl !! x = Some (timed_frame (chronological (samples false obs)))).
  { intros x ->. unfold wl, loaded. cbv zeta. cbn [heap set_heap].
    match goal with |- (?h ++ [?a; ?b; ?c; ?d]) !! _ = _ =>
      change (h ++ [a; b; c; d]) with (h ++ [a; b; c] ++ [d]);
      rewrite app_assoc; apply list_lookup_middle;
      rewrite !length_app; cbn [length]; lia end. }
  py_step ltac:(eapply df_len_run; apply Hlast;
                unfold wl, loaded; cbv zeta; cbn [heap set_heap];
                rewrite length_app; cbn [length]; lia).
  change (nrows (timed_frame (chronological (samples false obs))))
    with (length (chronological (samples false obs))).
  rewrite chronological_length.
  destruct (length (samples false obs) <? window + 2)%nat; [done|].
  py_step ltac:(eapply df_tail_run; apply Hlast;
                unfold wl, loaded; cbv zeta; cbn [heap set_heap];
                rewrite length_app; cbn [length]; lia).
  rewrite tail_frame_eq. fold recent.
  rewrite (df_copy_run _ _ recent) by (cbn [heap set_heap]; by apply list_lookup_middle).
  cbn [heap set_heap]. rewrite length_app, <-app_assoc. cbn [length app].
  by rewrite Nat.add_1_r.
Qed.
End loaders.

(** ** Historical feature derivation *)

Section derive_facts.
Implicit Types (l : list Sample).

Lemma where_ge keep k n :
  (∀ i, i < n → keep i = (k <=? i))%nat →
  pd.where_ keep n = seq k (n - k).
Proof.
  unfold pd.where_. induction n as [|n IH]; intros Hk; [done|].
  rewrite seq_S, filter_app, IH by (intros i Hi; apply Hk; lia). cbn [Nat.add].
  rewrite filter_cons, filter_nil, (Hk n) by lia.
  destruct (k <=? n)%nat eqn:Hkn.
  - apply Nat.leb_le in Hkn. rewrite decide_True by done.
    replace (S n - k)%nat with (S (n - k)) by lia.
    rewrite seq_S. do 2 f_equal. lia.
  - apply Nat.leb_gt in Hkn. rewrite decide_False by done.
    replace (S n - k)%nat with 0%nat by lia.
    replace (n - k)%nat with 0%nat by lia. done.
Qed.

Lemma at_seq_drop (s : Series) k n :
  length s = n → pd.at_ s <$> seq k (n - k) = drop k s.
Proof.
  intros <-. apply list_eq. intros i.
  rewrite list_lookup_fmap, lookup_drop.
  destruct (decide (i < length s - k)%nat) as [Hi|Hi].
  - rewrite lookup_seq_lt by done. cbn. unfold pd.at_.
    by destruct (lookup_lt_is_Some_2 s (k + i) ltac:(lia)) as [a ->].
  - rewrite lookup_seq_ge by lia. by rewrite lookup_ge_None_2 by lia.
Qed.

Lemma shift_views k l :
  pd.shift k ((λ s, CInt (views s)) <$> l)
  = take (length l) (replicate k CNull ++ ((λ s, CFloat (inject_Z (views s))) <$> l)).
Proof. unfold pd.shift. by rewrite length_fmap, <-list_fmap_compose. Qed.

Lemma notna_at_fmap (f : Sample → cell) l i :
  (∀ a, isna (f a) = false) → (i < length l)%nat →
  notna (pd.at_ (f <$> l) i) = true.
Proof.
  intros Hf Hi. unfold pd.at_, notna. rewrite list_lookup_fmap.
  destruct (lookup_lt_is_Some_2 l i Hi) as [a ->]. cbn. by rewrite Hf.
Qed.

Lemma notna_at_shift k l i :
  (i < length l)%nat →
  notna (pd.at_ (pd.shift k ((λ s, CInt (views s)) <$> l)) i) = (k <=? i)%nat.
Proof.
  intros Hi. rewrite shift_views. unfold pd.at_, notna.
  rewrite lookup_take_lt by done.
  destruct (k <=? i)%nat eqn:Hk.
  - apply Nat.leb_le in Hk.
    rewrite lookup_app_r by (rewrite length_replicate; lia).
    rewrite length_replicate, list_lookup_fmap.
    by destruct (lookup_lt_is_Some_2 l (i - k) ltac:(lia)) as [a ->].
  - apply Nat.leb_gt in Hk.
    rewrite lookup_app_l by (rewrite length_replicate; lia).
    by rewrite lookup_replicate_2 by lia.
Qed.

Lemma drop_shift_1 l :
  drop 2 (pd.shift 1 ((λ s, CInt (views s)) <$> l))
  = (λ s, CFloat (inject_Z (views s))) <$> take (length l - 2) (drop 1 l).
Proof.
  rewrite shift_views, skipn_firstn_comm. cbn [replicate app].
  change (drop 2 (CNull :: ?t)) with (drop 1 t).
  by rewrite fmap_take, fmap_drop.
Qed.

Lemma drop_shift_2 l :
  drop 2 (pd.shift 2 ((λ s, CInt (views s)) <$> l))
  = (λ s, CFloat (inject_Z (views s))) <$> take (length l - 2) l.
Proof.
  rewrite shift_views, skipn_firstn_comm. cbn [replicate app drop].
  by rewrite fmap_take.
Qed.

(** Dropping the incomplete rows of the augmented history removes its
    first two rows and nothing else. *)
Lemma dropna_augmented l : pd.dropna (augmented_frame l) = features_frame l.
Proof.
  unfold pd.dropna. cbn [nrows augmented_frame].
  rewrite (where_ge _ 2).
  2:{ intros i Hi. unfold pd.row_complete, pd.row_at, augmented_frame.
      cbn [columns fmap list_fmap forallb snd].
      rewrite !notna_at_fmap, !notna_at_shift by done.
      destruct i as [|[|i]]; reflexivity. }
  unfold pd.take_rows, features_frame, augmented_frame. cbv zeta.
  rewrite length_seq. cbn [columns fmap list_fmap fst snd].
  rewrite !at_seq_drop by (by rewrite ?length_fmap, ?shift_views, ?length_take,
                             ?length_app, ?length_replicate, ?length_fmap; lia).
  rewrite drop_shift_1, drop_shift_2, <-!fmap_drop.
  reflexivity.
Qed.
End derive_facts.

Section derive_run.
Context `{External}.
Implicit Types (w : World) (l : list Sample).

Lemma dt_field_times (f : Timestamp → Z) l w :
  dt_field f ((λ s, CTime (time s)) <$> l) w
  = (inr ((λ s, CInt (f (time s))) <$> l), w).
Proof.
  unfold dt_field.
  assert (mapM (λ c, match c with
                     | CTime t => Some (CInt (f t))
                     | CNull => Some CNull
                     | _ => None
                     end) ((λ s, CTime (time s)) <$> l)
          = Some ((λ s, CInt (f (time s))) <$> l)) as ->.
  { induction l as [|a l IH]; [done|]. rewrite !fmap_cons. cbn. by rewrite IH. }
  unfold of_option, bind, ret.
  assert (pd.isna_any ((λ s, CInt (f (time s))) <$> l) = false) as ->; [|done].
  unfold pd.isna_any. by induction l.
Qed.

Lemma ge_astype_int_run (g : Sample → Z) l k w :
  ge_astype_int ((λ s, CInt (g s)) <$> l) k w
  = (inr ((λ s, CInt (if k <=? g s then 1 else 0)) <$> l), w).
Proof.
  unfold ge_astype_int.
  assert (mapM (λ c, match c with
                     | CInt z => Some (CInt (if k <=? z then 1 else 0))
                     | CFloat q => Some (CInt (if Qle_bool (inject_Z k) q then 1 else 0))
                     | CNull => Some (CInt 0)
                     | _ => None
                     end) ((λ s, CInt (g s)) <$> l)
          = Some ((λ s, CInt (if k <=? g s then 1 else 0)) <$> l)) as ->; [|done].
  induction l as [|a l IH]; [done|]. rewrite !fmap_cons. cbn. by rewrite IH.
Qed.

(** One in-place column assignment on the frame at [x]. *)
Ltac getcol_tac :=
  rewrite ?getcol_setcol; repeat (rewrite decide_False by done);
  rewrite ?decide_True by done;
  first [reflexivity | unfold timed_frame; rewrite getcol_table; reflexivity].

Ltac at_x Hlen :=
  cbn [heap set_heap]; apply list_lookup_insert_eq; exact Hlen.

Ltac setcol_step Hlen :=
  py_step ltac:(apply df_setcol_run; at_x Hlen);
  cbn [heap set_heap]; rewrite list_insert_insert_eq, set_heap_set_heap.

Ltac getcol_step Hlen :=
  py_step ltac:(eapply df_getcol_run; [at_x Hlen | getcol_tac]).

(** The six column assignments of the two feature builders. *)
Lemma derive_columns_run {B} w x l (k : Py B) :
  (x < length (heap w))%nat →
  bind (df_getcol x "page_views") (λ pv,
  bind (df_setcol x "lag_1" (pd.shift 1 pv)) (λ _,
  bind (df_getcol x "page_views") (λ pv,
  bind (df_setcol x "lag_2" (pd.shift 2 pv)) (λ _,
  bind (df_getcol x "timestamp") (λ ts,
  bind (dt_field ts_hour ts) (λ h,
  bind (df_setcol x "hour" h) (λ _,
  bind (df_getcol x "timestamp") (λ ts,
  bind (dt_field Calendar.dayofweek ts) (λ dow,
  bind (df_setcol x "day_of_week" dow) (λ _,
  bind (df_getcol x "timestamp") (λ ts,
  bind (dt_field ts_month ts) (λ m,
  bind (df_setcol x "month" m) (λ _,
  bind (df_getcol x "day_of_week") (λ dow,
  bind (ge_astype_int dow 5) (λ wk,
  bind (df_setcol x "is_weekend" wk) (λ _, k))))))))))))))))
    (set_heap (<[x := timed_frame l]> (heap w)) w)
  = k (set_heap (<[x := augmented_frame l]> (heap w)) w).
Proof.
  intros Hlen.
  getcol_step Hlen. setcol_step Hlen.
  getcol_step Hlen. setcol_step Hlen.
  getcol_step Hlen. py_step ltac:(apply dt_field_times). setcol_step Hlen.
  getcol_step Hlen. py_step ltac:(apply dt_field_times). setcol_step Hlen.
  getcol_step Hlen. py_step ltac:(apply dt_field_times). setcol_step Hlen.
  getcol_step Hlen.
  py_step ltac:(apply (ge_astype_int_run (λ s, Calendar.dayofweek (time s)))).
  setcol_step Hlen.
  reflexivity.
Qed.

Lemma build_features_run w x l :
  heap w !! x = Some (timed_frame l) →
  CheckDrift.build_features x w
  = (inr (length (heap w)),
     set_heap (<[x := augmented_frame l]> (heap w) ++ [features_frame l]) w).
Proof.
  intros Hx. pose proof (lookup_lt_Some _ _ _ Hx) as Hlen.
  rewrite <-(set_heap_id w) at 1. rewrite <-(list_insert_id _ _ _ Hx) at 1.
  unfold CheckDrift.build_features. rewrite derive_columns_run by done.
  py_step ltac:(apply df_dropna_run; at_x Hlen).
  rewrite dropna_augmented. unfold ret. cbn [heap set_heap].
  by rewrite length_insert, set_heap_set_heap.
Qed.
End derive_run.

Section derive_records.
Context `{External}.
Implicit Types (w : World) (l : list Sample).

Lemma select_features l :
  pd.select (features_frame l)
    ["lag_1"; "lag_2"; "hour"; "day_of_week"; "month"; "is_weekend"; "is_festival"]
  = Some (model_input l).
Proof. reflexivity. Qed.

Lemma build_training_features_run w x l :
  heap w !! x = Some (timed_frame l) →
  Retrain.build_training_features x w
  = (inr (S (length (heap w)), (λ s, CInt (views s)) <$> drop 2 l),
     set_heap (<[x := augmented_frame l]> (heap w)
               ++ [features_frame l; model_input l]) w).
Proof.
  intros Hx. pose proof (lookup_lt_Some _ _ _ Hx) as Hlen.
  rewrite <-(set_heap_id w) at 1. rewrite <-(list_insert_id _ _ _ Hx) at 1.
  unfold Retrain.build_training_features. rewrite derive_columns_run by done.
  py_step ltac:(apply df_dropna_run; cbn [heap set_heap];
                apply list_lookup_insert_eq; exact Hlen).
  rewrite dropna_augmented. cbn [heap set_heap]. rewrite set_heap_set_heap.
  py_step ltac:(eapply df_select_run;
                [cbn [heap set_heap]; rewrite length_insert;
                 rewrite <-(length_insert (heap w) x (augmented_frame l));
                 by apply list_lookup_middle
                | apply select_features]).
  cbn [heap set_heap]. rewrite set_heap_set_heap.
  py_step ltac:(eapply df_getcol_run;
                [cbn [heap set_heap]; rewrite <-app_assoc;
                 by apply list_lookup_middle
                | reflexivity]).
  unfold ret. rewrite length_app, length_insert, <-app_assoc. cbn [length app].
  by rewrite Nat.add_1_r.
Qed.

Lemma at_fmap_lookup {A} (f : A → cell) (k : list A) j a :
  k !! j = Some a → pd.at_ (f <$> k) j = f a.
Proof. intros Hj. unfold pd.at_. by rewrite list_lookup_fmap, Hj. Qed.

(** The [j]-th feature row is built from the elements [j], [j+1] and [j+2]
    of the history. *)
Lemma features_record l j s2 s1 s :
  l !! j = Some s2 → l !! (j + 1)%nat = Some s1 → l !! (j + 2)%nat = Some s →
  pd.to_records (features_frame l) !! j
  = Some [("timestamp", CTime (time s)); ("page_views", CInt (views s));
          ("is_festival", CInt (festival s));
          ("lag_1", CFloat (inject_Z (views s1)));
          ("lag_2", CFloat (inject_Z (views s2)));
          ("hour", CInt (ts_hour (time s)));
          ("day_of_week", CInt (Calendar.dayofweek (time s)));
          ("month", CInt (ts_month (time s)));
          ("is_weekend", CInt (if 5 <=? Calendar.dayofweek (time s) then 1 else 0))].
Proof.
  intros H2 H1 H0. pose proof (lookup_lt_Some _ _ _ H0) as Hlen.
  unfold pd.to_records, features_frame. cbv zeta. cbn [nrows columns].
  rewrite list_lookup_fmap, lookup_seq_lt by lia.
  cbn [fmap option_fmap option_map list_fmap fst snd Nat.add].
  assert (Hd : drop 2 l !! j = Some s)
    by (rewrite lookup_drop; by replace (2 + j)%nat with (j + 2)%nat by lia).
  assert (Ht1 : take (length l - 2) (drop 1 l) !! j = Some s1).
  { rewrite lookup_take_lt by lia. rewrite lookup_drop.
    by replace (1 + j)%nat with (j + 1)%nat by lia. }
  assert (Ht2 : take (length l - 2) l !! j = Some s2)
    by (by rewrite lookup_take_lt by lia).
  by rewrite !(at_fmap_lookup _ _ _ _ Hd), (at_fmap_lookup _ _ _ _ Ht1),
       (at_fmap_lookup _ _ _ _ Ht2).
Qed.

Lemma model_input_record l j s2 s1 s :
  l !! j = Some s2 → l !! (j + 1)%nat = Some s1 → l !! (j + 2)%nat = Some s →
  pd.to_records (model_input l) !! j
  = Some [("lag_1", CFloat (inject_Z (views s1)));
          ("lag_2", CFloat (inject_Z (views s2)));
          ("hour", CInt (ts_hour (time s)));
          ("day_of_week", CInt (Calendar.dayofweek (time s)));
          ("month", CInt (ts_month (time s)));
          ("is_weekend", CInt (if 5 <=? Calendar.dayofweek (time s) then 1 else 0));
          ("is_festival", CInt (festival s))].
Proof.
  intros H2 H1 H0. pose proof (lookup_lt_Some _ _ _ H0) as Hlen.
  unfold pd.to_records, model_input. cbv zeta. cbn [nrows columns].
  rewrite list_lookup_fmap, lookup_seq_lt by lia.
  cbn [fmap option_fmap option_map list_fmap fst snd Nat.add].
  assert (Hd : drop 2 l !! j = Some s)
    by (rewrite lookup_drop; by replace (2 + j)%nat with (j + 2)%nat by lia).
  assert (Ht1 : take (length l - 2) (drop 1 l) !! j = Some s1).
  { rewrite lookup_take_lt by lia. rewrite lookup_drop.
    by replace (1 + j)%nat with (j + 1)%nat by lia. }
  assert (Ht2 : take (length l - 2) l !! j = Some s2)
    by (by rewrite lookup_take_lt by lia).
  by rewrite !(at_fmap_lookup _ _ _ _ Hd), (at_fmap_lookup _ _ _ _ Ht1),
       (at_fmap_lookup _ _ _ _ Ht2).
Qed.
End derive_records.

(** C4. On every history of parsed observations (the caller hands it over
    sorted by timestamp; the derivation itself does not look at the order),
    both feature builders compute [lag_1[i] = page_views[i-1]] and
    [lag_2[i] = page_views[i-2]], take the calendar fields of a row from the
    row's own timestamp, and drop the rows with a null field, which are the
    first two rows and no other: row [j] of the result is row [j+2] of the
    history.  On [(t1,100,0), (t2,110,0), (t3,90,1)] the result is the single
    row of [t3] with [lag_1 = 110], [lag_2 = 100], [is_festival = 1]. *)
Theorem derive_features_from_history :
  (∀ (w : World) (x : loc) (l : list Sample),
     heap w !! x = Some (timed_frame l) →
     ∃ x' w' F,
       CheckDrift.build_features x w = (inr x', w')
       ∧ heap w' !! x' = Some F
       ∧ nrows F = (length l - 2)%nat
       ∧ length (pd.to_records F) = (length l - 2)%nat
       ∧ ∀ j s2 s1 s,
           l !! j = Some s2 → l !! (j + 1)%nat = Some s1 → l !! (j + 2)%nat = Some s →
           pd.to_records F !! j
           = Some [("timestamp", CTime (time s)); ("page_views", CInt (views s));
                   ("is_festival", CInt (festival s));
                   ("lag_1", CFloat (inject_Z (views s1)));
                   ("lag_2", CFloat (inject_Z (views s2)));
                   ("hour", CInt (ts_hour (time s)));
                   ("day_of_week", CInt (Calendar.dayofweek (time s)));
                   ("month", CInt (ts_month (time s)));
                   ("is_weekend",
                    CInt (if 5 <=? Calendar.dayofweek (time s) then 1 else 0))])
  ∧ (∀ (w : World) (x : loc) (l : list Sample),
       heap w !! x = Some (timed_frame l) →
       ∃ x' (y : Series) w' X,
         Retrain.build_training_features x w = (inr (x', y), w')
         ∧ heap w' !! x' = Some X
         ∧ nrows X = (length l - 2)%nat
         ∧ length y = (length l - 2)%nat
         ∧ ∀ j s2 s1 s,
             l !! j = Some s2 → l !! (j + 1)%nat = Some s1 → l !! (j + 2)%nat = Some s →
             y !! j = Some (CInt (views s))
             ∧ pd.to_records X !! j
               = Some [("lag_1", CFloat (inject_Z (views s1)));
                       ("lag_2", CFloat (inject_Z (views s2)));
                       ("hour", CInt (ts_hour (time s)));
                       ("day_of_week", CInt (Calendar.dayofweek (time s)));
                       ("month", CInt (ts_month (time s)));
                       ("is_weekend",
                        CInt (if 5 <=? Calendar.dayofweek (time s) then 1 else 0));
                       ("is_festival", CInt (festival s))])
  ∧ (∀ (w : World) (x : loc) (t1 t2 t3 : Timestamp),
       heap w !! x
       = Some (timed_frame [mkSample t1 100 0; mkSample t2 110 0; mkSample t3 90 1]) →
       ∃ x' w' F,
         CheckDrift.build_features x w = (inr x', w')
         ∧ heap w' !! x' = Some F
         ∧ pd.to_records F
           = [[("timestamp", CTime t3); ("page_views", CInt 90);
               ("is_festival", CInt 1);
               ("lag_1", CFloat 110); ("lag_2", CFloat 100);
               ("hour", CInt (ts_hour t3));
               ("day_of_week", CInt (Calendar.dayofweek t3));
               ("month", CInt (ts_month t3));
               ("is_weekend", CInt (if 5 <=? Calendar.dayofweek t3 then 1 else 0))]]).
Proof.
  split; [|split].
  - intros w x l Hx. do 3 eexists.
    split; [by apply build_features_run|].
    split; [cbn [heap set_heap];
            rewrite <-(length_insert (heap w) x (augmented_frame l));
            by apply list_lookup_middle|].
    split; [done|].
    split; [unfold pd.to_records; by rewrite length_fmap, length_seq|].
    intros j s2 s1 s. apply features_record.
  - intros w x l Hx. do 4 eexists.
    split; [by apply build_training_features_run|].
    split.
    { cbn [heap set_heap].
      change [features_frame l; model_input l]
        with ([features_frame l] ++ [model_input l]).
      rewrite app_assoc. apply list_lookup_middle.
      rewrite length_app, length_insert. cbn [length]. lia. }
    split; [done|].
    split; [rewrite length_fmap, length_drop; lia|].
    intros j s2 s1 s H2 H1 H0. split; [|by apply model_input_record].
    rewrite list_lookup_fmap, lookup_drop.
    replace (2 + j)%nat with (j + 2)%nat by lia. by rewrite H0.
  - intros w x t1 t2 t3 Hx.
    set (l := [mkSample t1 100 0; mkSample t2 110 0; mkSample t3 90 1]) in *.
    do 3 eexists.
    split; [by apply build_features_run|].
    split; [cbn [heap set_heap];
            rewrite <-(length_insert (heap w) x (augmented_frame l));
            by apply list_lookup_middle|].
    reflexivity.
Qed.

Lemma derive_features_from_history_witness :
  let l := [mkSample (mkTimestamp 2025 12 7 13 0 0) 100 0;
            mkSample (mkTimestamp 2025 12 7 14 0 0) 110 0;
            mkSample (mkTimestamp 2025 12 7 15 0 0) 90 1] in
  let w := set_heap [timed_frame l] Demo.empty_world in
  heap w !! 0%nat = Some (timed_frame l)
  ∧ ∃ x' w' F,
      CheckDrift.build_features 0%nat w = (inr x', w')
      ∧ heap w' !! x' = Some F
      ∧ pd.to_records F
        = [[("timestamp", CTime (mkTimestamp 2025 12 7 15 0 0)); ("page_views", CInt 90);
            ("is_festival", CInt 1);
            ("lag_1", CFloat 110); ("lag_2", CFloat 100);
            ("hour", CInt 15); ("day_of_week", CInt 6); ("month", CInt 12);
            ("is_weekend", CInt 1)]].
Proof.
  intros l w. split; [reflexivity|].
  exact (proj2 (proj2 derive_features_from_history) w 0%nat
           (mkTimestamp 2025 12 7 13 0 0) (mkTimestamp 2025 12 7 14 0 0)
           (mkTimestamp 2025 12 7 15 0 0) eq_refl).
Defined.

(** ** The drift evaluation *)

Section drift_inversion.
Context `{External}.
Implicit Types (w : World) (F : DataFrame).

Lemma of_option_inv {A} e (o : option A) w a w' :
  of_option e o w = (inr a, w') → o = Some a ∧ w' = w.
Proof. destruct o; cbn; intros [= <- <-] || intros [=]; done. Qed.

Lemma of_sum_inv {A} (r : exn + A) w a w' :
  of_sum r w = (inr a, w') → r = inr a ∧ w' = w.
Proof. destruct r; cbn; intros [= <- <-] || intros [=]; done. Qed.

Lemma df_getcol_inv w x col (s : Series) w' :
  df_getcol x col w = (inr s, w') →
  ∃ d, heap w !! x = Some d ∧ pd.getcol d col = Some s ∧ w' = w.
Proof.
  unfold df_getcol. intros (d & w1 & Hd & Hs)%bind_inv.
  apply deref_inv in Hd as [Hd ->]. apply of_option_inv in Hs as [Hs ->]. eauto.
Qed.

Lemma df_select_inv w x cols x' w' :
  df_select x cols w = (inr x', w') →
  ∃ d d', heap w !! x = Some d ∧ pd.select d cols = Some d'
          ∧ x' = length (heap w) ∧ w' = set_heap (heap w ++ [d']) w.
Proof.
  unfold df_select. intros (d & w1 & Hd & Hs)%bind_inv.
  apply deref_inv in Hd as [Hd ->].
  apply bind_inv in Hs as (d' & w2 & Hs & Ha).
  apply of_option_inv in Hs as [Hs ->]. injection Ha as <- <-. eauto 10.
Qed.

Lemma df_dropna_inv w x x' w' :
  df_dropna x w = (inr x', w') →
  ∃ d, heap w !! x = Some d ∧ heap w' !! x' = Some (pd.dropna d).
Proof.
  unfold df_dropna. intros (d & w1 & Hd & Ha)%bind_inv.
  apply deref_inv in Hd as [Hd ->]. injection Ha as <- <-.
  exists d. split; [done|]. cbn [heap set_heap]. by apply list_lookup_middle.
Qed.

(** [build_features] always returns the result of a [dropna]. *)
Lemma build_features_inv w x x' w' :
  CheckDrift.build_features x w = (inr x', w') →
  ∃ d, heap w' !! x' = Some (pd.dropna d).
Proof.
  unfold CheckDrift.build_features. intros Hrun.
  do 16 (apply bind_inv in Hrun as (? & ? & _ & Hrun)).
  apply bind_inv in Hrun as (xd & wd & Hdrop & Hret).
  injection Hret as <- <-.
  apply df_dropna_inv in Hdrop as (d & _ & Hd). eauto.
Qed.

Lemma mean_absolute_error_inv (y_true : Series) (y_pred : list Q) w q w' :
  CheckDrift.mean_absolute_error y_true y_pred w = (inr q, w') →
  ∃ ys, length y_true = length y_pred
        ∧ mapM cell_num y_true = Some ys
        ∧ ys ≠ []
        ∧ q = pd.Qmean (zip_with (λ t p, Qabs (p - t)) ys y_pred)
        ∧ w' = w.
Proof.
  unfold CheckDrift.mean_absolute_error.
  destruct (length y_true =? length y_pred)%nat eqn:Hlen; [|done].
  apply Nat.eqb_eq in Hlen. cbn [negb].
  destruct (mapM cell_num y_true) as [[|y ys]|]; [done| |done].
  intros [= <- <-]. exists (y :: ys). done.
Qed.

(** The loop that fills the dictionary of drift scores: it reads the
    evaluated table only, and leaves one score per column. *)
Lemma scores_loop_inv cols : ∀ (acc r : gmap string cell) w w' x F,
  heap w !! x = Some F →
  CheckDrift.for_fold cols acc (λ drift_scores col,
    bind (df_getcol x col) (λ s,
    bind (of_option TypeError (pd.mean s)) (λ m,
    bind (df_getcol x col) (λ s,
    bind (of_option IndexError (pd.iloc0 s)) (λ v,
    bind (of_option TypeError (CheckDrift.abs_diff m v)) (λ score,
    ret (<[col := score]> drift_scores))))))) w = (inr r, w') →
  w' = w
  ∧ (∀ col, col ∈ cols → ∃ score, drift_score F col = Some score
                                  ∧ r !! col = Some score)
  ∧ (∀ col, col ∉ cols → r !! col = acc !! col).
Proof.
  induction cols as [|c cols IH]; intros acc r w w' x F Hx Hrun.
  - injection Hrun as <- <-. split; [done|]. split; [|done].
    intros col Hcol. by apply elem_of_nil in Hcol.
  - cbn [CheckDrift.for_fold] in Hrun.
    apply bind_inv in Hrun as (acc' & w1 & Hbody & Hrest).
    apply bind_inv in Hbody as (s & w2 & Hs & Hbody).
    apply df_getcol_inv in Hs as (d & Hd & Hs & ->).
    rewrite Hx in Hd. injection Hd as <-.
    apply bind_inv in Hbody as (m & w3 & Hm & Hbody).
    apply of_option_inv in Hm as [Hm ->].
    apply bind_inv in Hbody as (s' & w4 & Hs' & Hbody).
    apply df_getcol_inv in Hs' as (d & Hd & Hs' & ->).
    rewrite Hx in Hd. injection Hd as <-.
    rewrite Hs in Hs'. injection Hs' as <-.
    apply bind_inv in Hbody as (v & w5 & Hv & Hbody).
    apply of_option_inv in Hv as [Hv ->].
    apply bind_inv in Hbody as (score & w6 & Hsc & Hbody).
    apply of_option_inv in Hsc as [Hsc ->].
    injection Hbody as <- <-.
    destruct (IH _ _ _ _ _ _ Hx Hrest) as (-> & Hin & Hout).
    split; [done|]. split.
    + intros col Hcol. destruct (decide (col ∈ cols)) as [Hc|Hc]; [by apply Hin|].
      apply elem_of_cons in Hcol as [->|?]; [|done].
      exists score. split.
      * unfold drift_score. by rewrite Hs, Hm, Hv.
      * rewrite (Hout c Hc). apply lookup_insert_eq.
    + intros col [Hne Hc]%not_elem_of_cons.
      rewrite (Hout col Hc). by apply lookup_insert_ne.
Qed.
End drift_inversion.

Section drift_report.
Context `{External}.
Implicit Types (w : World) (F : DataFrame).

Lemma joblib_load_inv w p m w' :
  ModelUtils.joblib_load p w = (inr m, w') →
  files w !! p = Some (FModel m) ∧ w' = w.
Proof.
  unfold ModelUtils.joblib_load.
  destruct (files w !! p) as [[| m' |]|]; intros [= <- <-] || intros [=]; done.
Qed.

(** What a run of [detect_drift] that returns a report went through. *)
Lemma detect_drift_inv w r w' :
  CheckDrift.detect_drift w = (inr r, w') →
  ∃ x1 w1 x2 w2 F X (m : Model) (y_true : Series) (y_pred ys : list Q),
    CheckDrift.load_recent_data 20 w = (inr x1, w1)
    ∧ CheckDrift.build_features x1 w1 = (inr x2, w2)
    ∧ heap w2 !! x2 = Some F
    ∧ files w2 !! CheckDrift.MODEL_PATH = Some (FModel m)
    ∧ pd.select F ["lag_1"; "lag_2"; "hour"; "day_of_week"; "month"; "is_weekend";
                   "is_festival"] = Some X
    ∧ m X = inr y_pred
    ∧ pd.getcol F "page_views" = Some y_true
    ∧ length y_true = length y_pred
    ∧ mapM cell_num y_true = Some ys
    ∧ ys ≠ []
    ∧ Report.mae r = pd.Qmean (zip_with (λ t p, Qabs (p - t)) ys y_pred)
    ∧ (∀ col, col ∈ ["lag_1"; "lag_2"; "hour"; "day_of_week"; "month"; "is_weekend";
                     "is_festival"] →
              ∃ score, drift_score F col = Some score
                       ∧ Report.drift_scores r !! col = Some score)
    ∧ Report.decision r
      = (if Qltb (Report.mae r) 50 then "NO_DRIFT"
         else if Qltb (Report.mae r) 120 then "MILD_DRIFT"
         else "SEVERE_DRIFT")
    ∧ Report.timestamp r = clock w2
    ∧ files w' !! CheckDrift.DRIFT_REPORT_PATH = Some (FJson r).
Proof.
  unfold CheckDrift.detect_drift. intros Hrun.
  apply bind_inv in Hrun as (x1 & w1 & Hload & Hrun).
  apply bind_inv in Hrun as (x2 & w2 & Hbuild & Hrun).
  apply bind_inv in Hrun as (found & w3 & Hfound & Hrun).
  injection Hfound as <- <-.
  destruct (bool_decide _) eqn:Hmodel; [|done]. cbn [negb] in Hrun.
  apply bind_inv in Hrun as (m & w3 & Hm & Hrun).
  apply joblib_load_inv in Hm as [Hm ->].
  cbv zeta in Hrun.
  apply bind_inv in Hrun as (x3 & w3 & Hsel & Hrun).
  apply df_select_inv in Hsel as (F & X & HF & Hsel & -> & ->).
  apply bind_inv in Hrun as (y_true & w4 & Hy & Hrun).
  apply df_getcol_inv in Hy as (F' & HF' & Hy & ->).
  cbn [heap set_heap] in HF'. rewrite (lookup_app_l_Some _ _ _ _ HF) in HF'.
  injection HF' as <-.
  apply bind_inv in Hrun as (Xd & w4 & HX & Hrun).
  apply deref_inv in HX as [HX ->].
  cbn [heap set_heap] in HX. rewrite list_lookup_middle in HX by done.
  injection HX as <-.
  apply bind_inv in Hrun as (y_pred & w4 & Hp & Hrun).
  apply of_sum_inv in Hp as [Hp ->].
  apply bind_inv in Hrun as (q & w4 & Hmae & Hrun).
  apply mean_absolute_error_inv in Hmae as (ys & Hlen & Hys & Hne & -> & ->).
  apply bind_inv in Hrun as (scores & w4 & Hsc & Hrun).
  apply (scores_loop_inv _ _ _ _ _ x2 F) in Hsc as (-> & Hscores & _).
  2:{ cbn [heap set_heap]. by apply lookup_app_l_Some. }
  apply bind_inv in Hrun as (now & w4 & Hnow & Hrun).
  injection Hnow as <- <-.
  apply bind_inv in Hrun as ([] & w4 & Hw & Hrun).
  injection Hw as <-. injection Hrun as <- <-.
  exists x1, w1, x2, w2, F, X, m, y_true, y_pred, ys.
  cbn [Report.mae Report.drift_scores Report.decision Report.timestamp
       files set_files set_heap clock].
  repeat (split; [done|]). apply lookup_insert_eq.
Qed.

(** A table that comes out of [dropna] has no null cell. *)
Lemma dropna_no_null d c (s : Series) :
  pd.getcol (pd.dropna d) c = Some s → Forall (λ x, isna x = false) s.
Proof.
  intros Hs. apply assoc_elem_of in Hs.
  unfold pd.dropna, pd.take_rows in Hs. cbn [columns] in Hs.
  apply list_elem_of_fmap in Hs as ([c0 s0] & [= -> ->] & Hin).
  apply Forall_forall. intros v Hv.
  apply list_elem_of_fmap in Hv as (i & -> & Hi).
  apply list_elem_of_filter in Hi as [Hi _].
  unfold pd.row_complete, pd.row_at in Hi.
  rewrite forallb_forall in Hi.
  specialize (Hi (pd.at_ s0 i)). unfold notna in Hi.
  apply negb_true_iff, Hi, list_elem_of_In, list_elem_of_fmap.
  by exists (c0, s0).
Qed.

(** The score of a column of numbers: the distance between its mean and
    its first value. *)
Lemma drift_score_numeric F col (s : Series) score :
  pd.getcol F col = Some s → Forall (λ x, isna x = false) s →
  drift_score F col = Some score →
  ∃ vals first,
    mapM cell_num s = Some vals ∧ head vals = Some first
    ∧ score = CFloat (Qabs (pd.Qmean vals - first)).
Proof.
  intros Hs Hnn. unfold drift_score. rewrite Hs.
  unfold pd.mean.
  assert (filter (λ x, isna x = false) s = s) as ->.
  { clear Hs. induction Hnn as [|x s Hx _ IH]; [done|].
    by rewrite filter_cons_True, IH by done. }
  destruct (mapM cell_num s) as [vals|] eqn:Hvals; [|done]. cbn.
  destruct s as [|v s']; [by destruct vals|]. cbn [pd.iloc0 lookup list_lookup].
  cbn in Hvals. destruct (cell_num v) as [q|] eqn:Hq; [|done]. cbn in Hvals.
  destruct (mapM cell_num s') as [vals'|]; [|done]. cbn in Hvals.
  injection Hvals as <-. intros Hsc.
  exists (q :: vals'), q. split; [done|]. split; [done|].
  destruct v; try discriminate Hq; cbn in Hq, Hsc; injection Hq as <-;
    by injection Hsc as <-.
Qed.

Lemma Qltb_lt (x y : Q) : Qltb x y = true ↔ (x < y)%Q.
Proof.
  unfold Qltb. rewrite negb_true_iff, <-not_true_iff_false, Qle_bool_iff.
  split; [apply Qnot_le_lt | apply Qlt_not_le].
Qed.

Lemma Qltb_ge (x y : Q) : Qltb x y = false ↔ (y <= x)%Q.
Proof. unfold Qltb. by rewrite negb_false_iff, Qle_bool_iff. Qed.
End drift_report.

(** C3. Whenever [detect_drift] returns a report, the report is about the
    table [F] that [build_features] made of the loaded window: its [mae] is
    the mean of the absolute differences between the model's predictions on
    the seven feature columns of [F] and the [page_views] of [F]; the drift
    score of each feature column is the absolute difference between the
    mean of that column of [F] and its value in the first row of [F]; and
    the decision is [NO_DRIFT] for [mae < 50], [MILD_DRIFT] for
    [50 <= mae < 120] and [SEVERE_DRIFT] for [mae >= 120], so that 49.9,
    50.0, 119.9 and 120.0 are classified as no, mild, mild and severe. *)
Theorem drift_report_contents (ext : External) (w w' : World) (r : Report.t) :
  CheckDrift.detect_drift w = (inr r, w') →
  ∃ (F X : DataFrame) (m : Model) (y_pred ys : list Q),
    (∃ x1 w1 x2 w2,
       CheckDrift.load_recent_data 20 w = (inr x1, w1)
       ∧ CheckDrift.build_features x1 w1 = (inr x2, w2)
       ∧ heap w2 !! x2 = Some F
       ∧ files w2 !! CheckDrift.MODEL_PATH = Some (FModel m))
    ∧ pd.select F ["lag_1"; "lag_2"; "hour"; "day_of_week"; "month"; "is_weekend";
                   "is_festival"] = Some X
    ∧ m X = inr y_pred
    ∧ (pd.getcol F "page_views" ≫= mapM cell_num) = Some ys
    ∧ length ys = length y_pred
    ∧ ys ≠ []
    ∧ Report.mae r = pd.Qmean (zip_with (λ t p, Qabs (p - t)) ys y_pred)
    ∧ (∀ col, col ∈ ["lag_1"; "lag_2"; "hour"; "day_of_week"; "month"; "is_weekend";
                     "is_festival"] →
         ∃ vals first,
           (pd.getcol F col ≫= mapM cell_num) = Some vals
           ∧ head vals = Some first
           ∧ Report.drift_scores r !! col
             = Some (CFloat (Qabs (pd.Qmean vals - first))))
    ∧ ((Report.mae r < 50)%Q → Report.decision r = "NO_DRIFT")
    ∧ ((50 <= Report.mae r)%Q → (Report.mae r < 120)%Q →
       Report.decision r = "MILD_DRIFT")
    ∧ ((120 <= Report.mae r)%Q → Report.decision r = "SEVERE_DRIFT")
    ∧ ((Report.mae r == 499 # 10)%Q → Report.decision r = "NO_DRIFT")
    ∧ ((Report.mae r == 50)%Q → Report.decision r = "MILD_DRIFT")
    ∧ ((Report.mae r == 1199 # 10)%Q → Report.decision r = "MILD_DRIFT")
    ∧ ((Report.mae r == 120)%Q → Report.decision r = "SEVERE_DRIFT").
Proof.
  intros Hrun.
  apply detect_drift_inv in Hrun
    as (x1 & w1 & x2 & w2 & F & X & m & y_true & y_pred & ys & Hload & Hbuild & HF
        & Hm & Hsel & Hpred & Hy & Hlen & Hys & Hne & Hmae & Hscores & Hdec & _ & _).
  exists F, X, m, y_pred, ys.
  split; [by exists x1, w1, x2, w2|].
  split; [done|]. split; [done|].
  split; [by rewrite Hy|].
  split; [by rewrite <-(length_mapM _ _ _ Hys)|].
  split; [done|]. split; [done|].
  split.
  { intros col Hcol. destruct (Hscores col Hcol) as (score & Hsc & Hr).
    destruct (build_features_inv _ _ _ _ Hbuild) as (d & Hd).
    rewrite HF in Hd. injection Hd as ->.
    destruct (pd.getcol (pd.dropna d) col) as [s|] eqn:Hs.
    2:{ unfold drift_score in Hsc. by rewrite Hs in Hsc. }
    destruct (drift_score_numeric _ _ _ _ Hs (dropna_no_null _ _ _ Hs) Hsc)
      as (vals & first & Hvals & Hfirst & ->).
    exists vals, first. cbn. by rewrite Hvals. }
  assert (Hno : (Report.mae r < 50)%Q → Report.decision r = "NO_DRIFT").
  { intros Hlt. rewrite Hdec. by rewrite (proj2 (Qltb_lt _ _) Hlt). }
  assert (Hmild : (50 <= Report.mae r)%Q → (Report.mae r < 120)%Q →
                  Report.decision r = "MILD_DRIFT").
  { intros Hge Hlt. rewrite Hdec.
    by rewrite (proj2 (Qltb_ge _ _) Hge), (proj2 (Qltb_lt _ _) Hlt). }
  assert (Hsev : (120 <= Report.mae r)%Q → Report.decision r = "SEVERE_DRIFT").
  { intros Hge. rewrite Hdec.
    rewrite (proj2 (Qltb_ge _ 50)), (proj2 (Qltb_ge _ 120)); [done | done |].
    eapply Qle_trans; [|exact Hge]. done. }
  repeat split; try assumption.
  - intros Heq. apply Hno. by rewrite Heq.
  - intros Heq. apply Hmild; by rewrite Heq.
  - intros Heq. apply Hmild; by rewrite Heq.
  - intros Heq. apply Hsev. by rewrite Heq.
Qed.

Lemma drift_report_contents_witness :
  let w := Demo.world_with_store 22 in
  let out := CheckDrift.detect_drift (H := Demo.ext) w in
  ∃ r : Report.t,
    out = (inr r, out.2)
    ∧ ∃ (F X : DataFrame) (m : Model) (y_pred ys : list Q),
        (∃ x1 w1 x2 w2,
           CheckDrift.load_recent_data (H := Demo.ext) 20 w = (inr x1, w1)
           ∧ CheckDrift.build_features x1 w1 = (inr x2, w2)
           ∧ heap w2 !! x2 = Some F
           ∧ files w2 !! CheckDrift.MODEL_PATH = Some (FModel m))
        ∧ pd.select F ["lag_1"; "lag_2"; "hour"; "day_of_week"; "month"; "is_weekend";
                       "is_festival"] = Some X
        ∧ m X = inr y_pred
        ∧ (pd.getcol F "page_views" ≫= mapM cell_num) = Some ys
        ∧ length ys = length y_pred
        ∧ ys ≠ []
        ∧ Report.mae r = pd.Qmean (zip_with (λ t p, Qabs (p - t)) ys y_pred)
        ∧ (∀ col, col ∈ ["lag_1"; "lag_2"; "hour"; "day_of_week"; "month";
                         "is_weekend"; "is_festival"] →
             ∃ vals first,
               (pd.getcol F col ≫= mapM cell_num) = Some vals
               ∧ head vals = Some first
               ∧ Report.drift_scores r !! col
                 = Some (CFloat (Qabs (pd.Qmean vals - first))))
        ∧ ((Report.mae r < 50)%Q → Report.decision r = "NO_DRIFT")
        ∧ ((50 <= Report.mae r)%Q → (Report.mae r < 120)%Q →
           Report.decision r = "MILD_DRIFT")
        ∧ ((120 <= Report.mae r)%Q → Report.decision r = "SEVERE_DRIFT")
        ∧ ((Report.mae r == 499 # 10)%Q → Report.decision r = "NO_DRIFT")
        ∧ ((Report.mae r == 50)%Q → Report.decision r = "MILD_DRIFT")
        ∧ ((Report.mae r == 1199 # 10)%Q → Report.decision r = "MILD_DRIFT")
        ∧ ((Report.mae r == 120)%Q → Report.decision r = "SEVERE_DRIFT").
Proof.
  intros w out.
  assert (Hout : ∃ r, out = (inr r, out.2)) by (eexists; vm_compute; reflexivity).
  destruct Hout as [r Hout]. exists r. split; [exact Hout|].
  exact (drift_report_contents Demo.ext w out.2 r Hout).
Defined.

(** ** Loading the store *)

Section store_facts.
Context `{External}.
Variable infer : bool.
Implicit Types (w : World) (obs : list Observation).


Lemma loaded_files dp bf obs w :
  files (loaded infer dp bf obs w)
  = if (0 <? length (rejected infer obs))%nat
    then <[bf := FCsv (rejected_lines infer obs)]> (files w)
    else files w.
Proof. unfold loaded, quarantined. by destruct (0 <? length (rejected infer obs))%nat. Qed.

Lemma loaded_stdout dp bf obs w :
  stdout (loaded infer dp bf obs w)
  = if (0 <? length (rejected infer obs))%nat
    then stdout w ++
         ["Warning: " +:+ str_of_nat (length (rejected infer obs)) +:+ " row(s) in "
          +:+ dp +:+ " have invalid timestamps and will be dropped.";
          "Bad rows saved to: " +:+ bf]
    else stdout w.
Proof. unfold loaded, quarantined. by destruct (0 <? length (rejected infer obs))%nat. Qed.

Lemma loaded_last dp bf obs w :
  heap (loaded infer dp bf obs w) !! (length (heap (loaded infer dp bf obs w)) - 1)%nat
  = Some (timed_frame (chronological (samples infer obs))).
Proof.
  unfold loaded. cbv zeta. cbn [heap set_heap].
  match goal with |- (?h ++ [?a; ?b; ?c; ?d]) !! _ = _ =>
    change (h ++ [a; b; c; d]) with (h ++ [a; b; c] ++ [d]);
    rewrite app_assoc; apply list_lookup_middle;
    rewrite !length_app; cbn [length]; lia end.
Qed.

End store_facts.

(** C7. On a store of observations, [load_recent_data] with window [n]
    raises when fewer than [n + 2] rows are left after the rows with a
    malformed timestamp have been dropped, and the error message names both
    the required count [n + 2] and the count that is available; with at
    least [n + 2] valid rows it returns.  The drift check asks for the
    window 20: with fewer than 22 valid rows it fails with
    "Need 22, got <count>". *)
Theorem insufficient_history (ext : External) (obs : list Observation)
    (w : World) (lines : list (list string)) (window : nat) :
  files w !! CheckDrift.DATA_PATH = Some (FCsv lines) →
  read_csv lines = inr (store_frame obs) →
  ((length (samples false obs) < window + 2)%nat →
   ∃ w', CheckDrift.load_recent_data window w
         = (inl (ValueError ("Not enough valid data for drift detection. Need "
                             +:+ str_of_nat (window + 2) +:+ ", got "
                             +:+ str_of_nat (length (samples false obs)))), w'))
  ∧ ((window + 2 ≤ length (samples false obs))%nat →
     ∃ x w', CheckDrift.load_recent_data window w = (inr x, w'))
  ∧ ((length (samples false obs) < 22)%nat →
     ∃ w', CheckDrift.load_recent_data 20 w
           = (inl (ValueError ("Not enough valid data for drift detection. Need 22, got "
                               +:+ str_of_nat (length (samples false obs)))), w')
           ∧ CheckDrift.detect_drift w
             = (inl (ValueError ("Not enough valid data for drift detection. Need 22, got "
                                 +:+ str_of_nat (length (samples false obs)))), w')).
Proof.
  intros Hfile Hread.
  pose proof (load_recent_data_run obs w lines window Hfile Hread) as Hrun.
  pose proof (load_recent_data_run obs w lines 20 Hfile Hread) as Hrun20.
  cbv zeta in Hrun, Hrun20.
  split; [|split].
  - intros Hlt. apply Nat.ltb_lt in Hlt. rewrite Hlt in Hrun. eauto.
  - intros Hge. apply Nat.ltb_ge in Hge. rewrite Hge in Hrun. eauto.
  - intros Hlt. apply (Nat.ltb_lt _ (20 + 2)) in Hlt. rewrite Hlt in Hrun20.
    eexists. split; [exact Hrun20|].
    unfold CheckDrift.detect_drift. by rewrite (bind_fail _ _ _ _ _ Hrun20).
Qed.

Lemma insufficient_history_witness :
  let w := Demo.world_with_store 3 in
  files w !! CheckDrift.DATA_PATH = Some (FCsv (Demo.store_lines 3))
  ∧ read_csv (External := Demo.ext) (Demo.store_lines 3)
    = inr (store_frame (Demo.store 3))
  ∧ length (samples (H := Demo.ext) false (Demo.store 3)) = 3%nat
  ∧ ∃ w', CheckDrift.load_recent_data (H := Demo.ext) 20 w
          = (inl (ValueError "Not enough valid data for drift detection. Need 22, got 3"), w')
          ∧ CheckDrift.detect_drift (H := Demo.ext) w
            = (inl (ValueError "Not enough valid data for drift detection. Need 22, got 3"), w').
Proof.
  intros w.
  assert (Hfile : files w !! CheckDrift.DATA_PATH = Some (FCsv (Demo.store_lines 3)))
    by (vm_compute; reflexivity).
  assert (Hread : read_csv (External := Demo.ext) (Demo.store_lines 3)
                  = inr (store_frame (Demo.store 3))) by (vm_compute; reflexivity).
  split; [exact Hfile|]. split; [exact Hread|]. split; [vm_compute; reflexivity|].
  apply (proj2 (proj2 (insufficient_history Demo.ext (Demo.store 3) w
                         (Demo.store_lines 3) 20 Hfile Hread))).
  vm_compute. lia.
Defined.

Section store_validity.
Context `{External}.
Variable infer : bool.
Implicit Types (obs : list Observation).

End store_validity.




(** ** The window of the drift check *)

Section window_facts.
Context `{External}.
Implicit Types (l : list Sample).

Lemma last_n_length n l : (n ≤ length l)%nat → length (last_n n l) = n.
Proof. intros Hn. unfold last_n. rewrite length_drop. lia. Qed.

Lemma features_column_length l c (s : Series) :
  pd.getcol (features_frame l) c = Some s → length s = (length l - 2)%nat.
Proof.
  intros Hs. apply assoc_elem_of in Hs. unfold features_frame in Hs.
  cbv zeta in Hs. cbn [columns] in Hs.
  repeat (apply elem_of_cons in Hs as [[= _ ->]|Hs];
          [rewrite length_fmap, ?length_take, ?length_drop; lia|]).
  by apply elem_of_nil in Hs.
Qed.

Lemma features_page_views l :
  pd.getcol (features_frame l) "page_views"
  = Some ((λ s, CInt (views s)) <$> drop 2 l).
Proof. reflexivity. Qed.

Lemma views_numeric (k : list Sample) :
  mapM cell_num ((λ s, CInt (views s)) <$> k) = Some ((λ s, inject_Z (views s)) <$> k).
Proof. induction k as [|a k IH]; [done|]. rewrite !fmap_cons. cbn. by rewrite IH. Qed.
End window_facts.

(** ** The drift window on a store with blank fields *)

Section entry_frames.
Context `{External}.
Implicit Types (es : list Entry) (l : list Reading).

(** The store of observations is the store none of whose fields is
    blank. *)
Lemma entry_frame_observations (obs : list Observation) :
  entry_frame (entry_of <$> obs) = store_frame obs.
Proof.
  unfold entry_frame, store_frame, table, entry_columns. rewrite length_fmap.
  rewrite !fmap_cons, !fmap_nil. cbn [fst snd].
  by rewrite <-!list_fmap_compose.
Qed.

Lemma entry_stamped_length es : length (entry_stamped es) = length es.
Proof.
  unfold entry_stamped. rewrite length_zip, to_datetime_length, length_fmap. lia.
Qed.

Lemma entry_stamped_fst {B} (g : option Timestamp → B) es :
  (λ p, g p.1) <$> entry_stamped es = g <$> to_datetime false (entry_text <$> es).
Proof.
  unfold entry_stamped.
  transitivity (g <$> (zip (to_datetime false (entry_text <$> es)) es).*1).
  - by rewrite <-list_fmap_compose.
  - by rewrite fst_zip by (rewrite to_datetime_length, length_fmap; lia).
Qed.

Lemma entry_stamped_snd {B} (g : Entry → B) es :
  (λ p, g p.2) <$> entry_stamped es = g <$> es.
Proof.
  unfold entry_stamped.
  transitivity (g <$> (zip (to_datetime false (entry_text <$> es)) es).*2).
  - by rewrite <-list_fmap_compose.
  - by rewrite snd_zip by (rewrite to_datetime_length, length_fmap; lia).
Qed.

(** The timestamp column after [astype(str).str.strip()] and
    [pd.to_datetime(.., errors="coerce")]. *)
Lemma entry_datetime_column es :
  pd_to_datetime false ((λ c, CStr (strip (astype_str c))) <$> (entry_timestamp <$> es))
  = (λ p, match p.1 with Some t => CTime t | None => CNull end) <$> entry_stamped es.
Proof.
  unfold pd_to_datetime. rewrite <-!list_fmap_compose.
  by rewrite (entry_stamped_fst (λ o, match o with Some t => CTime t | None => CNull end)).
Qed.

Lemma entry_stamped_frame_eq es (s : Series) :
  pd.setcol
    (pd.setcol (entry_frame es) "timestamp" s)
    "timestamp"
    ((λ p, match p.1 with Some t => CTime t | None => CNull end) <$> entry_stamped es)
  = table entry_stamped_columns (entry_stamped es).
Proof.
  unfold table, entry_stamped_columns. rewrite entry_stamped_length.
  cbn [fmap list_fmap fst snd].
  rewrite (entry_stamped_snd entry_page_views), (entry_stamped_snd entry_is_festival).
  reflexivity.
Qed.

(** The rows with a parsed timestamp are the readings of the store. *)
Lemma readings_frame_eq es :
  pd.dropna_subset (table entry_stamped_columns (entry_stamped es)) ["timestamp"]
  = Some (reading_frame (readings es)).
Proof.
  unfold pd.dropna_subset. cbn [mapM]. rewrite getcol_table.
  replace (pd.assoc entry_stamped_columns "timestamp")
    with (Some (λ p : option Timestamp * Entry,
                  match p.1 with Some t => CTime t | None => CNull end))
    by reflexivity.
  cbn -[table pd.take_rows pd.where_ forallb].
  change (nrows (table entry_stamped_columns (entry_stamped es)))
    with (length (entry_stamped es)).
  f_equal.
  rewrite (table_where _ _ _
             (λ p, notna (match p.1 with Some t => CTime t | None => CNull end) && true)).
  2:{ intros i p Hi. unfold pd.at_. cbn [forallb].
      by rewrite list_lookup_fmap, Hi. }
  unfold readings. induction (entry_stamped es) as [|[[t|] e] k IH]; [done| |].
  - rewrite filter_cons_True by done.
    cbn [omap list_omap fst snd fmap option_fmap option_map].
    unfold table, reading_frame, table in *.
    cbn in *. injection IH as Hn H1 H2 H3. by rewrite Hn, H1, H2, H3.
  - rewrite filter_cons_False by done. exact IH.
Qed.

Lemma by_time_frame_eq l :
  pd.sort_values (reading_frame l) "timestamp" = Some (reading_frame (by_time l)).
Proof.
  unfold pd.sort_values, reading_frame. rewrite getcol_table.
  replace (pd.assoc reading_columns "timestamp")
    with (Some (λ r : Reading, CTime (reading_time r))) by reflexivity.
  cbn -[pd.take_rows pd.argsort table].
  f_equal. unfold by_time.
  rewrite <-take_rows_table; [done|].
  rewrite <-(length_fmap (λ r, CTime (reading_time r))). apply argsort_in_range.
Qed.

Lemma by_time_permutation l : by_time l ≡ₚ l.
Proof.
  unfold by_time. apply pick_permutation.
  rewrite argsort_permutation. by rewrite length_fmap.
Qed.

Lemma by_time_length l : length (by_time l) = length l.
Proof. by rewrite by_time_permutation. Qed.

Lemma tail_reading_frame n l :
  pd.tail n (reading_frame l) = reading_frame (last_n n l).
Proof.
  unfold pd.tail. change (nrows (reading_frame l)) with (length l).
  unfold reading_frame. rewrite take_rows_table.
  2:{ apply Forall_forall. intros i Hi%elem_of_seq. lia. }
  f_equal. rewrite pick_seq by lia. unfold last_n.
  apply take_ge. rewrite length_drop. lia.
Qed.
End entry_frames.

Section entry_loader.
Context `{External}.
Implicit Types (w : World) (es : list Entry).

(** The quarantine block of a loader returns, and leaves the frames that
    were there in place. *)
Lemma quarantine_block_returns data_path bad_file w x d (s : Series) (num_bad : nat) :
  heap w !! x = Some d → pd.getcol d "timestamp" = Some s →
  ∃ wq,
    (if (0 <? num_bad)%nat
     then
       bind (print ("Warning: " +:+ str_of_nat num_bad +:+ " row(s) in "
                    +:+ data_path +:+ " have invalid timestamps and will be dropped."))
         (λ _,
       bind (df_getcol x "timestamp") (λ s,
       bind (df_mask x (isna <$> s)) (λ bad_rows,
       bind (df_to_csv bad_rows bad_file) (λ _,
       print ("Bad rows saved to: " +:+ bad_file)))))
     else ret tt) w = (inr tt, wq)
    ∧ ∀ y dy, heap w !! y = Some dy → heap wq !! y = Some dy.
Proof.
  intros Hx Hs. destruct (0 <? num_bad)%nat.
  2:{ exists w. split; [done | auto]. }
  eexists. split.
  - py_step ltac:(reflexivity).
    py_step ltac:(eapply df_getcol_run; [exact Hx | exact Hs]).
    py_step ltac:(eapply df_mask_run; exact Hx).
    py_step ltac:(apply df_to_csv_run; cbn [heap set_heap set_stdout];
                  by apply list_lookup_middle).
    reflexivity.
  - intros y dy Hy. cbn [heap set_heap set_files set_stdout].
    by apply lookup_app_l_Some.
Qed.

(** [load_recent_data] on a store with enough rows whose timestamp
    parses: the last [window] of them, in time order. *)
Lemma load_recent_entries_run es w lines window :
  files w !! CheckDrift.DATA_PATH = Some (FCsv lines) →
  read_csv lines = inr (entry_frame es) →
  (window + 2 ≤ length (readings es))%nat →
  ∃ x1 w1,
    CheckDrift.load_recent_data window w = (inr x1, w1)
    ∧ heap w1 !! x1
      = Some (reading_frame (last_n window (by_time (readings es)))).
Proof.
  intros Hfile Hread Hge. unfold CheckDrift.load_recent_data.
  py_step ltac:(eapply path_exists_run; exact Hfile).
  cbn [negb].
  py_step ltac:(eapply pd_read_csv_run; [exact Hfile | exact Hread]).
  py_step ltac:(apply df_contains_run; cbn [heap set_heap]; by apply list_lookup_middle).
  replace (pd.contains (entry_frame es) "timestamp") with true by reflexivity.
  cbn [negb].
  py_step ltac:(eapply df_getcol_run;
                [cbn [heap set_heap]; by apply list_lookup_middle
                | unfold entry_frame; rewrite getcol_table; reflexivity]).
  py_step ltac:(apply df_setcol_run; cbn [heap set_heap]; by apply list_lookup_middle).
  cbn [heap set_heap].
  rewrite (insert_app_r_alt _ _ (length (heap _))) by done.
  rewrite Nat.sub_diag. cbn [insert list_insert].
  py_step ltac:(eapply df_getcol_run;
                [cbn [heap set_heap]; by apply list_lookup_middle
                | rewrite getcol_setcol; reflexivity]).
  py_step ltac:(apply df_setcol_run; cbn [heap set_heap]; by apply list_lookup_middle).
  cbn [heap set_heap].
  rewrite (insert_app_r_alt _ _ (length (heap _))) by done.
  rewrite Nat.sub_diag. cbn [insert list_insert].
  rewrite entry_datetime_column, entry_stamped_frame_eq.
  py_step ltac:(eapply df_getcol_run;
                [cbn [heap set_heap]; by apply list_lookup_middle
                | rewrite getcol_table; reflexivity]).
  cbv zeta. rewrite ?set_heap_set_heap.
  set (w0 := set_heap (heap w ++ [table entry_stamped_columns (entry_stamped es)]) w).
  assert (H0 : heap w0 !! length (heap w)
               = Some (table entry_stamped_columns (entry_stamped es)))
    by (unfold w0; cbn [heap set_heap]; by apply list_lookup_middle).
  match goal with |- context [(0 <? ?n)%nat] =>
    destruct (quarantine_block_returns CheckDrift.DATA_PATH
                "data/bad_timestamp_rows_for_drift.csv" w0 (length (heap w)) _ _ n H0
                ltac:(rewrite getcol_table; reflexivity))
      as (wq & Hq & Hkeep)
  end.
  rewrite (bind_run _ _ _ _ _ Hq).
  py_step ltac:(eapply df_dropna_subset_run; [apply Hkeep; exact H0 | apply readings_frame_eq]).
  py_step ltac:(apply df_copy_run; cbn [heap set_heap]; by apply list_lookup_middle).
  py_step ltac:(eapply df_sort_values_run;
                [cbn [heap set_heap]; by apply list_lookup_middle
                | apply by_time_frame_eq]).
  py_step ltac:(apply df_copy_run; cbn [heap set_heap]; by apply list_lookup_middle).
  py_step ltac:(eapply df_len_run; cbn [heap set_heap]; by apply list_lookup_middle).
  change (nrows (reading_frame (by_time (readings es))))
    with (length (by_time (readings es))).
  rewrite by_time_length, (proj2 (Nat.ltb_ge _ _) Hge).
  py_step ltac:(eapply df_tail_run; cbn [heap set_heap]; by apply list_lookup_middle).
  rewrite tail_reading_frame.
  rewrite (df_copy_run _ _ (reading_frame (last_n window (by_time (readings es)))))
    by (cbn [heap set_heap]; by apply list_lookup_middle).
  do 2 eexists. split; [reflexivity|].
  cbn [heap set_heap]. by apply list_lookup_middle.
Qed.
End entry_loader.

Section reading_derive.
Context `{External}.
Implicit Types (w : World) (l : list Reading).

Lemma dt_field_readings (f : Timestamp → Z) l w :
  dt_field f ((λ r, CTime (reading_time r)) <$> l) w
  = (inr ((λ r, CInt (f (reading_time r))) <$> l), w).
Proof.
  unfold dt_field.
  assert (mapM (λ c, match c with
                     | CTime t => Some (CInt (f t))
                     | CNull => Some CNull
                     | _ => None
                     end) ((λ r, CTime (reading_time r)) <$> l)
          = Some ((λ r, CInt (f (reading_time r))) <$> l)) as ->.
  { induction l as [|a l IH]; [done|]. rewrite !fmap_cons. cbn. by rewrite IH. }
  unfold of_option, bind, ret.
  assert (pd.isna_any ((λ r, CInt (f (reading_time r))) <$> l) = false) as ->; [|done].
  unfold pd.isna_any. by induction l.
Qed.

Lemma ge_astype_int_readings (g : Reading → Z) l k w :
  ge_astype_int ((λ r, CInt (g r)) <$> l) k w
  = (inr ((λ r, CInt (if k <=? g r then 1 else 0)) <$> l), w).
Proof.
  unfold ge_astype_int.
  assert (mapM (λ c, match c with
                     | CInt z => Some (CInt (if k <=? z then 1 else 0))
                     | CFloat q => Some (CInt (if Qle_bool (inject_Z k) q then 1 else 0))
                     | CNull => Some (CInt 0)
                     | _ => None
                     end) ((λ r, CInt (g r)) <$> l)
          = Some ((λ r, CInt (if k <=? g r then 1 else 0)) <$> l)) as ->; [|done].
  induction l as [|a l IH]; [done|]. rewrite !fmap_cons. cbn. by rewrite IH.
Qed.

Ltac getcol_tac :=
  rewrite ?getcol_setcol; repeat (rewrite decide_False by done);
  rewrite ?decide_True by done;
  first [reflexivity | unfold reading_frame; rewrite getcol_table; reflexivity].

Ltac at_x Hlen :=
  cbn [heap set_heap]; apply list_lookup_insert_eq; exact Hlen.

Ltac setcol_step Hlen :=
  py_step ltac:(apply df_setcol_run; at_x Hlen);
  cbn [heap set_heap]; rewrite list_insert_insert_eq, set_heap_set_heap.

Ltac getcol_step Hlen :=
  py_step ltac:(eapply df_getcol_run; [at_x Hlen | getcol_tac]).

(** [build_features] on the readings of a store: the six columns are
    added in place, and the result is what [dropna] leaves of them. *)
Lemma build_features_readings_run w x l :
  heap w !! x = Some (reading_frame l) →
  CheckDrift.build_features x w
  = (inr (length (heap w)),
     set_heap (<[x := reading_augmented l]> (heap w)
               ++ [pd.dropna (reading_augmented l)]) w).
Proof.
  intros Hx. pose proof (lookup_lt_Some _ _ _ Hx) as Hlen.
  rewrite <-(set_heap_id w) at 1. rewrite <-(list_insert_id _ _ _ Hx) at 1.
  unfold CheckDrift.build_features.
  getcol_step Hlen. setcol_step Hlen.
  getcol_step Hlen. setcol_step Hlen.
  getcol_step Hlen. py_step ltac:(apply dt_field_readings). setcol_step Hlen.
  getcol_step Hlen. py_step ltac:(apply dt_field_readings). setcol_step Hlen.
  getcol_step Hlen. py_step ltac:(apply dt_field_readings). setcol_step Hlen.
  getcol_step Hlen.
  py_step ltac:(apply (ge_astype_int_readings (λ r, Calendar.dayofweek (reading_time r)))).
  setcol_step Hlen.
  py_step ltac:(apply df_dropna_run; at_x Hlen).
  unfold ret. cbn [heap set_heap].
  by rewrite length_insert, set_heap_set_heap.
Qed.
End reading_derive.

Section reading_rows.
Implicit Types (l : list Reading) (s : Series).

Lemma notna_to_float c : notna (to_float c) = notna c.
Proof. by destruct c. Qed.

Lemma notna_at_column {A} (f : A → cell) (k : list A) i :
  Forall (λ a, notna (f a) = true) k → (i < length k)%nat →
  notna (pd.at_ (f <$> k) i) = true.
Proof.
  intros Hf Hi. unfold pd.at_. rewrite list_lookup_fmap.
  destruct (lookup_lt_is_Some_2 k i Hi) as [a Ha]. rewrite Ha. cbn.
  rewrite Forall_forall in Hf. apply Hf. by eapply list_elem_of_lookup_2.
Qed.

(** A shifted column is null on its first [k] rows, and below them where
    the source is. *)
Lemma notna_at_shifted k s i :
  (i < length s)%nat →
  notna (pd.at_ (pd.shift k s) i) = (k <=? i)%nat && notna (pd.at_ s (i - k)).
Proof.
  intros Hi. unfold pd.shift, pd.at_.
  rewrite lookup_take_lt by done.
  destruct (k <=? i)%nat eqn:Hk.
  - apply Nat.leb_le in Hk.
    rewrite lookup_app_r by (rewrite length_replicate; lia).
    rewrite length_replicate, list_lookup_fmap.
    destruct (lookup_lt_is_Some_2 s (i - k) ltac:(lia)) as [a ->]. cbn.
    apply notna_to_float.
  - apply Nat.leb_gt in Hk.
    rewrite lookup_app_l by (rewrite length_replicate; lia).
    by rewrite lookup_replicate_2 by lia.
Qed.

(** No row before the third survives [dropna]: its [lag_2] is null. *)
Lemma augmented_row_late l i :
  (i < length l)%nat →
  pd.row_complete (reading_augmented l) i = true → (2 ≤ i)%nat.
Proof.
  intros Hi. unfold pd.row_complete, pd.row_at, reading_augmented.
  cbn [columns fmap list_fmap forallb snd].
  rewrite (notna_at_shifted 2) by (by rewrite length_fmap).
  destruct (2 <=? i)%nat eqn:Hk; [intros _; by apply Nat.leb_le|].
  rewrite !andb_false_r, ?andb_false_l. cbn. rewrite ?andb_false_r. done.
Qed.

(** Among readings without a blank field, every row from the third on
    survives. *)
Lemma augmented_row_complete l i :
  Forall (λ r, complete r = true) l → (i < length l)%nat →
  pd.row_complete (reading_augmented l) i = (2 <=? i)%nat.
Proof.
  intros Hc Hi.
  assert (Hv : Forall (λ r, notna (reading_views r) = true) l).
  { eapply Forall_impl; [exact Hc|]. intros r Hr. cbn in Hr.
    unfold complete in Hr. by apply andb_true_iff in Hr as [? _]. }
  assert (Hf : Forall (λ r, notna (reading_festival r) = true) l).
  { eapply Forall_impl; [exact Hc|]. intros r Hr. cbn in Hr.
    unfold complete in Hr. by apply andb_true_iff in Hr as [_ ?]. }
  unfold pd.row_complete, pd.row_at, reading_augmented.
  cbn [columns fmap list_fmap forallb snd].
  rewrite !notna_at_shifted by (by rewrite length_fmap).
  rewrite (notna_at_column (λ r, CTime (reading_time r))) by (by apply Forall_true || done).
  rewrite !(notna_at_column reading_views) by (done || lia).
  rewrite (notna_at_column reading_festival) by done.
  rewrite !(notna_at_column (λ r, CInt _)) by (by apply Forall_true || done).
  destruct i as [|[|i]]; reflexivity.
Qed.

Lemma where_late keep k n :
  (∀ i, i < n → keep i = true → k ≤ i)%nat →
  (length (pd.where_ keep n) ≤ n - k)%nat.
Proof.
  unfold pd.where_. induction n as [|n IH]; intros Hk; [done|].
  rewrite seq_S, filter_app, length_app. cbn [Nat.add].
  assert (IH' := IH ltac:(intros i Hi; apply Hk; lia)).
  rewrite filter_cons, filter_nil.
  destruct (decide (keep n = true)) as [Hn|Hn]; cbn [length]; [|lia].
  pose proof (Hk n ltac:(lia) Hn). lia.
Qed.

Lemma take_rows_column_length idx d c s :
  pd.getcol (pd.take_rows idx d) c = Some s → length s = length idx.
Proof.
  intros Hs. apply assoc_elem_of in Hs. unfold pd.take_rows in Hs.
  cbn [columns] in Hs. apply list_elem_of_fmap in Hs as ([c0 s0] & [= _ ->] & _).
  by rewrite length_fmap.
Qed.

(** The evaluated table has at most [length l - 2] rows. *)
Lemma dropna_readings_bound l :
  (nrows (pd.dropna (reading_augmented l)) ≤ length l - 2)%nat.
Proof.
  unfold pd.dropna. cbn [nrows pd.take_rows reading_augmented].
  apply where_late. intros i Hi. by apply augmented_row_late.
Qed.

Lemma shift_1_readings l :
  drop 2 (pd.shift 1 (reading_views <$> l))
  = (λ r, to_float (reading_views r)) <$> take (length l - 2) (drop 1 l).
Proof.
  unfold pd.shift. rewrite length_fmap, skipn_firstn_comm. cbn [replicate app].
  change (drop 2 (CNull :: ?t)) with (drop 1 t).
  by rewrite <-list_fmap_compose, fmap_take, fmap_drop.
Qed.

Lemma shift_2_readings l :
  drop 2 (pd.shift 2 (reading_views <$> l))
  = (λ r, to_float (reading_views r)) <$> take (length l - 2) l.
Proof.
  unfold pd.shift. rewrite length_fmap, skipn_firstn_comm. cbn [replicate app drop].
  by rewrite <-list_fmap_compose, fmap_take.
Qed.

(** Without a blank field, [dropna] removes the first two rows and
    nothing else. *)
Lemma dropna_readings_complete l :
  Forall (λ r, complete r = true) l →
  pd.dropna (reading_augmented l) = reading_features l.
Proof.
  intros Hc. unfold pd.dropna. cbn [nrows reading_augmented].
  rewrite (where_ge _ 2) by (intros i Hi; by apply augmented_row_complete).
  unfold pd.take_rows, reading_features, reading_augmented. cbv zeta.
  rewrite length_seq. cbn [columns fmap list_fmap fst snd].
  rewrite !at_seq_drop by (by rewrite ?length_fmap; unfold pd.shift;
                             rewrite ?length_take, ?length_app, ?length_replicate,
                               ?length_fmap; lia).
  rewrite shift_1_readings, shift_2_readings, <-!fmap_drop.
  reflexivity.
Qed.

(** The [j]-th feature row is built from the readings [j], [j+1] and
    [j+2]. *)
Lemma reading_features_record l j (r2 r1 r : Reading) :
  l !! j = Some r2 → l !! (j + 1)%nat = Some r1 → l !! (j + 2)%nat = Some r →
  pd.to_records (reading_features l) !! j
  = Some [("timestamp", CTime (reading_time r)); ("page_views", reading_views r);
          ("is_festival", reading_festival r);
          ("lag_1", to_float (reading_views r1));
          ("lag_2", to_float (reading_views r2));
          ("hour", CInt (ts_hour (reading_time r)));
          ("day_of_week", CInt (Calendar.dayofweek (reading_time r)));
          ("month", CInt (ts_month (reading_time r)));
          ("is_weekend",
           CInt (if 5 <=? Calendar.dayofweek (reading_time r) then 1 else 0))].
Proof.
  intros H2 H1 H0. pose proof (lookup_lt_Some _ _ _ H0) as Hlen.
  unfold pd.to_records, reading_features. cbv zeta. cbn [nrows columns].
  rewrite list_lookup_fmap, lookup_seq_lt by lia.
  cbn [fmap option_fmap option_map list_fmap fst snd Nat.add].
  assert (Hd : drop 2 l !! j = Some r)
    by (rewrite lookup_drop; by replace (2 + j)%nat with (j + 2)%nat by lia).
  assert (Ht1 : take (length l - 2) (drop 1 l) !! j = Some r1).
  { rewrite lookup_take_lt by lia. rewrite lookup_drop.
    by replace (1 + j)%nat with (j + 1)%nat by lia. }
  assert (Ht2 : take (length l - 2) l !! j = Some r2)
    by (by rewrite lookup_take_lt by lia).
  by rewrite !(at_fmap_lookup _ _ _ _ Hd), (at_fmap_lookup _ _ _ _ Ht1),
       (at_fmap_lookup _ _ _ _ Ht2).
Qed.
End reading_rows.

(** C9. On a store with at least [n + 2] rows whose timestamp is valid,
    the drift check with window [n] keeps the last [n] of them in timestamp
    order, computes [lag_1] and [lag_2] from the page views of that slice
    alone, and evaluates what [dropna] leaves of the slice: never one of its
    first two rows, and no row with a null cell, be it a blank field of its
    own or a lag taken from a blank [page_views].  The evaluated table has
    at most [n - 2] rows.  When no row of the slice has a blank field it has
    exactly [n - 2] rows: row [j] of the table is row [j + 2] of the slice,
    with the page views of rows [j + 1] and [j] of the slice as lags.  For
    the window of [detect_drift], 20, the predictions, the errors behind
    [mae] and the values behind each drift score are as many as the
    evaluated table has rows. *)
Theorem drift_window_rows (ext : External) (es : list Entry)
    (w : World) (lines : list (list string)) (window : nat) :
  files w !! CheckDrift.DATA_PATH = Some (FCsv lines) →
  read_csv lines = inr (entry_frame es) →
  (window + 2 ≤ length (readings es))%nat →
  let recent := last_n window (by_time (readings es)) in
  ∃ x1 w1 x2 w2 F,
    CheckDrift.load_recent_data window w = (inr x1, w1)
    ∧ heap w1 !! x1 = Some (reading_frame recent)
    ∧ length recent = window
    ∧ CheckDrift.build_features x1 w1 = (inr x2, w2)
    ∧ heap w2 !! x2 = Some F
    ∧ F = pd.dropna (reading_augmented recent)
    ∧ (nrows F ≤ window - 2)%nat
    ∧ (Forall (λ r, complete r = true) recent →
       nrows F = (window - 2)%nat
       ∧ length (pd.to_records F) = (window - 2)%nat
       ∧ pd.getcol F "page_views" = Some (reading_views <$> drop 2 recent)
       ∧ ∀ j r2 r1 r,
           recent !! j = Some r2 → recent !! (j + 1)%nat = Some r1 →
           recent !! (j + 2)%nat = Some r →
           pd.to_records F !! j
           = Some [("timestamp", CTime (reading_time r));
                   ("page_views", reading_views r);
                   ("is_festival", reading_festival r);
                   ("lag_1", to_float (reading_views r1));
                   ("lag_2", to_float (reading_views r2));
                   ("hour", CInt (ts_hour (reading_time r)));
                   ("day_of_week", CInt (Calendar.dayofweek (reading_time r)));
                   ("month", CInt (ts_month (reading_time r)));
                   ("is_weekend",
                    CInt (if 5 <=? Calendar.dayofweek (reading_time r) then 1 else 0))])
    ∧ (window = 20%nat → ∀ rep w',
         CheckDrift.detect_drift w = (inr rep, w') →
         ∃ (X : DataFrame) (m : Model) (y_pred ys : list Q),
           pd.select F ["lag_1"; "lag_2"; "hour"; "day_of_week"; "month";
                        "is_weekend"; "is_festival"] = Some X
           ∧ nrows X = nrows F
           ∧ m X = inr y_pred
           ∧ length y_pred = nrows F
           ∧ (pd.getcol F "page_views" ≫= mapM cell_num) = Some ys
           ∧ length ys = nrows F
           ∧ Report.mae rep = pd.Qmean (zip_with (λ t p, Qabs (p - t)) ys y_pred)
           ∧ ∀ col, col ∈ ["lag_1"; "lag_2"; "hour"; "day_of_week"; "month";
                           "is_weekend"; "is_festival"] →
               ∃ vals first,
                 (pd.getcol F col ≫= mapM cell_num) = Some vals
                 ∧ length vals = nrows F
                 ∧ head vals = Some first
                 ∧ Report.drift_scores rep !! col
                   = Some (CFloat (Qabs (pd.Qmean vals - first)))).
Proof.
  intros Hfile Hread Hge recent.
  destruct (load_recent_entries_run es w lines window Hfile Hread Hge)
    as (x1 & w1 & Hload & Hx1). fold recent in Hx1.
  pose proof (build_features_readings_run w1 x1 recent Hx1) as Hbuild.
  assert (Hrecent : length recent = window).
  { unfold recent, last_n. rewrite length_drop, by_time_length. lia. }
  set (F := pd.dropna (reading_augmented recent)) in *.
  assert (HF : heap (set_heap (<[x1 := reading_augmented recent]> (heap w1) ++ [F]) w1)
               !! length (heap w1) = Some F).
  { cbn [heap set_heap].
    rewrite <-(length_insert (heap w1) x1 (reading_augmented recent)).
    by apply list_lookup_middle. }
  assert (Hbound : (nrows F ≤ window - 2)%nat).
  { rewrite <-Hrecent. apply dropna_readings_bound. }
  eexists x1, w1, (length (heap w1)), _, F.
  split; [exact Hload|]. split; [exact Hx1|]. split; [exact Hrecent|].
  split; [exact Hbuild|]. split; [exact HF|]. split; [reflexivity|].
  split; [exact Hbound|].
  split.
  { intros Hc. unfold F. rewrite (dropna_readings_complete recent Hc).
    split; [cbn [nrows reading_features]; by rewrite Hrecent|].
    split; [unfold pd.to_records; rewrite length_fmap, length_seq;
            cbn [nrows reading_features]; by rewrite Hrecent|].
    split; [reflexivity|].
    intros j r2 r1 r. apply reading_features_record. }
  intros -> rep w' Hrun.
  apply detect_drift_inv in Hrun
    as (x1' & w1' & x2' & w2' & F' & X & m & y_true & y_pred & ys & Hload' & Hbuild'
        & HF' & Hm & Hsel & Hpred & Hy & Hlen & Hys & Hne & Hmae & Hscores & _).
  rewrite Hload in Hload'. injection Hload' as <- <-.
  rewrite Hbuild in Hbuild'. injection Hbuild' as <- <-.
  rewrite HF in HF'. injection HF' as <-.
  assert (Hcol : ∀ c (s : Series), pd.getcol F c = Some s → length s = nrows F).
  { intros c s Hs. unfold F, pd.dropna in *.
    rewrite (take_rows_column_length _ _ _ _ Hs). reflexivity. }
  exists X, m, y_pred, ys.
  split; [exact Hsel|].
  split; [by destruct (select_labels _ _ _ Hsel) as [-> _]|].
  split; [exact Hpred|].
  split; [by rewrite <-Hlen, (Hcol _ _ Hy)|].
  split; [by rewrite Hy|].
  split; [by rewrite <-(length_mapM _ _ _ Hys), (Hcol _ _ Hy)|].
  split; [exact Hmae|].
  intros col Hin. destruct (Hscores col Hin) as (score & Hsc & Hr).
  destruct (pd.getcol F col) as [s|] eqn:Hs.
  2:{ unfold drift_score in Hsc. by rewrite Hs in Hsc. }
  assert (Hnn : Forall (λ x, isna x = false) s) by (by eapply dropna_no_null).
  destruct (drift_score_numeric _ _ _ _ Hs Hnn Hsc)
    as (vals & first & Hvals & Hfirst & ->).
  exists vals, first. cbn. rewrite Hvals. split; [done|].
  split; [|done].
  by rewrite <-(length_mapM _ _ _ Hvals), (Hcol _ _ Hs).
Qed.

Lemma drift_window_rows_witness :
  let w := Demo.world_with_store 22 in
  let es := entry_of <$> Demo.store 22 in
  let recent := last_n 20 (by_time (readings (H := Demo.ext) es)) in
  files w !! CheckDrift.DATA_PATH = Some (FCsv (Demo.store_lines 22))
  ∧ read_csv (External := Demo.ext) (Demo.store_lines 22) = inr (entry_frame es)
  ∧ (20 + 2 ≤ length (readings (H := Demo.ext) es))%nat
  ∧ Forall (λ r, complete r = true) recent
  ∧ ∃ x1 w1 x2 w2 F,
      CheckDrift.load_recent_data (H := Demo.ext) 20 w = (inr x1, w1)
      ∧ heap w1 !! x1 = Some (reading_frame recent)
      ∧ CheckDrift.build_features x1 w1 = (inr x2, w2)
      ∧ heap w2 !! x2 = Some F
      ∧ nrows F = 18%nat
      ∧ length (pd.to_records F) = 18%nat
      ∧ pd.to_records F !! 0%nat
        = Some [("timestamp", CTime (mkTimestamp 2025 1 1 4 0 0));
                ("page_views", CInt 140); ("is_festival", CInt 0);
                ("lag_1", CFloat 130); ("lag_2", CFloat 120);
                ("hour", CInt 4); ("day_of_week", CInt 2); ("month", CInt 1);
                ("is_weekend", CInt 0)]
      ∧ ∀ rep w',
          CheckDrift.detect_drift (H := Demo.ext) w = (inr rep, w') →
          ∃ (X : DataFrame) (m : Model) (y_pred ys : list Q),
            pd.select F ["lag_1"; "lag_2"; "hour"; "day_of_week"; "month";
                         "is_weekend"; "is_festival"] = Some X
            ∧ nrows X = nrows F
            ∧ m X = inr y_pred
            ∧ length y_pred = nrows F
            ∧ (pd.getcol F "page_views" ≫= mapM cell_num) = Some ys
            ∧ length ys = nrows F
            ∧ Report.mae rep = pd.Qmean (zip_with (λ t p, Qabs (p - t)) ys y_pred)
            ∧ ∀ col, col ∈ ["lag_1"; "lag_2"; "hour"; "day_of_week"; "month";
                            "is_weekend"; "is_festival"] →
                ∃ vals first,
                  (pd.getcol F col ≫= mapM cell_num) = Some vals
                  ∧ length vals = nrows F
                  ∧ head vals = Some first
                  ∧ Report.drift_scores rep !! col
                    = Some (CFloat (Qabs (pd.Qmean vals - first))).
Proof.
  intros w es recent.
  assert (Hfile : files w !! CheckDrift.DATA_PATH = Some (FCsv (Demo.store_lines 22)))
    by (vm_compute; reflexivity).
  assert (Hread : read_csv (External := Demo.ext) (Demo.store_lines 22)
                  = inr (entry_frame es)) by (vm_compute; reflexivity).
  assert (Hge : (20 + 2 ≤ length (readings (H := Demo.ext) es))%nat)
    by (vm_compute; lia).
  assert (Hc : Forall (λ r, complete r = true) recent)
    by (apply (bool_decide_unpack _); vm_compute; exact I).
  split; [exact Hfile|]. split; [exact Hread|]. split; [exact Hge|].
  split; [exact Hc|].
  destruct (drift_window_rows Demo.ext es w (Demo.store_lines 22) 20 Hfile Hread Hge)
    as (x1 & w1 & x2 & w2 & F & Hload & Hx1 & _ & Hbuild & HF & _ & _ & Hrows & Hrep).
  destruct (Hrows Hc) as (Hn & Hlen & _ & Hrec).
  exists x1, w1, x2, w2, F.
  split; [exact Hload|]. split; [exact Hx1|]. split; [exact Hbuild|].
  split; [exact HF|]. split; [exact Hn|]. split; [exact Hlen|].
  split; [|exact (Hrep eq_refl)].
  etrans; [apply (Hrec 0%nat (mkReading (mkTimestamp 2025 1 1 2 0 0) (CInt 120) (CInt 0))
                    (mkReading (mkTimestamp 2025 1 1 3 0 0) (CInt 130) (CInt 0))
                    (mkReading (mkTimestamp 2025 1 1 4 0 0) (CInt 140) (CInt 0)));
           vm_compute; reflexivity|].
  vm_compute. reflexivity.
Defined.

(** With a blank field in the window the evaluated table is shorter: the
    store has 24 rows with a valid timestamp, 23 of them without a blank
    field, the window is 20 rows long and 17 rows are evaluated. *)
Lemma drift_window_blank_field :
  let w := Demo.blank_field_world in
  let es := Demo.blank_field_entries in
  files w !! CheckDrift.DATA_PATH = Some (FCsv Demo.blank_field_lines)
  ∧ read_csv (External := Demo.ext) Demo.blank_field_lines = inr (entry_frame es)
  ∧ length (readings (H := Demo.ext) es) = 24%nat
  ∧ length (filter (λ r, complete r = true) (readings (H := Demo.ext) es)) = 23%nat
  ∧ ∃ x1 w1 R x2 w2 F,
      CheckDrift.load_recent_data (H := Demo.ext) 20 w = (inr x1, w1)
      ∧ heap w1 !! x1 = Some R
      ∧ nrows R = 20%nat
      ∧ CheckDrift.build_features x1 w1 = (inr x2, w2)
      ∧ heap w2 !! x2 = Some F
      ∧ nrows F = 17%nat
      ∧ length (pd.to_records F) = 17%nat
      ∧ ∃ rep w',
          CheckDrift.detect_drift (H := Demo.ext) w = (inr rep, w')
          ∧ (length <$> (pd.getcol F "page_views" ≫= mapM cell_num)) = Some 17%nat.
Proof.
  intros w es.
  split; [vm_compute; reflexivity|]. split; [vm_compute; reflexivity|].
  split; [vm_compute; reflexivity|]. split; [vm_compute; reflexivity|].
  do 6 eexists.
  split; [vm_compute; reflexivity|].
  split; [reflexivity|]. split; [reflexivity|].
  split; [vm_compute; reflexivity|].
  split; [reflexivity|]. split; [reflexivity|]. split; [reflexivity|].
  do 2 eexists. split; [vm_compute; reflexivity | reflexivity].
Qed.

(** * Further properties of the service *)

(** ** What a run leaves alone *)

Section keeps_facts.
Variable R : relation World.
Context `{!PreOrder R}.

Lemma keeps_unchanged {A} (m : Py A) : (∀ w, (m w).2 = w) → keeps R m.
Proof. intros Hm w. by rewrite Hm. Qed.

Lemma keeps_ret {A} (a : A) : keeps R (ret a).
Proof. by apply keeps_unchanged. Qed.

Lemma keeps_raise {A} (e : exn) : keeps R (raise (A := A) e).
Proof. by apply keeps_unchanged. Qed.

Lemma keeps_of_option {A} (e : exn) (o : option A) : keeps R (of_option e o).
Proof. apply keeps_unchanged. by destruct o. Qed.

Lemma keeps_of_sum {A} (r : exn + A) : keeps R (of_sum r).
Proof. apply keeps_unchanged. by destruct r. Qed.

Lemma keeps_deref x : keeps R (deref x).
Proof. apply keeps_unchanged. intros w. unfold deref. by destruct (heap w !! x). Qed.

Lemma keeps_path_exists p : keeps R (path_exists p).
Proof. by apply keeps_unchanged. Qed.

Lemma keeps_now : keeps R now_isoformat.
Proof. by apply keeps_unchanged. Qed.

Lemma keeps_joblib_load p : keeps R (ModelUtils.joblib_load p).
Proof.
  apply keeps_unchanged. intros w. unfold ModelUtils.joblib_load.
  by destruct (files w !! p) as [[| |]|].
Qed.

Lemma keeps_bind {A B} (m : Py A) (k : A → Py B) :
  keeps R m → (∀ a, keeps R (k a)) → keeps R (bind m k).
Proof.
  intros Hm Hk w. unfold bind. specialize (Hm w).
  destruct (m w) as [[e|a] w1]; [exact Hm|].
  etrans; [exact Hm|]. apply Hk.
Qed.

Lemma keeps_try_except {A} (m : Py A) (h : exn → Py A) :
  keeps R m → (∀ e, keeps R (h e)) → keeps R (try_except m h).
Proof.
  intros Hm Hh w. unfold try_except. specialize (Hm w).
  destruct (m w) as [[e|a] w1]; [|exact Hm].
  etrans; [exact Hm|]. apply Hh.
Qed.

Lemma keeps_for_each {A} (l : list A) (body : A → Py unit) :
  (∀ a, keeps R (body a)) → keeps R (for_each l body).
Proof.
  intros Hbody. induction l as [|a l IH]; cbn [for_each].
  - apply keeps_ret.
  - apply keeps_bind; [apply Hbody | intros _; exact IH].
Qed.

Lemma keeps_for_fold {A B} (l : list A) (body : B → A → Py B) : ∀ acc,
  (∀ b a, keeps R (body b a)) → keeps R (CheckDrift.for_fold l acc body).
Proof.
  induction l as [|a l IH]; intros acc Hbody; cbn [CheckDrift.for_fold].
  - apply keeps_ret.
  - apply keeps_bind; [apply Hbody | intros b; by apply IH].
Qed.
End keeps_facts.

#[export] Instance same_files_outside_preorder paths : PreOrder (same_files_outside paths).
Proof.
  split; [by intros w p _|].
  intros w1 w2 w3 H12 H23 p Hp. by rewrite H23, H12.
Qed.

#[export] Instance same_stdout_preorder : PreOrder same_stdout.
Proof. split; [done|]. intros w1 w2 w3 H12 H23. unfold same_stdout in *. congruence. Qed.

#[export] Instance same_heap_preorder : PreOrder same_heap.
Proof. split; [done|]. intros w1 w2 w3 H12 H23. unfold same_heap in *. congruence. Qed.

(** The primitives that leave the files, the output or the heap as they
    are. *)
Lemma files_alloc paths d : keeps (same_files_outside paths) (alloc d).
Proof. by intros w p _. Qed.

Lemma files_store paths x d : keeps (same_files_outside paths) (store x d).
Proof. by intros w p _. Qed.

Lemma files_print paths msg : keeps (same_files_outside paths) (print msg).
Proof. by intros w p _. Qed.

Lemma files_write_file paths q f :
  q ∈ paths → keeps (same_files_outside paths) (write_file q f).
Proof.
  intros Hq w p Hp. cbn. apply lookup_insert_ne. by intros ->.
Qed.

Lemma files_csv_append paths q row :
  q ∈ paths → keeps (same_files_outside paths) (Main.csv_append q row).
Proof.
  intros Hq w p Hp. unfold Main.csv_append.
  assert (q ≠ p) by (by intros ->).
  destruct (files w !! q) as [[| |]|]; cbn; try done; by apply lookup_insert_ne.
Qed.

Lemma files_pd_read_csv `{External} paths q :
  keeps (same_files_outside paths) (pd_read_csv q).
Proof.
  intros w p _. unfold pd_read_csv.
  destruct (files w !! q) as [[lines| |]|]; try done.
  unfold bind, of_sum. by destruct (read_csv lines).
Qed.

Lemma stdout_alloc d : keeps same_stdout (alloc d).
Proof. by intros w. Qed.

Lemma stdout_store x d : keeps same_stdout (store x d).
Proof. by intros w. Qed.

Lemma stdout_write_file q f : keeps same_stdout (write_file q f).
Proof. by intros w. Qed.

Lemma stdout_csv_append q row : keeps same_stdout (Main.csv_append q row).
Proof.
  intros w. unfold Main.csv_append. by destruct (files w !! q) as [[| |]|].
Qed.

Lemma heap_write_file q f : keeps same_heap (write_file q f).
Proof. by intros w. Qed.

Lemma heap_csv_append q row : keeps same_heap (Main.csv_append q row).
Proof.
  intros w. unfold Main.csv_append. by destruct (files w !! q) as [[| |]|].
Qed.

Create HintDb keeps.
#[export] Hint Resolve keeps_ret keeps_raise keeps_of_option keeps_of_sum keeps_deref
  keeps_path_exists keeps_now keeps_joblib_load
  files_alloc files_store files_print files_pd_read_csv
  stdout_alloc stdout_store stdout_write_file stdout_csv_append
  heap_write_file heap_csv_append : keeps.
#[export] Hint Extern 1 (keeps _ (write_file _ _)) =>
  apply files_write_file; set_solver : keeps.
#[export] Hint Extern 1 (keeps _ (Main.csv_append _ _)) =>
  apply files_csv_append; set_solver : keeps.

(** Walks through a program: every [bind], handler, loop and branch, down
    to the primitives. *)
Ltac keeps_unfold :=
  unfold df_copy, df_contains, df_setscalar, df_setcol, df_getcol, df_select,
    df_len, df_dropna, df_dropna_subset, df_mask, df_sort_values, df_reset_index,
    df_tail, df_to_csv, dt_field, ge_astype_int, Retrain.joblib_dump,
    ModelUtils.df_isna_any_any, CheckDrift.mean_absolute_error, Main.float_of_array.

Ltac keeps_walk :=
  cbv zeta;
  repeat first
    [ apply keeps_bind; [apply _ | | intros ?]
    | apply keeps_try_except; [apply _ | | intros ?]
    | apply keeps_for_each; [apply _ | intros ?]
    | apply keeps_for_fold; [apply _ | intros ? ?]
    | solve [auto with keeps typeclass_instances]
    | match goal with
      | |- keeps _ (if ?b then _ else _) => destruct b
      | |- keeps _ (match ?x with _ => _ end) => destruct x
      end
    | progress keeps_unfold ].

(** ** The prediction path, run by run *)

Section predict_runs.
Context `{External}.

Lemma files_equal w w' : same_files_outside [] w w' → files w' = files w.
Proof. intros Hw. apply map_eq. intros p. apply Hw. set_solver. Qed.

Lemma predict_files paths req : keeps (same_files_outside paths) (Main.predict req).
Proof. unfold Main.predict. keeps_walk. Qed.

Lemma predict_stdout req : keeps same_stdout (Main.predict req).
Proof. unfold Main.predict. keeps_walk. Qed.

(** [_load_model] without a model file. *)
Lemma load_model_missing w :
  files w !! ModelUtils.MODEL_PATH = None →
  ModelUtils._load_model w
  = (inl (FileNotFoundError ("Model not found at " +:+ ModelUtils.MODEL_PATH
                             +:+ ". Train the model first.")), w).
Proof.
  intros Hf. unfold ModelUtils._load_model, path_exists, bind, raise.
  rewrite Hf. by rewrite bool_decide_eq_false_2 by (by intros [? ?]).
Qed.

(** [_load_model] either returns the model stored at [MODEL_PATH] or
    raises; it never changes the world. *)
Lemma load_model_cases w :
  (∃ m, files w !! ModelUtils.MODEL_PATH = Some (FModel m))
  ∨ (∃ e, ModelUtils._load_model w = (inl e, w)).
Proof.
  destruct (files w !! ModelUtils.MODEL_PATH) as [[| m |]|] eqn:Hf.
  2:{ left. by exists m. }
  3:{ right. eexists. by apply load_model_missing. }
  all: right; unfold ModelUtils._load_model, path_exists, bind, ModelUtils.joblib_load, raise.
  all: rewrite bool_decide_eq_true_2 by eauto; cbn; rewrite Hf; eauto.
Qed.

(** [predict_from_df] on the frame of a feature vector. *)
Lemma predict_from_df_built w x l1 l2 t fest m :
  heap w !! x = Some (one_row (feature_record (lag_cell l1) (lag_cell l2) t fest)) →
  files w !! ModelUtils.MODEL_PATH = Some (FModel m) →
  ModelUtils.predict_from_df x w
  = (m (one_row (feature_record (lag_fed l1) (lag_fed l2) t fest)),
     set_heap (heap w ++
               [one_row (feature_record (lag_cell l1) (lag_cell l2) t fest);
                one_row (feature_record (lag_fed l1) (lag_fed l2) t fest)]) w).
Proof. apply predict_from_df_one_row. Qed.

(** [predict] up to the call of the model. *)
Lemma predict_run text l1 l2 f w t :
  dateutil_parse text = Some t →
  let built := feature_record (lag_cell l1) (lag_cell l2) t (default 0 f) in
  let fed := feature_record (lag_fed l1) (lag_fed l2) t (default 0 f) in
  let w1 := set_heap (heap w ++ [one_row built]) w in
  let w3 := set_heap (heap w ++ [one_row built; one_row built; one_row fed]) w in
  Main.predict (Main.PredictRequest.mk text l1 l2 f) w
  = match ModelUtils._load_model w with
    | (inl e, _) => (inl e, w1)
    | (inr m, _) =>
        match m (one_row fed) with
        | inl e => (inl e, w3)
        | inr [v] => (inr (Main.PredictResponse.mk v built), w3)
        | inr _ => (inl TypeError, w3)
        end
    end.
Proof.
  intros Hp built fed w1 w3. unfold Main.predict.
  cbn [Main.PredictRequest.timestamp Main.PredictRequest.lag_1
       Main.PredictRequest.lag_2 Main.PredictRequest.is_festival].
  erewrite bind_run.
  2:{ apply (make_features_run w _ t). by apply parse_timestamp_str_ok. }
  fold built. fold w1.
  destruct (load_model_cases w) as [(m & Hfile)|(e & He)].
  - rewrite (load_model_run w m Hfile).
    unfold bind at 1.
    rewrite (predict_from_df_built w1 (length (heap w)) l1 l2 t (default 0 f) m);
      [|by apply list_lookup_middle|exact Hfile].
    fold built fed.
    assert (set_heap (heap w1 ++ [one_row built; one_row fed]) w1 = w3) as ->.
    { unfold w1, w3. cbn [heap set_heap]. rewrite set_heap_set_heap, <-app_assoc.
      reflexivity. }
    destruct (m (one_row fed)) as [e|[|v [|? ?]]]; try reflexivity.
    unfold bind, Main.float_of_array, ret, deref, of_option.
    cbn [heap w3 set_heap].
    rewrite list_lookup_middle by done. reflexivity.
  - rewrite He.
    assert (ModelUtils._load_model w1 = (inl e, w1)) as He1.
    { clear -He. revert He. unfold ModelUtils._load_model, path_exists, bind,
        ModelUtils.joblib_load, raise. cbn [files w1 set_heap].
      destruct (files w !! ModelUtils.MODEL_PATH) as [[| |]|] eqn:Hf; cbn;
        rewrite ?Hf; by intros [= <-]. }
    erewrite bind_fail; [reflexivity|].
    unfold ModelUtils.predict_from_df. by erewrite bind_fail.
Qed.
End predict_runs.

(** X1. [/predict] on a request whose timestamp parses.  Without a model
    file the request fails with [FileNotFoundError], 'Model not found at
    <path>. Train the model first.', after the feature vector has been
    built.  With a model file, the model is called on the one-row vector in
    which a missing lag is 0.0: an exception of the model leaves [predict]
    as it is, and a predicted value [v] is answered as
    [{prediction: v, input: the vector as it was built}]. *)
Theorem predict_outcomes (ext : External) (text : string) (l1 l2 : option Q)
    (f : option Z) (w : World) (t : Timestamp) :
  dateutil_parse text = Some t →
  let req := Main.PredictRequest.mk text l1 l2 f in
  let built := feature_record (lag_cell l1) (lag_cell l2) t (default 0 f) in
  let fed := feature_record (lag_fed l1) (lag_fed l2) t (default 0 f) in
  let w1 := set_heap (heap w ++ [one_row built]) w in
  let w3 := set_heap (heap w ++ [one_row built; one_row built; one_row fed]) w in
  (files w !! ModelUtils.MODEL_PATH = None →
   Main.predict req w
   = (inl (FileNotFoundError ("Model not found at " +:+ ModelUtils.MODEL_PATH
                              +:+ ". Train the model first.")), w1))
  ∧ (∀ m, files w !! ModelUtils.MODEL_PATH = Some (FModel m) →
       (∀ e, m (one_row fed) = inl e → Main.predict req w = (inl e, w3))
       ∧ (∀ v, m (one_row fed) = inr [v] →
            Main.predict req w = (inr (Main.PredictResponse.mk v built), w3))).
Proof.
  intros Hp req built fed w1 w3.
  pose proof (predict_run text l1 l2 f w t Hp) as Hrun. cbv zeta in Hrun.
  fold req built fed w1 w3 in Hrun.
  split.
  - intros Hnone. by rewrite Hrun, (load_model_missing w Hnone).
  - intros m Hm. rewrite (load_model_run w m Hm) in Hrun.
    split; [intros e He | intros v Hv]; rewrite Hrun.
    + by rewrite He.
    + by rewrite Hv.
Qed.

Lemma predict_outcomes_witness :
  let req := Main.PredictRequest.mk "2025-12-07T15:00:00" None None (Some 1) in
  let t := mkTimestamp 2025 12 7 15 0 0 in
  let built := feature_record CNull CNull t 1 in
  let fed := feature_record (CFloat 0) (CFloat 0) t 1 in
  dateutil_parse (External := Demo.ext) "2025-12-07T15:00:00" = Some t
  ∧ files Demo.empty_world !! ModelUtils.MODEL_PATH = None
  ∧ Main.predict (H := Demo.ext) req Demo.empty_world
    = (inl (FileNotFoundError
              "Model not found at models/traffic_model.joblib. Train the model first."),
       set_heap [one_row built] Demo.empty_world)
  ∧ files Demo.world_with_model !! ModelUtils.MODEL_PATH
    = Some (FModel Demo.persistence_model)
  ∧ Demo.persistence_model (one_row fed) = inr [0%Q]
  ∧ Main.predict (H := Demo.ext) req Demo.world_with_model
    = (inr (Main.PredictResponse.mk 0 built),
       set_heap [one_row built; one_row built; one_row fed] Demo.world_with_model).
Proof.
  intros req t built fed.
  pose proof (predict_outcomes Demo.ext "2025-12-07T15:00:00" None None (Some 1)
                Demo.empty_world t eq_refl) as [Hmissing _].
  pose proof (predict_outcomes Demo.ext "2025-12-07T15:00:00" None None (Some 1)
                Demo.world_with_model t eq_refl) as [_ Hmodel].
  split; [reflexivity|]. split; [reflexivity|].
  split; [exact (Hmissing eq_refl)|].
  split; [reflexivity|]. split; [reflexivity|].
  exact (proj2 (Hmodel Demo.persistence_model eq_refl) 0%Q eq_refl).
Defined.

(** X2. [/predict] is read-only.  In every run, whether it answers or
    raises, no file is created or changed and nothing is printed; the frames
    that existed before the call are still in place, the call only adds
    frames after them. *)
Theorem predict_read_only (ext : External) (req : Main.PredictRequest.t) (w : World) :
  files (Main.predict req w).2 = files w
  ∧ stdout (Main.predict req w).2 = stdout w
  ∧ heap w `prefix_of` heap (Main.predict req w).2.
Proof.
  split; [apply files_equal, predict_files|].
  split; [apply predict_stdout|].
  destruct req as [text l1 l2 f].
  destruct (dateutil_parse text) as [t|] eqn:Hp.
  - rewrite (predict_run text l1 l2 f w t Hp). cbv zeta.
    destruct (ModelUtils._load_model w) as [[e|m] w'].
    + cbn. by apply prefix_app_r.
    + destruct (m _) as [e|[|v [|? ?]]]; cbn; by apply prefix_app_r.
  - unfold Main.predict.
    erewrite bind_fail.
    2:{ unfold Features.make_features.
        erewrite bind_fail; [done|]. by apply parse_timestamp_str_fail. }
    done.
Qed.

(** ** The report path *)

Section report_runs.
Context `{External}.

(** [report] on a request whose timestamp parses, by the state of the
    store and the festival flag. *)
Lemma report_run req w t :
  dateutil_parse (Main.ReportRequest.timestamp req) = Some t →
  Main.report req w
  = match files w !! Main.DATA_CSV, Main.ReportRequest.is_festival req with
    | None, Some fest =>
        (inr report_ok,
         set_files (<[Main.DATA_CSV :=
                        FCsv [store_header;
                              report_line t (Main.ReportRequest.actual_page_views req)
                                fest]]> (files w)) w)
    | None, None =>
        (inl (HTTPException 500 "Failed to write CSV: TypeError"),
         set_files (<[Main.DATA_CSV := FCsv [store_header]]> (files w)) w)
    | Some (FCsv lines), Some fest =>
        (inr report_ok,
         set_files (<[Main.DATA_CSV :=
                        FCsv (lines ++
                              [report_line t (Main.ReportRequest.actual_page_views req)
                                 fest])]> (files w)) w)
    | Some (FCsv lines), None =>
        (inl (HTTPException 500 "Failed to write CSV: TypeError"), w)
    | Some _, None =>
        (inl (HTTPException 500 "Failed to write CSV: TypeError"), w)
    | Some _, Some _ =>
        (inl (HTTPException 500 "Failed to write CSV: not a CSV file"), w)
    end.
Proof.
  intros Hp. destruct req as [text views fest]. 
  cbn [Main.ReportRequest.timestamp Main.ReportRequest.is_festival
       Main.ReportRequest.actual_page_views] in *.
  unfold Main.report.
  cbn [Main.ReportRequest.timestamp Main.ReportRequest.is_festival
       Main.ReportRequest.actual_page_views].
  unfold try_except at 1. rewrite Hp. cbn [of_option].
  unfold bind at 1. cbn [ret].
  unfold bind at 1, path_exists.
  destruct (files w !! Main.DATA_CSV) as [[lines| |]|] eqn:Hf.
  1-3: rewrite bool_decide_eq_true_2 by eauto.
  4: rewrite bool_decide_eq_false_2 by (by intros [? ?]).
  all: cbn [negb]; destruct fest as [fest|];
    cbv beta iota delta [bind try_except Main.csv_append ret of_option raise];
    cbn [files set_files]; rewrite ?Hf; try reflexivity.
  cbn [files set_files]. rewrite lookup_insert_eq. unfold set_files. cbn [heap files stdout clock].
  by rewrite insert_insert_eq.
Qed.

Lemma report_rejected req w :
  dateutil_parse (Main.ReportRequest.timestamp req) = None →
  Main.report req w = (inl (HTTPException 400 "Invalid timestamp format"), w).
Proof.
  intros Hp. unfold Main.report. erewrite bind_fail; [done|].
  unfold try_except, of_option. by rewrite Hp.
Qed.

Lemma report_files req : keeps (same_files_outside [Main.DATA_CSV]) (Main.report req).
Proof. unfold Main.report. keeps_walk. Qed.

Lemma report_stdout req : keeps same_stdout (Main.report req).
Proof. unfold Main.report. keeps_walk. Qed.

Lemma report_heap req : keeps same_heap (Main.report req).
Proof. unfold Main.report. keeps_walk. Qed.

Lemma set_files_set_files f f' w : set_files f (set_files f' w) = set_files f w.
Proof. done. Qed.

(** Reports on a store that exists. *)
Lemma report_all_run reqs : ∀ w lines,
  Forall accepted reqs →
  files w !! Main.DATA_CSV = Some (FCsv lines) →
  report_all reqs w
  = (inr tt,
     set_files (<[Main.DATA_CSV := FCsv (lines ++ (line_of <$> reqs))]> (files w)) w).
Proof.
  induction reqs as [|req reqs IH]; intros w lines Hacc Hf.
  - cbn. rewrite app_nil_r, insert_id by done. by destruct w.
  - apply Forall_cons in Hacc as [[[t Ht] [fest Hfest]] Hacc].
    unfold report_all. cbn [for_each]. fold (report_all reqs).
    erewrite bind_run.
    2:{ erewrite bind_run; [reflexivity|].
        rewrite (report_run req w t Ht), Hf, Hfest. reflexivity. }
    rewrite (IH _ (lines ++ [line_of req]) Hacc).
    2:{ cbn [files set_files]. rewrite lookup_insert_eq.
        unfold line_of. by rewrite Ht, Hfest. }
    cbn [files set_files]. rewrite set_files_set_files, insert_insert_eq.
    by rewrite <-app_assoc.
Qed.
End report_runs.

(** X3. [/report] on a request whose timestamp parses and whose festival
    flag is a number answers [{status: ok, message: Appended observation}]
    and appends one line to the store: the timestamp as
    [%Y-%m-%d %H:%M:%S], the page views and the festival flag.  A store that
    does not exist yet is created with the header line
    [timestamp, page_views, is_festival] first.  Nothing else changes. *)
Theorem report_appends_observation (ext : External) (req : Main.ReportRequest.t)
    (w : World) (t : Timestamp) (fest : Z) :
  dateutil_parse (Main.ReportRequest.timestamp req) = Some t →
  Main.ReportRequest.is_festival req = Some fest →
  let row := report_line t (Main.ReportRequest.actual_page_views req) fest in
  (files w !! Main.DATA_CSV = None →
   Main.report req w
   = (inr report_ok,
      set_files (<[Main.DATA_CSV := FCsv [store_header; row]]> (files w)) w))
  ∧ (∀ lines, files w !! Main.DATA_CSV = Some (FCsv lines) →
       Main.report req w
       = (inr report_ok,
          set_files (<[Main.DATA_CSV := FCsv (lines ++ [row])]> (files w)) w)).
Proof.
  intros Ht Hfest row. split.
  - intros Hf. by rewrite (report_run req w t Ht), Hf, Hfest.
  - intros lines Hf. by rewrite (report_run req w t Ht), Hf, Hfest.
Qed.

Lemma report_appends_observation_witness :
  let req := Main.ReportRequest.mk "2025-01-02 10:30:00" 250 (Some 1) in
  let t := mkTimestamp 2025 1 2 10 30 0 in
  dateutil_parse (External := Demo.ext) "2025-01-02 10:30:00" = Some t
  ∧ report_line t 250 1 = ["2025-01-02 10:30:00"; "250"; "1"]
  ∧ Main.report (H := Demo.ext) req Demo.empty_world
    = (inr report_ok,
       set_files {[ Main.DATA_CSV := FCsv [store_header; report_line t 250 1] ]}
         Demo.empty_world)
  ∧ Main.report (H := Demo.ext) req (Demo.world_with_store 2)
    = (inr report_ok,
       set_files (<[Main.DATA_CSV := FCsv (Demo.store_lines 2 ++ [report_line t 250 1])]>
                    (files (Demo.world_with_store 2)))
         (Demo.world_with_store 2)).
Proof.
  intros req t.
  split; [reflexivity|]. split; [reflexivity|].
  split.
  - exact (proj1 (report_appends_observation Demo.ext req Demo.empty_world t 1
                    eq_refl eq_refl) eq_refl).
  - exact (proj2 (report_appends_observation Demo.ext req (Demo.world_with_store 2) t 1
                    eq_refl eq_refl) (Demo.store_lines 2) eq_refl).
Defined.

(** X4. [/report] with a null [is_festival]: the conversion [int(None)]
    raises inside the block that writes the file, so the request fails with
    [HTTPException(500)].  On a store that did not exist the header has been
    written by then: the failed request leaves a store with its header and
    no row.  An existing store is left as it was. *)
Theorem report_null_festival (ext : External) (req : Main.ReportRequest.t)
    (w : World) (t : Timestamp) :
  dateutil_parse (Main.ReportRequest.timestamp req) = Some t →
  Main.ReportRequest.is_festival req = None →
  (files w !! Main.DATA_CSV = None →
   ∃ detail,
     Main.report req w
     = (inl (HTTPException 500 detail),
        set_files (<[Main.DATA_CSV := FCsv [store_header]]> (files w)) w))
  ∧ (∀ lines, files w !! Main.DATA_CSV = Some (FCsv lines) →
       ∃ detail, Main.report req w = (inl (HTTPException 500 detail), w)).
Proof.
  intros Ht Hfest. split.
  - intros Hf. eexists. by rewrite (report_run req w t Ht), Hf, Hfest.
  - intros lines Hf. eexists. by rewrite (report_run req w t Ht), Hf, Hfest.
Qed.

Lemma report_null_festival_witness :
  let req := Main.ReportRequest.mk "2025-01-02 10:30:00" 250 None in
  (∃ detail,
     Main.report (H := Demo.ext) req Demo.empty_world
     = (inl (HTTPException 500 detail),
        set_files {[ Main.DATA_CSV := FCsv [store_header] ]} Demo.empty_world))
  ∧ ∃ detail,
      Main.report (H := Demo.ext) req (Demo.world_with_store 2)
      = (inl (HTTPException 500 detail), Demo.world_with_store 2).
Proof.
  intros req.
  pose proof (report_null_festival Demo.ext req Demo.empty_world
                (mkTimestamp 2025 1 2 10 30 0) eq_refl eq_refl) as [Hnew _].
  pose proof (report_null_festival Demo.ext req (Demo.world_with_store 2)
                (mkTimestamp 2025 1 2 10 30 0) eq_refl eq_refl) as [_ Hold].
  split; [exact (Hnew eq_refl) | exact (Hold (Demo.store_lines 2) eq_refl)].
Defined.

(** X5. Accepted reports posted one after the other: a new store ends up
    with the header, written once by the first report, followed by one line
    per request in the order of the requests; on an existing store the lines
    are appended after the lines it had. *)
Theorem report_all_lines (ext : External) (reqs : list Main.ReportRequest.t)
    (w : World) :
  Forall accepted reqs →
  (reqs ≠ [] → files w !! Main.DATA_CSV = None →
   report_all reqs w
   = (inr tt,
      set_files (<[Main.DATA_CSV := FCsv (store_header :: (line_of <$> reqs))]>
                   (files w)) w))
  ∧ (∀ lines, files w !! Main.DATA_CSV = Some (FCsv lines) →
       report_all reqs w
       = (inr tt,
          set_files (<[Main.DATA_CSV := FCsv (lines ++ (line_of <$> reqs))]>
                       (files w)) w)).
Proof.
  intros Hacc. split; [|intros lines Hf; by apply report_all_run].
  intros Hne Hf. destruct reqs as [|req reqs]; [done|].
  apply Forall_cons in Hacc as [[[t Ht] [fest Hfest]] Hacc].
  unfold report_all. cbn [for_each]. fold (report_all reqs).
  erewrite bind_run.
  2:{ erewrite bind_run; [reflexivity|].
      rewrite (report_run req w t Ht), Hf, Hfest. reflexivity. }
  rewrite (report_all_run reqs _ [store_header; line_of req] Hacc).
  2:{ cbn [files set_files]. rewrite lookup_insert_eq.
      unfold line_of. by rewrite Ht, Hfest. }
  cbn [files set_files]. by rewrite set_files_set_files, insert_insert_eq.
Qed.

Lemma report_all_lines_witness :
  let reqs := [Main.ReportRequest.mk "2025-01-02T10:30" 250 (Some 1);
               Main.ReportRequest.mk "2025-01-02 11:30:00" 260 (Some 0)] in
  Forall (accepted (H := Demo.ext)) reqs
  ∧ report_all (H := Demo.ext) reqs Demo.empty_world
    = (inr tt,
       set_files {[ Main.DATA_CSV :=
                      FCsv [["timestamp"; "page_views"; "is_festival"];
                            ["2025-01-02 10:30:00"; "250"; "1"];
                            ["2025-01-02 11:30:00"; "260"; "0"]] ]}
         Demo.empty_world).
Proof.
  intros reqs.
  assert (Hacc : Forall (accepted (H := Demo.ext)) reqs).
  { repeat constructor; vm_compute; eauto. }
  split; [exact Hacc|].
  exact (proj1 (report_all_lines Demo.ext reqs Demo.empty_world Hacc)
           ltac:(intros Hnil; discriminate Hnil) eq_refl).
Defined.

(** X6. In every run, [/report] changes no file but the store, creates or
    changes no frame and prints nothing.  It only ever appends to the store:
    the lines the store had are still its first lines, followed by at most
    one new line. *)
Theorem report_touches_store_only (ext : External) (req : Main.ReportRequest.t)
    (w : World) :
  let w' := (Main.report req w).2 in
  (∀ p, p ≠ Main.DATA_CSV → files w' !! p = files w !! p)
  ∧ heap w' = heap w
  ∧ stdout w' = stdout w
  ∧ (∀ lines, files w !! Main.DATA_CSV = Some (FCsv lines) →
       ∃ more, files w' !! Main.DATA_CSV = Some (FCsv (lines ++ more))
               ∧ (length more ≤ 1)%nat).
Proof.
  intros w'. split; [|split; [|split]].
  - intros p Hp. apply (report_files req w).
    intros [->|Hin%elem_of_nil]%elem_of_cons; done.
  - apply report_heap.
  - apply report_stdout.
  - intros lines Hf. unfold w'.
    destruct (dateutil_parse (Main.ReportRequest.timestamp req)) as [t|] eqn:Ht.
    + rewrite (report_run req w t Ht), Hf.
      destruct (Main.ReportRequest.is_festival req) as [fest|]; cbn [snd files set_files].
      * eexists [_]. rewrite lookup_insert_eq. split; [done|]. cbn. lia.
      * exists []. rewrite app_nil_r. split; [done|]. cbn. lia.
    + rewrite (report_rejected req w Ht). exists []. rewrite app_nil_r.
      split; [done|]. cbn. lia.
Qed.

Lemma report_touches_store_only_witness :
  let w := Demo.world_with_store 2 in
  let w' := (Main.report (H := Demo.ext)
               (Main.ReportRequest.mk "2025-01-02 10:30:00" 250 (Some 1)) w).2 in
  files w' !! ModelUtils.MODEL_PATH = files w !! ModelUtils.MODEL_PATH
  ∧ ∃ more, files w' !! Main.DATA_CSV = Some (FCsv (Demo.store_lines 2 ++ more))
            ∧ (length more ≤ 1)%nat.
Proof.
  intros w w'.
  pose proof (report_touches_store_only Demo.ext
                (Main.ReportRequest.mk "2025-01-02 10:30:00" 250 (Some 1)) w)
    as (Hother & _ & _ & Hstore).
  split; [apply Hother; discriminate | apply Hstore; reflexivity].
Defined.

(** ** Time order of the loaded rows *)

#[export] Instance key_le_total : Total pd.key_le.
Proof.
  intros [[x|] i] [[y|] j]; unfold pd.key_le; cbn; try (by left); try (by right).
  destruct (Z.le_gt_cases x y); [left | right]; lia.
Qed.

#[export] Instance key_le_transitive : Transitive pd.key_le.
Proof.
  intros [[x|] i] [[y|] j] [[z|] k]; unfold pd.key_le; cbn; try done. lia.
Qed.

#[export] Instance no_later_transitive : Transitive no_later.
Proof. intros a b c. unfold no_later. lia. Qed.

Section time_order.
Implicit Types (l : list Sample) (ps : list (option Z * nat)).

(** Sorted keys pick sorted samples. *)
Lemma pick_sorted l ps :
  Forall (λ p, ∃ s, l !! p.2 = Some s ∧ p.1 = Some (Calendar.epoch (time s))) ps →
  StronglySorted pd.key_le ps →
  StronglySorted no_later (pick l ps.*2).
Proof.
  intros Hall Hsorted. induction Hsorted as [|p ps Hsorted IH Hhd]; [constructor|].
  apply Forall_cons in Hall as [(s & Hs & Hk) Hall].
  unfold pick. cbn [fmap list_fmap omap list_omap]. rewrite Hs.
  constructor; [by apply IH|].
  apply Forall_forall. intros s' Hs'.
  apply list_elem_of_omap in Hs' as (i & Hi & Hs').
  apply list_elem_of_fmap in Hi as (p' & -> & Hp').
  rewrite Forall_forall in Hall, Hhd.
  destruct (Hall p' Hp') as (s'' & Hs'' & Hk'). simplify_eq.
  specialize (Hhd p' Hp'). unfold pd.key_le in Hhd. rewrite Hk, Hk' in Hhd.
  exact Hhd.
Qed.

Lemma chronological_sorted l : StronglySorted no_later (chronological l).
Proof.
  unfold chronological, pd.argsort. apply pick_sorted.
  - apply Forall_forall. intros [k i] Hp.
    rewrite merge_sort_Permutation in Hp.
    apply list_elem_of_lookup in Hp as (j & Hj).
    apply lookup_zip_with_Some in Hj as (k' & i' & [= <- <-] & Hk & Hi).
    apply lookup_seq in Hi as [-> _]. cbn [fst snd]. rewrite Nat.add_0_l.
    rewrite !list_lookup_fmap in Hk.
    destruct (l !! j) as [s|]; [|done]. cbn in Hk. injection Hk as <-.
    by exists s.
  - apply StronglySorted_merge_sort; apply _.
Qed.

(** In a sorted list an earlier position holds an earlier sample. *)
Lemma sorted_lookup l : StronglySorted no_later l →
  ∀ i j a b, (i < j)%nat → l !! i = Some a → l !! j = Some b → no_later a b.
Proof.
  induction 1 as [|s l Hsorted IH Hhd]; intros i j a b Hij Ha Hb; [done|].
  destruct j as [|j]; [lia|]. cbn in Hb.
  destruct i as [|i]; cbn in Ha.
  - injection Ha as ->. rewrite Forall_forall in Hhd. apply Hhd.
    by eapply list_elem_of_lookup_2.
  - apply (IH i j); [lia|done|done].
Qed.

(** The last [n] elements of a sorted list are its latest. *)
Lemma last_n_latest n l :
  StronglySorted no_later l →
  StronglySorted no_later (last_n n l)
  ∧ ∀ a b, a ∈ take (length l - n) l → b ∈ last_n n l → no_later a b.
Proof.
  intros Hs. unfold last_n.
  rewrite <-(take_drop (length l - n) l) in Hs at 1.
  split; [by eapply StronglySorted_app_1_r|].
  intros a b Ha Hb. by eapply StronglySorted_app_1_elem_of.
Qed.
End time_order.

(** X7. [load_data] returns the valid observations of the store sorted by
    time: its rows are a permutation of the valid rows, and a row never
    comes before a row with an earlier timestamp. *)
Theorem load_data_sorted (ext : External) (obs : list Observation) (w : World)
    (lines : list (list string)) :
  files w !! Retrain.DATA_PATH = Some (FCsv lines) →
  read_csv lines = inr (store_frame obs) →
  ∃ x w' l,
    Retrain.load_data w = (inr x, w')
    ∧ heap w' !! x = Some (timed_frame l)
    ∧ l ≡ₚ samples true obs
    ∧ StronglySorted no_later l
    ∧ ∀ i j a b, (i ≤ j)%nat → l !! i = Some a → l !! j = Some b →
        Calendar.epoch (time a) ≤ Calendar.epoch (time b).
Proof.
  intros Hfile Hread.
  pose proof (load_data_run obs w lines Hfile Hread) as Hrun. cbv zeta in Hrun.
  pose proof (chronological_sorted (samples true obs)) as Hsorted.
  do 3 eexists. split; [exact Hrun|].
  split; [apply loaded_last|].
  split; [apply chronological_permutation|].
  split; [exact Hsorted|].
  intros i j a b Hij Ha Hb.
  destruct (decide (i = j)) as [->|Hne].
  - rewrite Ha in Hb. injection Hb as ->. lia.
  - apply (sorted_lookup _ Hsorted i j); [lia | done | done].
Qed.

Lemma load_data_sorted_witness :
  let w := Demo.world_with_store 3 in
  let obs := Demo.store 3 in
  files w !! Retrain.DATA_PATH = Some (FCsv (Demo.store_lines 3))
  ∧ read_csv (External := Demo.ext) (Demo.store_lines 3) = inr (store_frame obs)
  ∧ (views <$> samples (H := Demo.ext) true obs) = [120; 110; 100]
  ∧ ∃ x w' l,
      Retrain.load_data (H := Demo.ext) w = (inr x, w')
      ∧ heap w' !! x = Some (timed_frame l)
      ∧ l ≡ₚ samples (H := Demo.ext) true obs
      ∧ StronglySorted no_later l
      ∧ ∀ i j a b, (i ≤ j)%nat → l !! i = Some a → l !! j = Some b →
          Calendar.epoch (time a) ≤ Calendar.epoch (time b).
Proof.
  intros w obs.
  assert (Hfile : files w !! Retrain.DATA_PATH = Some (FCsv (Demo.store_lines 3)))
    by (vm_compute; reflexivity).
  assert (Hread : read_csv (External := Demo.ext) (Demo.store_lines 3)
                  = inr (store_frame obs)) by (vm_compute; reflexivity).
  split; [exact Hfile|]. split; [exact Hread|]. split; [vm_compute; reflexivity|].
  exact (load_data_sorted Demo.ext obs w (Demo.store_lines 3) Hfile Hread).
Defined.

(** X8. With at least [window + 2] valid rows, [load_recent_data window]
    returns the [window] latest observations in time order: the valid rows
    split into the rows returned and older rows, and no older row is later
    than a returned one. *)
Theorem recent_window_is_latest (ext : External) (obs : list Observation)
    (w : World) (lines : list (list string)) (window : nat) :
  files w !! CheckDrift.DATA_PATH = Some (FCsv lines) →
  read_csv lines = inr (store_frame obs) →
  (window + 2 ≤ length (samples false obs))%nat →
  ∃ x w' older recent,
    CheckDrift.load_recent_data window w = (inr x, w')
    ∧ heap w' !! x = Some (timed_frame recent)
    ∧ older ++ recent ≡ₚ samples false obs
    ∧ length recent = window
    ∧ StronglySorted no_later recent
    ∧ ∀ a b, a ∈ older → b ∈ recent →
        Calendar.epoch (time a) ≤ Calendar.epoch (time b).
Proof.
  intros Hfile Hread Hge.
  pose proof (load_recent_data_run obs w lines window Hfile Hread) as Hrun.
  cbv zeta in Hrun.
  apply Nat.ltb_ge in Hge as Hltb. rewrite Hltb in Hrun.
  set (sorted := chronological (samples false obs)) in *.
  pose proof (chronological_sorted (samples false obs)) as Hsorted. fold sorted in Hsorted.
  destruct (last_n_latest window sorted Hsorted) as [Hrecent Hlatest].
  exists (S (length (heap (loaded false CheckDrift.DATA_PATH
                             "data/bad_timestamp_rows_for_drift.csv" obs w)))).
  eexists. exists (take (length sorted - window) sorted), (last_n window sorted).
  split; [exact Hrun|].
  split.
  { cbn [heap set_heap].
    match goal with |- (?h ++ [?a; ?b]) !! _ = _ =>
      change (h ++ [a; b]) with (h ++ [a] ++ [b]);
      rewrite app_assoc; apply list_lookup_middle;
      rewrite length_app; cbn [length]; lia end. }
  split.
  { unfold last_n. rewrite take_drop. apply chronological_permutation. }
  split.
  { unfold last_n. rewrite length_drop. unfold sorted.
    rewrite chronological_length. lia. }
  split; [exact Hrecent | exact Hlatest].
Qed.

Lemma recent_window_is_latest_witness :
  let w := Demo.world_with_store 5 in
  let obs := Demo.store 5 in
  files w !! CheckDrift.DATA_PATH = Some (FCsv (Demo.store_lines 5))
  ∧ read_csv (External := Demo.ext) (Demo.store_lines 5) = inr (store_frame obs)
  ∧ (3 + 2 ≤ length (samples (H := Demo.ext) false obs))%nat
  ∧ ∃ x w' older recent,
      CheckDrift.load_recent_data (H := Demo.ext) 3 w = (inr x, w')
      ∧ heap w' !! x = Some (timed_frame recent)
      ∧ older ++ recent ≡ₚ samples (H := Demo.ext) false obs
      ∧ length recent = 3%nat
      ∧ StronglySorted no_later recent
      ∧ ∀ a b, a ∈ older → b ∈ recent →
          Calendar.epoch (time a) ≤ Calendar.epoch (time b).
Proof.
  intros w obs.
  assert (Hfile : files w !! CheckDrift.DATA_PATH = Some (FCsv (Demo.store_lines 5)))
    by (vm_compute; reflexivity).
  assert (Hread : read_csv (External := Demo.ext) (Demo.store_lines 5)
                  = inr (store_frame obs)) by (vm_compute; reflexivity).
  assert (Hge : (3 + 2 ≤ length (samples (H := Demo.ext) false obs))%nat)
    by (vm_compute; lia).
  split; [exact Hfile|]. split; [exact Hread|]. split; [exact Hge|].
  exact (recent_window_is_latest Demo.ext obs w (Demo.store_lines 5) 3 Hfile Hread Hge).
Defined.

(** ** What the batch jobs leave alone *)

Lemma not_elem_of_one (p a : string) : p ≠ a → p ∉ [a].
Proof. intros ? [?|Hin%elem_of_nil]%elem_of_cons; done. Qed.

Lemma not_elem_of_two (p a b : string) : p ≠ a → p ≠ b → p ∉ [a; b].
Proof.
  intros ? ? [?|[?|Hin%elem_of_nil]%elem_of_cons]%elem_of_cons; done.
Qed.

Section raised_facts.
Variable R : relation World.
Context `{!PreOrder R}.

Lemma keeps_keeps_if_raised {A} (m : Py A) : keeps R m → keeps_if_raised R m.
Proof. intros Hm w e w' Hrun. specialize (Hm w). by rewrite Hrun in Hm. Qed.

Lemma keeps_if_raised_bind {A B} (m : Py A) (k : A → Py B) :
  keeps R m → (∀ a, keeps_if_raised R (k a)) → keeps_if_raised R (bind m k).
Proof.
  intros Hm Hk w e w' Hrun. unfold bind in Hrun. specialize (Hm w).
  destruct (m w) as [[e1|a] w1].
  - by injection Hrun as <- <-.
  - etrans; [exact Hm|]. by eapply Hk.
Qed.
End raised_facts.

Section batch_footprints.
Context `{External}.

Lemma load_data_files :
  keeps (same_files_outside ["data/bad_timestamp_rows.csv"]) Retrain.load_data.
Proof. unfold Retrain.load_data. keeps_walk. Qed.

Lemma load_recent_data_files window :
  keeps (same_files_outside ["data/bad_timestamp_rows_for_drift.csv"])
    (CheckDrift.load_recent_data window).
Proof. unfold CheckDrift.load_recent_data. keeps_walk. Qed.

Lemma build_features_files paths x :
  keeps (same_files_outside paths) (CheckDrift.build_features x).
Proof. unfold CheckDrift.build_features. keeps_walk. Qed.

Lemma build_training_features_files paths x :
  keeps (same_files_outside paths) (Retrain.build_training_features x).
Proof. unfold Retrain.build_training_features. keeps_walk. Qed.

Lemma detect_drift_files :
  keeps (same_files_outside ["data/bad_timestamp_rows_for_drift.csv";
                             CheckDrift.DRIFT_REPORT_PATH])
    CheckDrift.detect_drift.
Proof. unfold CheckDrift.detect_drift. keeps_walk. Qed.

(** A run of [detect_drift] that raises has not written the report: the
    report is the last thing the function writes. *)
Lemma detect_drift_raised :
  keeps_if_raised (same_files_outside ["data/bad_timestamp_rows_for_drift.csv"])
    CheckDrift.detect_drift.
Proof.
  unfold CheckDrift.detect_drift. cbv zeta.
  repeat first
    [ apply keeps_if_raised_bind; [apply _ | solve [keeps_walk] | intros ?]
    | match goal with
      | |- keeps_if_raised _ (if ?b then _ else _) => destruct b
      end
    | solve [apply keeps_keeps_if_raised; keeps_walk] ].
  intros w e w' Hrun. discriminate Hrun.
Qed.
End batch_footprints.

(** X9. The loaders never write to the store.  In every run [load_data]
    changes no file but [bad_timestamp_rows.csv], and [load_recent_data] none
    but [bad_timestamp_rows_for_drift.csv].  The rows with a malformed
    timestamp therefore stay in the store; they are only left out of the
    table that is loaded. *)
Theorem loaders_leave_the_store (ext : External) (w : World) :
  (∀ p, p ≠ "data/bad_timestamp_rows.csv" →
        files (Retrain.load_data w).2 !! p = files w !! p)
  ∧ (∀ window p, p ≠ "data/bad_timestamp_rows_for_drift.csv" →
        files (CheckDrift.load_recent_data window w).2 !! p = files w !! p)
  ∧ files (Retrain.load_data w).2 !! Retrain.DATA_PATH = files w !! Retrain.DATA_PATH
  ∧ ∀ window, files (CheckDrift.load_recent_data window w).2 !! CheckDrift.DATA_PATH
              = files w !! CheckDrift.DATA_PATH.
Proof.
  assert (Hdata : ∀ p, p ≠ "data/bad_timestamp_rows.csv" →
                       files (Retrain.load_data w).2 !! p = files w !! p).
  { intros p Hp. exact (load_data_files w p (not_elem_of_one _ _ Hp)). }
  assert (Hrecent : ∀ window p, p ≠ "data/bad_timestamp_rows_for_drift.csv" →
            files (CheckDrift.load_recent_data window w).2 !! p = files w !! p).
  { intros window p Hp.
    exact (load_recent_data_files window w p (not_elem_of_one _ _ Hp)). }
  split; [exact Hdata|]. split; [exact Hrecent|].
  split; [by apply Hdata | intros window; by apply Hrecent].
Qed.

Lemma loaders_leave_the_store_witness :
  let w := Demo.world_with_store 3 in
  files (Retrain.load_data (H := Demo.ext) w).2 !! "data/bad_timestamp_rows.csv"
  = Some (FCsv [["timestamp"; "page_views"; "is_festival"]; [""; "7"; "1"]])
  ∧ files (Retrain.load_data (H := Demo.ext) w).2 !! ModelUtils.MODEL_PATH
    = files w !! ModelUtils.MODEL_PATH
  ∧ files (CheckDrift.load_recent_data (H := Demo.ext) 20 w).2 !! ModelUtils.MODEL_PATH
    = files w !! ModelUtils.MODEL_PATH
  ∧ files (Retrain.load_data (H := Demo.ext) w).2 !! Retrain.DATA_PATH
    = Some (FCsv (Demo.store_lines 3)).
Proof.
  intros w.
  destruct (loaders_leave_the_store Demo.ext w) as (Hdata & Hrecent & Hstore & _).
  split; [vm_compute; reflexivity|].
  split; [apply Hdata; discriminate|].
  split; [apply Hrecent; discriminate|].
  rewrite Hstore. vm_compute. reflexivity.
Defined.

(** X10. In every run [detect_drift] changes no file but its side file for
    malformed rows and the report file: the store and the model are not
    touched.  When it returns a report, that report is what the report file
    holds; when it raises, the report file is as it was before the call. *)
Theorem drift_check_writes (ext : External) (w : World) :
  let w' := (CheckDrift.detect_drift w).2 in
  (∀ p, p ≠ "data/bad_timestamp_rows_for_drift.csv" → p ≠ CheckDrift.DRIFT_REPORT_PATH →
        files w' !! p = files w !! p)
  ∧ files w' !! CheckDrift.DATA_PATH = files w !! CheckDrift.DATA_PATH
  ∧ files w' !! CheckDrift.MODEL_PATH = files w !! CheckDrift.MODEL_PATH
  ∧ (∀ r, (CheckDrift.detect_drift w).1 = inr r →
          files w' !! CheckDrift.DRIFT_REPORT_PATH = Some (FJson r))
  ∧ (∀ e, (CheckDrift.detect_drift w).1 = inl e →
          files w' !! CheckDrift.DRIFT_REPORT_PATH
          = files w !! CheckDrift.DRIFT_REPORT_PATH).
Proof.
  intros w'.
  assert (Hother : ∀ p, p ≠ "data/bad_timestamp_rows_for_drift.csv" →
                        p ≠ CheckDrift.DRIFT_REPORT_PATH →
                        files w' !! p = files w !! p).
  { intros p Hp1 Hp2.
    exact (detect_drift_files w p (not_elem_of_two _ _ _ Hp1 Hp2)). }
  split; [exact Hother|].
  split; [by apply Hother|]. split; [by apply Hother|].
  unfold w'. destruct (CheckDrift.detect_drift w) as [[e|r] w1] eqn:Hrun; cbn [fst snd].
  - split; [done|]. intros e' _.
    refine (detect_drift_raised w e w1 Hrun _ (not_elem_of_one _ _ _)).
    intros Heq. discriminate Heq.
  - split; [|done]. intros r' [= <-].
    apply detect_drift_inv in Hrun.
    destruct Hrun as (? & ? & ? & ? & ? & ? & ? & ? & ? & ? & Hrun).
    apply Hrun.
Qed.

Lemma drift_check_writes_witness :
  let w := Demo.world_with_store 3 in
  let out := CheckDrift.detect_drift (H := Demo.ext) w in
  out.1 = inl (ValueError "Not enough valid data for drift detection. Need 22, got 3")
  ∧ files out.2 !! CheckDrift.DRIFT_REPORT_PATH = None
  ∧ files out.2 !! CheckDrift.DATA_PATH = Some (FCsv (Demo.store_lines 3))
  ∧ files out.2 !! "models/traffic_model.joblib" = files w !! "models/traffic_model.joblib".
Proof.
  intros w out.
  destruct (drift_check_writes Demo.ext w) as (Hother & Hstore & _ & _ & Hraised).
  assert (Hout : out.1 = inl (ValueError
            "Not enough valid data for drift detection. Need 22, got 3"))
    by (vm_compute; reflexivity).
  split; [exact Hout|].
  split; [etrans; [exact (Hraised _ Hout) | reflexivity]|].
  split; [etrans; [exact Hstore | vm_compute; reflexivity]|].
  apply Hother; discriminate.
Defined.

(** ** Failures of the loaders and of the drift check *)

Section loader_failures.
Context `{External}.
Implicit Types (w : World) (d : DataFrame).

Lemma path_exists_missing w p :
  files w !! p = None → path_exists p w = (inr false, w).
Proof.
  intros Hf. unfold path_exists. rewrite Hf.
  by rewrite bool_decide_eq_false_2 by (by intros [? ?]).
Qed.
End loader_failures.

(** X11. A store whose table has no [timestamp] column makes both loaders
    raise [ValueError], 'CSV missing 'timestamp' column'.  Nothing has been
    written or printed by then, and the table that was read is the only new
    frame. *)
Theorem loaders_need_timestamp_column (ext : External) (w : World)
    (lines : list (list string)) (d : DataFrame) :
  files w !! "data/traffic.csv" = Some (FCsv lines) →
  read_csv lines = inr d →
  "timestamp" ∉ pd.labels d →
  Retrain.load_data w
  = (inl (ValueError "CSV missing 'timestamp' column"), set_heap (heap w ++ [d]) w)
  ∧ ∀ window,
      CheckDrift.load_recent_data window w
      = (inl (ValueError "CSV missing 'timestamp' column"), set_heap (heap w ++ [d]) w).
Proof.
  intros Hf Hr Hno. apply contains_false in Hno. split.
  - unfold Retrain.load_data.
    py_step ltac:(eapply path_exists_run; exact Hf). cbn [negb].
    py_step ltac:(eapply pd_read_csv_run; [exact Hf | exact Hr]).
    py_step ltac:(apply df_contains_run; cbn [heap set_heap]; by apply list_lookup_middle).
    by rewrite Hno.
  - intros window. unfold CheckDrift.load_recent_data.
    py_step ltac:(eapply path_exists_run; exact Hf). cbn [negb].
    py_step ltac:(eapply pd_read_csv_run; [exact Hf | exact Hr]).
    py_step ltac:(apply df_contains_run; cbn [heap set_heap]; by apply list_lookup_middle).
    by rewrite Hno.
Qed.

Lemma loaders_need_timestamp_column_witness :
  let lines := [["time"; "page_views"; "is_festival"]; ["2025-01-01 00:00:00"; "100"; "0"]] in
  let w := set_files {[ "data/traffic.csv" := FCsv lines ]} Demo.empty_world in
  let d := mkDF 1 [("time", [CStr "2025-01-01 00:00:00"]); ("page_views", [CInt 100]);
                   ("is_festival", [CInt 0])] in
  read_csv (External := Demo.ext) lines = inr d
  ∧ Retrain.load_data (H := Demo.ext) w
    = (inl (ValueError "CSV missing 'timestamp' column"), set_heap [d] w)
  ∧ CheckDrift.load_recent_data (H := Demo.ext) 20 w
    = (inl (ValueError "CSV missing 'timestamp' column"), set_heap [d] w).
Proof.
  intros lines w d.
  assert (Hr : read_csv (External := Demo.ext) lines = inr d)
    by (vm_compute; reflexivity).
  assert (Hno : "timestamp" ∉ pd.labels d).
  { intros Hin. cbn in Hin.
    repeat (apply elem_of_cons in Hin as [Hin|Hin]; [discriminate Hin|]).
    by apply elem_of_nil in Hin. }
  destruct (loaders_need_timestamp_column Demo.ext w lines d eq_refl Hr Hno)
    as [Hdata Hrecent].
  split; [exact Hr|]. split; [exact Hdata | exact (Hrecent 20%nat)].
Defined.

(** X12. [detect_drift] looks for the data before it looks for the model.
    Without a store it fails with 'No data found. You must use /report to
    add real data.', whether a model exists or not.  With a store of at
    least 22 valid observations and no model file it fails with 'No model
    found. Train model first.' and leaves the report file as it was. *)
Theorem drift_check_error_order (ext : External) (w : World) :
  (files w !! CheckDrift.DATA_PATH = None →
   CheckDrift.detect_drift w
   = (inl (FileNotFoundError "No data found. You must use /report to add real data."), w))
  ∧ (∀ obs lines,
       files w !! CheckDrift.DATA_PATH = Some (FCsv lines) →
       read_csv lines = inr (store_frame obs) →
       (22 ≤ length (samples false obs))%nat →
       files w !! CheckDrift.MODEL_PATH = None →
       ∃ w', CheckDrift.detect_drift w
             = (inl (FileNotFoundError "No model found. Train model first."), w')
             ∧ files w' !! CheckDrift.DRIFT_REPORT_PATH
               = files w !! CheckDrift.DRIFT_REPORT_PATH).
Proof.
  split.
  - intros Hf. unfold CheckDrift.detect_drift.
    erewrite bind_fail; [reflexivity|].
    unfold CheckDrift.load_recent_data.
    py_step ltac:(by apply path_exists_missing). reflexivity.
  - intros obs lines Hf Hr Hge Hm.
    pose proof (load_recent_data_run obs w lines 20 Hf Hr) as Hload. cbv zeta in Hload.
    apply (Nat.ltb_ge _ (20 + 2)) in Hge. rewrite Hge in Hload.
    set (wl := loaded false CheckDrift.DATA_PATH
                 "data/bad_timestamp_rows_for_drift.csv" obs w) in *.
    set (recent := last_n 20 (chronological (samples false obs))) in *.
    set (w1 := set_heap (heap wl ++ [timed_frame recent; timed_frame recent]) wl) in *.
    assert (Hx1 : heap w1 !! S (length (heap wl)) = Some (timed_frame recent)).
    { unfold w1. cbn [heap set_heap].
      change (heap wl ++ [timed_frame recent; timed_frame recent])
        with (heap wl ++ [timed_frame recent] ++ [timed_frame recent]).
      rewrite app_assoc. apply list_lookup_middle.
      rewrite length_app. cbn [length]. lia. }
    pose proof (build_features_run w1 _ recent Hx1) as Hbuild.
    set (w2 := set_heap (<[S (length (heap wl)) := augmented_frame recent]> (heap w1)
                         ++ [features_frame recent]) w1) in *.
    assert (Hother : ∀ p, p ≠ "data/bad_timestamp_rows_for_drift.csv" →
                          files w2 !! p = files w !! p).
    { intros p Hp. change (files w2) with (files wl). unfold wl.
      rewrite loaded_files. destruct (0 <? _)%nat; [|done].
      by apply lookup_insert_ne. }
    exists w2. split.
    + unfold CheckDrift.detect_drift.
      rewrite (bind_run _ _ _ _ _ Hload). rewrite (bind_run _ _ _ _ _ Hbuild).
      erewrite bind_run.
      2:{ apply path_exists_missing. rewrite Hother; [exact Hm|].
          intros Heq. discriminate Heq. }
      reflexivity.
    + apply Hother. intros Heq. discriminate Heq.
Qed.

Lemma drift_check_error_order_witness :
  let w := set_files {[ "data/traffic.csv" := FCsv (Demo.store_lines 22) ]}
            Demo.empty_world in
  CheckDrift.detect_drift (H := Demo.ext) Demo.empty_world
  = (inl (FileNotFoundError "No data found. You must use /report to add real data."),
     Demo.empty_world)
  ∧ ∃ w', CheckDrift.detect_drift (H := Demo.ext) w
          = (inl (FileNotFoundError "No model found. Train model first."), w')
          ∧ files w' !! CheckDrift.DRIFT_REPORT_PATH = None.
Proof.
  intros w.
  split.
  - exact (proj1 (drift_check_error_order Demo.ext Demo.empty_world) eq_refl).
  - assert (Hr : read_csv (External := Demo.ext) (Demo.store_lines 22)
                 = inr (store_frame (Demo.store 22))) by (vm_compute; reflexivity).
    assert (Hge : (22 ≤ length (samples (H := Demo.ext) false (Demo.store 22)))%nat)
      by (vm_compute; lia).
    exact (proj2 (drift_check_error_order Demo.ext w) (Demo.store 22)
             (Demo.store_lines 22) eq_refl Hr Hge eq_refl).
Defined.

(** ** Feature derivation and the caller's frame *)

Section derive_in_place.
Implicit Types (w : World) (d : DataFrame).

Lemma df_getcol_fail w x d col :
  heap w !! x = Some d → pd.getcol d col = None →
  df_getcol x col w = (inl (KeyError col), w).
Proof.
  intros Hx Hs. unfold df_getcol.
  rewrite (bind_run _ _ _ _ _ (deref_run _ _ _ Hx)). by rewrite Hs.
Qed.

(** The two lag assignments, on any frame with a [page_views] column. *)
Lemma lag_columns_run {B} w x d pv (k : Py B) :
  heap w !! x = Some d → pd.getcol d "page_views" = Some pv →
  bind (df_getcol x "page_views") (λ pv,
  bind (df_setcol x "lag_1" (pd.shift 1 pv)) (λ _,
  bind (df_getcol x "page_views") (λ pv,
  bind (df_setcol x "lag_2" (pd.shift 2 pv)) (λ _, k)))) w
  = k (set_heap (<[x := pd.setcol (pd.setcol d "lag_1" (pd.shift 1 pv))
                          "lag_2" (pd.shift 2 pv)]> (heap w)) w).
Proof.
  intros Hx Hpv. pose proof (lookup_lt_Some _ _ _ Hx) as Hlen.
  py_step ltac:(eapply df_getcol_run; [exact Hx | exact Hpv]).
  py_step ltac:(apply df_setcol_run; exact Hx).
  py_step ltac:(eapply df_getcol_run;
                [cbn [heap set_heap]; by apply list_lookup_insert_eq
                | rewrite getcol_setcol; rewrite decide_False by done; exact Hpv]).
  py_step ltac:(apply df_setcol_run; cbn [heap set_heap];
                by apply list_lookup_insert_eq).
  cbn [heap set_heap]. by rewrite list_insert_insert_eq, set_heap_set_heap.
Qed.
End derive_in_place.

(** X13. Both feature builders work in place on the frame they are given:
    after the call that frame has all its rows and the six derived columns
    [lag_1, lag_2, hour, day_of_week, month, is_weekend] after its own.
    The result is another frame, and no third frame has changed. *)
Theorem build_features_in_place (w : World) (x : loc) (l : list Sample) :
  heap w !! x = Some (timed_frame l) →
  let after (w' : World) :=
    heap w' !! x = Some (augmented_frame l)
    ∧ pd.labels (augmented_frame l)
      = ["timestamp"; "page_views"; "is_festival"; "lag_1"; "lag_2"; "hour";
         "day_of_week"; "month"; "is_weekend"]
    ∧ nrows (augmented_frame l) = length l
    ∧ ∀ y d, y ≠ x → heap w !! y = Some d → heap w' !! y = Some d in
  (∃ x' w', CheckDrift.build_features x w = (inr x', w') ∧ x' ≠ x ∧ after w')
  ∧ (∃ x' y w', Retrain.build_training_features x w = (inr (x', y), w')
                ∧ x' ≠ x ∧ after w').
Proof.
  intros Hx after. pose proof (lookup_lt_Some _ _ _ Hx) as Hlen.
  assert (Hafter : ∀ more, after (set_heap (<[x := augmented_frame l]> (heap w) ++ more) w)).
  { intros more. unfold after. cbn [heap set_heap].
    split.
    { apply lookup_app_l_Some. by apply list_lookup_insert_eq. }
    split; [reflexivity|]. split; [reflexivity|].
    intros y d Hy Hd. apply lookup_app_l_Some.
    by rewrite list_lookup_insert_ne. }
  split.
  - exists (length (heap w)). eexists.
    split; [by apply build_features_run|]. split; [lia | apply Hafter].
  - exists (S (length (heap w))). do 2 eexists.
    split; [by apply build_training_features_run|]. split; [lia | apply Hafter].
Qed.

Lemma build_features_in_place_witness :
  let l := [mkSample (mkTimestamp 2025 1 1 0 0 0) 100 0;
            mkSample (mkTimestamp 2025 1 1 1 0 0) 110 0;
            mkSample (mkTimestamp 2025 1 1 2 0 0) 90 1] in
  let w := set_heap [timed_frame l] Demo.empty_world in
  ∃ x' w',
    CheckDrift.build_features 0%nat w = (inr x', w')
    ∧ x' ≠ 0%nat
    ∧ heap w' !! 0%nat = Some (augmented_frame l)
    ∧ pd.labels (augmented_frame l)
      = ["timestamp"; "page_views"; "is_festival"; "lag_1"; "lag_2"; "hour";
         "day_of_week"; "month"; "is_weekend"]
    ∧ nrows (augmented_frame l) = 3%nat.
Proof.
  intros l w.
  destruct (proj1 (build_features_in_place w 0%nat l eq_refl))
    as (x' & w' & Hrun & Hne & Hx & Hlabels & Hrows & _).
  exists x', w'. repeat (split; [assumption|]). exact Hrows.
Defined.

(** X14. On a frame without [page_views] both feature builders raise
    [KeyError], 'page_views', and change nothing.  On a frame with
    [page_views] but without [timestamp] they raise [KeyError],
    'timestamp', after the two lag columns have been added: the frame of the
    caller is left half-built. *)
Theorem build_features_missing_columns (w : World) (x : loc) (d : DataFrame) :
  heap w !! x = Some d →
  (pd.getcol d "page_views" = None →
   CheckDrift.build_features x w = (inl (KeyError "page_views"), w)
   ∧ Retrain.build_training_features x w = (inl (KeyError "page_views"), w))
  ∧ (∀ pv, pd.getcol d "page_views" = Some pv →
           pd.getcol d "timestamp" = None →
           let d' := pd.setcol (pd.setcol d "lag_1" (pd.shift 1 pv))
                       "lag_2" (pd.shift 2 pv) in
           let w' := set_heap (<[x := d']> (heap w)) w in
           CheckDrift.build_features x w = (inl (KeyError "timestamp"), w')
           ∧ Retrain.build_training_features x w = (inl (KeyError "timestamp"), w')).
Proof.
  intros Hx. pose proof (lookup_lt_Some _ _ _ Hx) as Hlen. split.
  - intros Hpv.
    split; [unfold CheckDrift.build_features | unfold Retrain.build_training_features];
      (erewrite bind_fail; [reflexivity|]; by apply (df_getcol_fail w x d)).
  - intros pv Hpv Hts d' w'.
    assert (Hfail : df_getcol x "timestamp" w' = (inl (KeyError "timestamp"), w')).
    { apply (df_getcol_fail w' x d').
      - unfold w'. cbn [heap set_heap]. by apply list_lookup_insert_eq.
      - unfold d'. rewrite !getcol_setcol. by rewrite !decide_False by done. }
    split; [unfold CheckDrift.build_features | unfold Retrain.build_training_features];
      rewrite (lag_columns_run w x d pv _ Hx Hpv); fold d'; fold w';
      by rewrite (bind_fail _ _ _ _ _ Hfail).
Qed.

Lemma build_features_missing_columns_witness :
  let d := mkDF 2 [("page_views", [CInt 100; CInt 110]); ("is_festival", [CInt 0; CInt 0])] in
  let w := set_heap [d] Demo.empty_world in
  CheckDrift.build_features 0%nat w
  = (inl (KeyError "timestamp"),
     set_heap [mkDF 2 [("page_views", [CInt 100; CInt 110]);
                       ("is_festival", [CInt 0; CInt 0]);
                       ("lag_1", [CNull; CFloat 100]);
                       ("lag_2", [CNull; CNull])]] w)
  ∧ CheckDrift.build_features 0%nat
      (set_heap [mkDF 0 []] Demo.empty_world)
    = (inl (KeyError "page_views"), set_heap [mkDF 0 []] Demo.empty_world).
Proof.
  intros d w. split.
  - exact (proj1 (proj2 (build_features_missing_columns w 0%nat d eq_refl)
                    [CInt 100; CInt 110] eq_refl eq_refl)).
  - exact (proj1 (proj1 (build_features_missing_columns
                           (set_heap [mkDF 0 []] Demo.empty_world) 0%nat (mkDF 0 [])
                           eq_refl) eq_refl)).
Defined.

(** ** Schema enforcement and imputation, together *)

Section enforce_facts.
Implicit Types (w : World) (d X : DataFrame) (s : Series).

(** The frame [_ensure_columns] returns for [X]. *)
Lemma enforced_getcol X c :
  c ∈ ModelUtils.FEATURE_COLS →
  let filled := foldl add_default X ModelUtils.FEATURE_COLS in
  pd.getcol (mkDF (nrows filled)
               ((λ c, (c, default [] (pd.getcol filled c))) <$> ModelUtils.FEATURE_COLS)) c
  = Some (match pd.getcol X c with
          | Some s => s
          | None => replicate (nrows X) (col_default c)
          end).
Proof.
  intros Hc filled. unfold pd.getcol at 1. cbn [columns].
  rewrite assoc_tabulate, decide_True by done.
  unfold filled. by rewrite (fill_getcol _ _ _ Hc).
Qed.

Lemma isna_any_fillna v s : isna v = false → pd.isna_any (pd.fillna v s) = false.
Proof.
  intros Hv. unfold pd.isna_any, pd.fillna. induction s as [|c s IH]; [done|].
  rewrite fmap_cons. cbn [existsb]. rewrite IH, orb_false_r.
  by destruct c.
Qed.

Lemma isna_any_imputed n s : pd.isna_any (imputed n s) = false.
Proof.
  unfold imputed. destruct (pd.isna_all s).
  - unfold pd.isna_any. induction n as [|n IH]; [done|]. exact IH.
  - by apply isna_any_fillna.
Qed.

Lemma length_imputed n s : length s = n → length (imputed n s) = n.
Proof.
  intros Hs. unfold imputed. destruct (pd.isna_all s).
  - apply length_replicate.
  - unfold pd.fillna. by rewrite length_fmap.
Qed.

Lemma numeric_replicate_null n : numeric (replicate n CNull).
Proof. apply Forall_replicate. by left. Qed.
End enforce_facts.

Section enforce_runs.
Implicit Types (w : World) (d X : DataFrame) (s : Series).

(** The frame schema enforcement makes of [X]. *)
Lemma enforced_wf X :
  wf_frame X →
  let filled := foldl add_default X ModelUtils.FEATURE_COLS in
  wf_frame (mkDF (nrows filled)
              ((λ c, (c, default [] (pd.getcol filled c))) <$> ModelUtils.FEATURE_COLS)).
Proof.
  intros [Hnd Hlen] filled. split.
  - rewrite tabulate_labels. compute_done.
  - cbn [columns nrows]. apply Forall_fmap, Forall_forall. intros c Hc.
    unfold compose. cbn beta. cbn [snd].
    unfold filled. rewrite (fill_getcol _ _ _ Hc), fill_nrows. cbn [default].
    destruct (pd.getcol X c) as [s|] eqn:Hs.
    + by apply (wf_getcol_length X c).
    + apply length_replicate.
Qed.

(** [predict_from_df] on a well-formed frame, up to the call of the
    model. *)
Lemma predict_from_df_run w x X m :
  heap w !! x = Some X →
  wf_frame X →
  (∀ c s, c ∈ ["lag_1"; "lag_2"] → pd.getcol X c = Some s → numeric s) →
  files w !! ModelUtils.MODEL_PATH = Some (FModel m) →
  let filled := foldl add_default X ModelUtils.FEATURE_COLS in
  let Y := mkDF (nrows filled)
             ((λ c, (c, default [] (pd.getcol filled c))) <$> ModelUtils.FEATURE_COLS) in
  let lag c := match pd.getcol X c with
               | Some s => s
               | None => replicate (nrows X) CNull
               end in
  let fed := pd.setcol (pd.setcol Y "lag_1" (imputed (nrows X) (lag "lag_1")))
               "lag_2" (imputed (nrows X) (lag "lag_2")) in
  ModelUtils.predict_from_df x w = (m fed, set_heap (heap w ++ [filled; fed]) w).
Proof.
  intros Hx Hwf Hnum Hfile filled Y lag fed.
  pose proof (ensure_columns_run w x X Hx (proj1 Hwf)) as Hens. cbv zeta in Hens.
  pose proof (enforced_wf X Hwf) as HwfY. cbv zeta in HwfY.
  assert (HY : ∀ c, c ∈ ["lag_1"; "lag_2"] → pd.getcol Y c = Some (lag c)).
  { intros c Hc. unfold Y, filled. rewrite enforced_getcol.
    - unfold lag. by rewrite (col_default_lag c Hc).
    - unfold ModelUtils.FEATURE_COLS.
      apply elem_of_cons in Hc as [->|Hc]; [left|].
      apply elem_of_cons in Hc as [->|Hc]; [right; left|].
      by apply elem_of_nil in Hc. }
  assert (Hlagnum : ∀ c, c ∈ ["lag_1"; "lag_2"] → numeric (lag c)).
  { intros c Hc. unfold lag. destruct (pd.getcol X c) as [s|] eqn:Hs.
    - by apply (Hnum c).
    - apply numeric_replicate_null. }
  assert (HnY : nrows Y = nrows X) by apply fill_nrows.
  fold filled in Hens, HwfY. fold Y in Hens, HwfY.
  clearbody filled. clearbody Y.
  unfold ModelUtils.predict_from_df.
  rewrite (bind_run _ _ _ _ _ (load_model_run w m Hfile)).
  rewrite (bind_run _ _ _ _ _ Hens).
  set (w1 := set_heap (heap w ++ [filled; Y]) w).
  assert (Hx1 : heap w1 !! S (length (heap w)) = Some Y).
  { unfold w1. cbn [heap set_heap].
    change (heap w ++ [filled; Y]) with (heap w ++ [filled] ++ [Y]).
    rewrite app_assoc. apply list_lookup_middle.
    rewrite length_app. cbn [length]. lia. }
  erewrite bind_run.
  2:{ apply (impute_lags_run w1 _ Y (lag "lag_1") (lag "lag_2") Hx1 HwfY).
      - apply HY. left.
      - apply HY. right. left.
      - apply Hlagnum. left.
      - apply Hlagnum. right. left. }
  rewrite HnY. fold fed.
  erewrite bind_run.
  2:{ apply deref_run. cbn [heap set_heap]. by apply list_lookup_insert_eq, lookup_lt_Some with Y. }
  unfold w1. cbn [heap set_heap]. rewrite set_heap_set_heap.
  change (heap w ++ [filled; Y]) with (heap w ++ [filled] ++ [Y]).
  rewrite app_assoc.
  rewrite (insert_app_r_alt _ _ (S (length (heap w)))) by (rewrite length_app; cbn [length]; lia).
  replace (S (length (heap w)) - length (heap w ++ [filled]))%nat with 0%nat
    by (rewrite length_app; cbn [length]; lia).
  cbn [insert list_insert]. rewrite <-app_assoc. cbn [app].
  unfold bind, of_sum, ret, raise. by destruct (m fed).
Qed.
End enforce_runs.

(** X15. [predict_from_df] on a well-formed batch of any number of rows
    whose lag columns, where it has them, hold numbers and nulls.  The model
    is called on a table with exactly the seven feature columns in schema
    order and as many rows as the batch; its lag columns have no null left;
    a calendar or categorical column of the batch is passed on as it is and
    an absent one is 0 in every row.  What [predict_from_df] returns or
    raises is what the model returns or raises.  The frame of the caller is
    not modified and no file is touched. *)
Theorem predict_from_df_contract (w : World) (x : loc) (X : DataFrame) (m : Model) :
  heap w !! x = Some X →
  wf_frame X →
  (∀ c s, c ∈ ["lag_1"; "lag_2"] → pd.getcol X c = Some s → numeric s) →
  files w !! ModelUtils.MODEL_PATH = Some (FModel m) →
  ∃ fed w',
    ModelUtils.predict_from_df x w = (m fed, w')
    ∧ heap w' !! x = Some X
    ∧ files w' = files w
    ∧ pd.labels fed
      = ["lag_1"; "lag_2"; "hour"; "day_of_week"; "month"; "is_weekend"; "is_festival"]
    ∧ nrows fed = nrows X
    ∧ (∀ c, c ∈ ["lag_1"; "lag_2"] →
         ∃ s, pd.getcol fed c = Some s ∧ length s = nrows X ∧ pd.isna_any s = false)
    ∧ (∀ c, c ∈ ["hour"; "day_of_week"; "month"; "is_weekend"; "is_festival"] →
         pd.getcol fed c
         = Some (match pd.getcol X c with
                 | Some s => s
                 | None => replicate (nrows X) (CInt 0)
                 end)).
Proof.
  intros Hx Hwf Hnum Hfile.
  pose proof (predict_from_df_run w x X m Hx Hwf Hnum Hfile) as Hrun.
  cbv zeta in Hrun.
  set (filled := foldl add_default X ModelUtils.FEATURE_COLS) in *.
  set (Y := mkDF (nrows filled)
              ((λ c, (c, default [] (pd.getcol filled c))) <$> ModelUtils.FEATURE_COLS)) in *.
  set (lag := λ c, match pd.getcol X c with
                   | Some s => s
                   | None => replicate (nrows X) CNull
                   end) in *.
  assert (Hlabels : pd.labels Y = ModelUtils.FEATURE_COLS) by apply tabulate_labels.
  assert (HnY : nrows Y = nrows X) by apply fill_nrows.
  assert (HY : ∀ c, c ∈ ModelUtils.FEATURE_COLS →
                    pd.getcol Y c = Some (match pd.getcol X c with
                                          | Some s => s
                                          | None => replicate (nrows X) (col_default c)
                                          end)).
  { intros c Hc. by apply enforced_getcol. }
  assert (Hlaglen : ∀ c, length (lag c) = nrows X).
  { intros c. unfold lag. destruct (pd.getcol X c) as [s|] eqn:Hs.
    - by apply (wf_getcol_length X c).
    - apply length_replicate. }
  clearbody Y. clearbody filled.
  do 2 eexists. split; [exact Hrun|].
  split; [cbn [heap set_heap]; by apply lookup_app_l_Some|].
  split; [reflexivity|].
  split.
  { rewrite !labels_setcol_present; [exact Hlabels| |].
    - rewrite Hlabels. compute_done.
    - rewrite labels_setcol_present; rewrite Hlabels; compute_done. }
  split; [by rewrite !nrows_setcol|].
  split.
  - intros c Hc. rewrite !getcol_setcol.
    apply elem_of_cons in Hc as [->|Hc]; [|apply elem_of_cons in Hc as [->|Hc]].
    + rewrite decide_False by done. rewrite decide_True by done.
      eexists. split; [done|].
      split; [by apply length_imputed | apply isna_any_imputed].
    + rewrite decide_True by done.
      eexists. split; [done|].
      split; [by apply length_imputed | apply isna_any_imputed].
    + by apply elem_of_nil in Hc.
  - intros c Hc. rewrite !getcol_setcol.
    assert (c ≠ "lag_1" ∧ c ≠ "lag_2") as [H1 H2].
    { split; intros ->;
        repeat (apply elem_of_cons in Hc as [Hc|Hc]; [discriminate Hc|]);
        by apply elem_of_nil in Hc. }
    rewrite !decide_False by done.
    rewrite HY by (unfold ModelUtils.FEATURE_COLS; by do 2 right).
    by rewrite (col_default_calendar c Hc).
Qed.

Lemma predict_from_df_contract_witness :
  let w := set_heap [Demo.shuffled] Demo.world_with_model in
  ∃ fed w',
    ModelUtils.predict_from_df 0%nat w = (Demo.persistence_model fed, w')
    ∧ heap w' !! 0%nat = Some Demo.shuffled
    ∧ pd.labels fed
      = ["lag_1"; "lag_2"; "hour"; "day_of_week"; "month"; "is_weekend"; "is_festival"]
    ∧ nrows fed = 2%nat
    ∧ pd.getcol fed "month" = Some [CInt 12; CInt 1]
    ∧ pd.getcol fed "hour" = Some [CInt 0; CInt 0]
    ∧ ∃ s, pd.getcol fed "lag_2" = Some s ∧ pd.isna_any s = false.
Proof.
  intros w.
  assert (Hwf : wf_frame Demo.shuffled).
  { split; [compute_done | repeat constructor]. }
  assert (Hnum : ∀ c s, c ∈ ["lag_1"; "lag_2"] → pd.getcol Demo.shuffled c = Some s →
                        numeric s).
  { intros c s Hc Hs.
    apply elem_of_cons in Hc as [->|Hc]; [discriminate Hs|].
    apply elem_of_cons in Hc as [->|Hc]; [|by apply elem_of_nil in Hc].
    injection Hs as <-. apply Forall_cons. split; [right; by eexists|].
    apply Forall_cons. split; [by left | constructor]. }
  destruct (predict_from_df_contract w 0%nat Demo.shuffled Demo.persistence_model
              eq_refl Hwf Hnum eq_refl)
    as (fed & w' & Hrun & Hx & _ & Hlabels & Hrows & Hlags & Hcal).
  exists fed, w'. split; [exact Hrun|]. split; [exact Hx|].
  split; [exact Hlabels|]. split; [exact Hrows|].
  split; [apply (Hcal "month"); compute_done|].
  split; [apply (Hcal "hour"); compute_done|].
  destruct (Hlags "lag_2" ltac:(compute_done)) as (s & Hs & _ & Hna).
  exists s. split; [exact Hs | exact Hna].
Defined.

(** X16. [_ensure_columns] leaves its argument as it is and is idempotent:
    applied to its own result it returns a new frame equal to that
    result. *)
Theorem ensure_columns_idempotent (w : World) (x : loc) (X : DataFrame) :
  heap w !! x = Some X →
  NoDup (pd.labels X) →
  ∃ x1 w1 x2 w2 Y,
    ModelUtils._ensure_columns x w = (inr x1, w1)
    ∧ heap w1 !! x1 = Some Y
    ∧ x1 ≠ x
    ∧ heap w1 !! x = Some X
    ∧ ModelUtils._ensure_columns x1 w1 = (inr x2, w2)
    ∧ heap w2 !! x2 = Some Y
    ∧ x2 ≠ x1
    ∧ heap w2 !! x1 = Some Y.
Proof.
  intros Hx Hnd. pose proof (lookup_lt_Some _ _ _ Hx) as Hlen.
  pose proof (ensure_columns_run w x X Hx Hnd) as Hrun. cbv zeta in Hrun.
  set (filled := foldl add_default X ModelUtils.FEATURE_COLS) in *.
  set (Y := mkDF (nrows filled)
              ((λ c, (c, default [] (pd.getcol filled c))) <$> ModelUtils.FEATURE_COLS)) in *.
  set (w1 := set_heap (heap w ++ [filled; Y]) w) in *.
  assert (Hlabels : pd.labels Y = ModelUtils.FEATURE_COLS) by apply tabulate_labels.
  assert (HndY : NoDup (pd.labels Y)) by (rewrite Hlabels; compute_done).
  assert (Hx1 : heap w1 !! S (length (heap w)) = Some Y).
  { unfold w1. cbn [heap set_heap].
    change (heap w ++ [filled; Y]) with (heap w ++ [filled] ++ [Y]).
    rewrite app_assoc. apply list_lookup_middle.
    rewrite length_app. cbn [length]. lia. }
  pose proof (ensure_columns_run w1 _ Y Hx1 HndY) as Hrun2. cbv zeta in Hrun2.
  set (filled2 := foldl add_default Y ModelUtils.FEATURE_COLS) in *.
  assert (Hsame : mkDF (nrows filled2)
                    ((λ c, (c, default [] (pd.getcol filled2 c)))
                       <$> ModelUtils.FEATURE_COLS) = Y).
  { unfold filled2 at 1. rewrite fill_nrows. unfold Y at 1 2. cbn [nrows].
    apply (f_equal (mkDF (nrows filled))).
    apply list_fmap_ext. intros i c Hc.
    assert (Hin : c ∈ ModelUtils.FEATURE_COLS) by (by eapply list_elem_of_lookup_2).
    apply (f_equal (pair c)).
    assert (HYc : pd.getcol Y c = Some (default [] (pd.getcol filled c))).
    { unfold Y. unfold pd.getcol at 1. cbn [columns].
      by rewrite assoc_tabulate, decide_True by done. }
    unfold filled2. by rewrite (fill_getcol _ _ _ Hin), HYc. }
  rewrite Hsame in Hrun2.
  clearbody filled2. clearbody Y. clearbody filled.
  do 5 eexists. split; [exact Hrun|].
  split; [exact Hx1|]. split; [lia|].
  split; [unfold w1; cbn [heap set_heap]; by apply lookup_app_l_Some|].
  split; [exact Hrun2|].
  split.
  { cbn [heap set_heap].
    match goal with |- (?h ++ [?a; ?b]) !! _ = _ =>
      change (h ++ [a; b]) with (h ++ [a] ++ [b]);
      rewrite app_assoc; apply list_lookup_middle;
      rewrite length_app; cbn [length]; lia end. }
  split; [unfold w1; cbn [heap set_heap]; rewrite length_app; cbn [length]; lia|].
  cbn [heap set_heap]. by apply lookup_app_l_Some.
Qed.

Lemma ensure_columns_idempotent_witness :
  let w := set_heap [Demo.shuffled] Demo.empty_world in
  ∃ x1 w1 x2 w2 Y,
    ModelUtils._ensure_columns 0%nat w = (inr x1, w1)
    ∧ heap w1 !! x1 = Some Y
    ∧ x1 ≠ 0%nat
    ∧ heap w1 !! 0%nat = Some Demo.shuffled
    ∧ ModelUtils._ensure_columns x1 w1 = (inr x2, w2)
    ∧ heap w2 !! x2 = Some Y
    ∧ x2 ≠ x1
    ∧ heap w2 !! x1 = Some Y.
Proof.
  intros w.
  apply (ensure_columns_idempotent w 0%nat Demo.shuffled eq_refl). compute_done.
Defined.

(** ** Imputation and the mean of a lag column *)

Section mean_facts.
Implicit Types (s : Series) (m : Q).
Local Open Scope Q_scope.

Lemma present_fillna m s :
  numeric s →
  present (pd.fillna (CFloat m) s) = (λ c, default m (cell_num c)) <$> s.
Proof.
  unfold numeric, present, pd.fillna. induction 1 as [|c s Hc Hs IH]; [done|].
  rewrite !fmap_cons. cbn [omap list_omap]. rewrite <-IH.
  destruct c; cbn; try reflexivity; destruct Hc as [?|[? ?]]; discriminate.
Qed.

Lemma length_present_le s : (length (present s) ≤ length s)%nat.
Proof.
  unfold present. induction s as [|c s IH]; [done|].
  cbn [omap list_omap]. destruct (cell_num c); cbn [length]; lia.
Qed.

Lemma Qsum_filled m s :
  pd.Qsum ((λ c, default m (cell_num c)) <$> s)
  == pd.Qsum (present s)
     + inject_Z (Z.of_nat (length s) - Z.of_nat (length (present s))) * m.
Proof.
  unfold present, pd.Qsum. induction s as [|c s IH].
  - cbn [fmap list_fmap foldr omap list_omap length].
    change (inject_Z _) with 0. ring.
  - rewrite fmap_cons. cbn [foldr omap list_omap]. rewrite IH.
    destruct (cell_num c) as [q|]; cbn [from_option foldr length]; unfold id.
    + replace (Z.of_nat (S (length s)) - Z.of_nat (S (length (omap cell_num s))))%Z
        with (Z.of_nat (length s) - Z.of_nat (length (omap cell_num s)))%Z by lia.
      ring.
    + replace (Z.of_nat (S (length s)) - Z.of_nat (length (omap cell_num s)))%Z
        with ((Z.of_nat (length s) - Z.of_nat (length (omap cell_num s))) + 1)%Z by lia.
      rewrite inject_Z_plus. ring.
Qed.

(** Filling the nulls of a column with its mean leaves the mean as it
    is. *)
Lemma Qmean_fillna s :
  numeric s → pd.isna_all s = false →
  pd.Qmean (present (pd.fillna (CFloat (pd.Qmean (present s))) s))
  == pd.Qmean (present s).
Proof.
  intros Hnum Hall.
  assert (Hk : (0 < length (present s))%nat).
  { destruct (present s) eqn:Hp; [|cbn; lia].
    rewrite (present_nil s Hnum Hp) in Hall. discriminate. }
  pose proof (length_present_le s) as Hle.
  rewrite present_fillna by done.
  unfold pd.Qmean at 1. rewrite length_fmap, Qsum_filled.
  unfold pd.Qmean.
  unfold Z.sub. rewrite inject_Z_plus, inject_Z_opp.
  set (S := pd.Qsum (present s)).
  set (k := inject_Z (Z.of_nat (length (present s)))).
  set (n := inject_Z (Z.of_nat (length s))).
  assert (Hk0 : ¬ k == 0).
  { unfold k. change 0 with (inject_Z 0). rewrite inject_Z_injective. lia. }
  assert (Hn0 : ¬ n == 0).
  { unfold n. change 0 with (inject_Z 0). rewrite inject_Z_injective. lia. }
  field. split; assumption.
Qed.
End mean_facts.

(** X17. Imputation keeps the mean of a lag column (in exact arithmetic):
    the imputed version of a lag column with at least one number has a
    number in every row, and the mean of these numbers is the mean of the
    numbers the column had. *)
Theorem imputation_keeps_column_mean (w : World) (xp : loc) (Y : DataFrame)
    (s1 s2 : Series) :
  heap w !! xp = Some Y → wf_frame Y →
  pd.getcol Y "lag_1" = Some s1 → pd.getcol Y "lag_2" = Some s2 →
  numeric s1 → numeric s2 →
  ∃ w' Y',
    ModelUtils.impute_lags xp w = (inr tt, w')
    ∧ heap w' !! xp = Some Y'
    ∧ ∀ col s, (col, s) ∈ [("lag_1", s1); ("lag_2", s2)] →
        pd.isna_all s = false →
        ∃ s', pd.getcol Y' col = Some s'
              ∧ length (present s') = nrows Y
              ∧ (pd.Qmean (present s') == pd.Qmean (present s))%Q.
Proof.
  intros Hx Hwf H1 H2 Hn1 Hn2.
  pose proof (impute_lags_run w xp Y s1 s2 Hx Hwf H1 H2 Hn1 Hn2) as Hrun.
  do 2 eexists. split; [exact Hrun|]. split.
  { cbn [heap set_heap]. apply list_lookup_insert_eq. by eapply lookup_lt_Some. }
  intros col s Hin Hall.
  assert (pd.getcol (pd.setcol (pd.setcol Y "lag_1" (imputed (nrows Y) s1))
                       "lag_2" (imputed (nrows Y) s2)) col
          = Some (imputed (nrows Y) s) ∧ length s = nrows Y ∧ numeric s)
    as (Hcol & Hlen & Hnum).
  { rewrite !getcol_setcol.
    apply elem_of_cons in Hin as [Heq|Hin]; [|apply elem_of_cons in Hin as [Heq|Hin]].
    - injection Heq as -> ->. split; [done|].
      split; [by apply (wf_getcol_length Y "lag_1") | done].
    - injection Heq as -> ->. split; [done|].
      split; [by apply (wf_getcol_length Y "lag_2") | done].
    - by apply elem_of_nil in Hin. }
  eexists. split; [exact Hcol|].
  unfold imputed. rewrite Hall. split.
  - rewrite present_fillna by done. by rewrite length_fmap.
  - by apply Qmean_fillna.
Qed.

Lemma imputation_keeps_column_mean_witness :
  ∃ w' Y',
    ModelUtils.impute_lags 0%nat (set_heap [Demo.half_lags] Demo.empty_world)
    = (inr tt, w')
    ∧ heap w' !! 0%nat = Some Y'
    ∧ ∃ s', pd.getcol Y' "lag_1" = Some s'
            ∧ length (present s') = 2%nat
            ∧ (pd.Qmean (present s') == 80)%Q.
Proof.
  assert (Hwf : wf_frame Demo.half_lags).
  { split; [compute_done | repeat constructor]. }
  assert (Hn1 : numeric [CNull; CFloat 80]).
  { apply Forall_cons. split; [by left|].
    apply Forall_cons. split; [right; by eexists | constructor]. }
  assert (Hn2 : numeric [CFloat 70; CFloat 75]).
  { apply Forall_cons. split; [right; by eexists|].
    apply Forall_cons. split; [right; by eexists | constructor]. }
  destruct (imputation_keeps_column_mean (set_heap [Demo.half_lags] Demo.empty_world)
              0%nat Demo.half_lags _ _ eq_refl Hwf eq_refl eq_refl Hn1 Hn2)
    as (w' & Y' & Hrun & Hx & Hmean).
  exists w', Y'. split; [exact Hrun|]. split; [exact Hx|].
  destruct (Hmean "lag_1" [CNull; CFloat 80] ltac:(left) eq_refl)
    as (s' & Hs & Hlen & Hq).
  exists s'. split; [exact Hs|]. split; [exact Hlen|].
  rewrite Hq. reflexivity.
Defined.

(** ** White space around stored timestamps *)

Section whitespace.
Context `{External}.
Variable infer : bool.
Implicit Types (obs : list Observation).

Lemma samples_whitespace obs obs' :
  Forall2 same_up_to_whitespace obs obs' →
  samples infer obs = samples infer obs'.
Proof.
  intros Hsame. unfold samples, stamped, parsed.
  assert (((λ o, strip (obs_timestamp o)) <$> obs)
          = ((λ o, strip (obs_timestamp o)) <$> obs')) as <-.
  { induction Hsame as [|o o' obs obs' (Hts & _ & _) _ IH]; [done|].
    rewrite !fmap_cons. by rewrite Hts, IH. }
  generalize (to_datetime infer ((λ o, strip (obs_timestamp o)) <$> obs)).
  induction Hsame as [|o o' obs obs' (_ & Hv & Hf) _ IH]; intros P; [done|].
  destruct P as [|p P]; [done|].
  cbn [zip zip_with omap list_omap fst snd]. rewrite Hv, Hf.
  destruct p; cbn [fmap option_fmap option_map]; by rewrite IH.
Qed.
End whitespace.

(** X18. White space around the timestamps of the store does not matter
    to the loaders.  On two stores whose rows differ at most by white space
    around the timestamp, [load_data] returns equal tables, and
    [load_recent_data] either raises the same error on both or returns equal
    tables. *)
Theorem loaders_ignore_whitespace (ext : External) (obs obs' : list Observation)
    (w w' : World) (lines lines' : list (list string)) :
  Forall2 same_up_to_whitespace obs obs' →
  files w !! "data/traffic.csv" = Some (FCsv lines) →
  read_csv lines = inr (store_frame obs) →
  files w' !! "data/traffic.csv" = Some (FCsv lines') →
  read_csv lines' = inr (store_frame obs') →
  (∃ F x v x' v',
     Retrain.load_data w = (inr x, v) ∧ heap v !! x = Some F
     ∧ Retrain.load_data w' = (inr x', v') ∧ heap v' !! x' = Some F)
  ∧ ∀ window,
      match CheckDrift.load_recent_data window w,
            CheckDrift.load_recent_data window w' with
      | (inl e, _), (inl e', _) => e = e'
      | (inr x, v), (inr x', v') => is_Some (heap v !! x) ∧ heap v !! x = heap v' !! x'
      | _, _ => False
      end.
Proof.
  intros Hsame Hf Hr Hf' Hr'. split.
  - pose proof (load_data_run obs w lines Hf Hr) as Hrun.
    pose proof (load_data_run obs' w' lines' Hf' Hr') as Hrun'.
    cbv zeta in Hrun, Hrun'.
    do 5 eexists. split; [exact Hrun|]. split; [apply loaded_last|].
    split; [exact Hrun'|].
    rewrite (samples_whitespace true obs obs' Hsame). apply loaded_last.
  - intros window.
    rewrite (load_recent_data_run obs w lines window Hf Hr).
    rewrite (load_recent_data_run obs' w' lines' window Hf' Hr').
    cbv zeta. rewrite (samples_whitespace false obs obs' Hsame).
    destruct (length (samples false obs') <? window + 2)%nat; [done|].
    cbn [heap set_heap].
    assert (Hlast : ∀ (h : list DataFrame) a,
              (h ++ [a; a]) !! S (length h) = Some a).
    { intros h a. change (h ++ [a; a]) with (h ++ [a] ++ [a]).
      rewrite app_assoc. apply list_lookup_middle.
      rewrite length_app. cbn [length]. lia. }
    rewrite !Hlast. split; [by eexists | done].
Qed.

Lemma loaders_ignore_whitespace_witness :
  let obs := [mkObservation "2025-01-01 00:00:00" 100 0;
              mkObservation "2025-01-01 01:00:00" 110 0] in
  let obs' := [mkObservation " 2025-01-01 00:00:00" 100 0;
               mkObservation "2025-01-01 01:00:00  " 110 0] in
  let lines o := ["timestamp"; "page_views"; "is_festival"]
                 :: ((λ o, [obs_timestamp o; str_of_Z (obs_page_views o);
                            str_of_Z (obs_is_festival o)]) <$> o) in
  let w := set_files {[ "data/traffic.csv" := FCsv (lines obs) ]} Demo.empty_world in
  let w' := set_files {[ "data/traffic.csv" := FCsv (lines obs') ]} Demo.empty_world in
  Forall2 same_up_to_whitespace obs obs'
  ∧ ∃ F x v x' v',
      Retrain.load_data (H := Demo.ext) w = (inr x, v) ∧ heap v !! x = Some F
      ∧ Retrain.load_data (H := Demo.ext) w' = (inr x', v') ∧ heap v' !! x' = Some F.
Proof.
  intros obs obs' lines w w'.
  assert (Hsame : Forall2 same_up_to_whitespace obs obs').
  { repeat constructor. }
  assert (Hr : read_csv (External := Demo.ext) (lines obs) = inr (store_frame obs))
    by (vm_compute; reflexivity).
  assert (Hr' : read_csv (External := Demo.ext) (lines obs') = inr (store_frame obs'))
    by (vm_compute; reflexivity).
  split; [exact Hsame|].
  exact (proj1 (loaders_ignore_whitespace Demo.ext obs obs' w w' _ _ Hsame
                  eq_refl Hr eq_refl Hr')).
Defined.

(** ** Retraining *)

Section training.
Context `{External}.
Variable fit : DataFrame → Series → exn + Model.
Implicit Types (w : World) (obs : list Observation).

(** The part of [train_model] that follows the fit. *)
Lemma train_tail_run w X Xd (model : Model) :
  heap w !! X = Some Xd →
  bind (Retrain.joblib_dump model Retrain.MODEL_PATH) (λ _,
  bind (print (newline +:+ "=====================================")) (λ _,
  bind (print " Retraining Completed Successfully") (λ _,
  bind (print "=====================================") (λ _,
  bind (print ("Model saved to: " +:+ Retrain.MODEL_PATH)) (λ _,
  bind (df_len X) (λ n,
  bind (print ("Total training samples: " +:+ str_of_nat n)) (λ _,
  print ("=====================================" +:+ newline)))))))) w
  = (inr tt,
     mkWorld (heap w) (<[Retrain.MODEL_PATH := FModel model]> (files w))
       (stdout w ++ retraining_banner (nrows Xd)) (clock w)).
Proof.
  intros HX. unfold Retrain.joblib_dump, write_file, print.
  cbv beta iota delta [bind]. cbn [heap files stdout clock set_files set_stdout].
  rewrite (df_len_run _ X Xd) by exact HX.
  cbn [heap files stdout clock set_files set_stdout].
  unfold retraining_banner. by rewrite <-!app_assoc.
Qed.

(** [train_model] on a store of observations, up to the fit. *)
Lemma train_model_run obs w lines :
  files w !! Retrain.DATA_PATH = Some (FCsv lines) →
  read_csv lines = inr (store_frame obs) →
  let l := chronological (samples true obs) in
  let y := (λ s, CInt (views s)) <$> drop 2 l in
  let wl := loaded true Retrain.DATA_PATH "data/bad_timestamp_rows.csv" obs w in
  let w2 := set_heap (<[(length (heap wl) - 1)%nat := augmented_frame l]> (heap wl)
                      ++ [features_frame l; model_input l]) wl in
  Retrain.train_model fit w
  = match fit (model_input l) y with
    | inl e => (inl e, w2)
    | inr model =>
        (inr tt,
         mkWorld (heap w2) (<[Retrain.MODEL_PATH := FModel model]> (files w2))
           (stdout w2 ++ retraining_banner (length l - 2)) (clock w2))
    end.
Proof.
  intros Hf Hr l y wl w2.
  pose proof (load_data_run obs w lines Hf Hr) as Hload. cbv zeta in Hload. fold wl in Hload.
  pose proof (loaded_last true Retrain.DATA_PATH "data/bad_timestamp_rows.csv" obs w)
    as Hlast. fold wl l in Hlast.
  pose proof (build_training_features_run wl _ l Hlast) as Hbuild.
  fold y w2 in Hbuild.
  assert (Hlen : (0 < length (heap wl))%nat) by (apply lookup_lt_Some in Hlast; lia).
  assert (HX : heap w2 !! S (length (heap wl)) = Some (model_input l)).
  { unfold w2. cbn [heap set_heap].
    change [features_frame l; model_input l] with ([features_frame l] ++ [model_input l]).
    rewrite app_assoc. apply list_lookup_middle.
    rewrite length_app, length_insert. cbn [length]. lia. }
  unfold Retrain.train_model.
  rewrite (bind_run _ _ _ _ _ Hload). rewrite (bind_run _ _ _ _ _ Hbuild).
  rewrite (bind_run _ _ _ _ _ (deref_run _ _ _ HX)).
  destruct (fit (model_input l) y) as [e|model]; [reflexivity|].
  unfold of_sum. rewrite (bind_run _ _ w2 model w2) by reflexivity.
  by rewrite (train_tail_run w2 _ (model_input l) model HX).
Qed.
End training.

Section training_inversion.
Context `{External}.
Variable fit : DataFrame → Series → exn + Model.
Implicit Types (w : World).

(** A run of [train_model] that returns has saved the model that [fit]
    returned. *)
Lemma train_model_inv w w' :
  Retrain.train_model fit w = (inr tt, w') →
  ∃ X y model, fit X y = inr model
               ∧ files w' !! Retrain.MODEL_PATH = Some (FModel model).
Proof.
  unfold Retrain.train_model. intros Hrun.
  apply bind_inv in Hrun as (df & w1 & _ & Hrun).
  apply bind_inv in Hrun as ([X y] & w2 & _ & Hrun).
  apply bind_inv in Hrun as (Xd & w3 & HX & Hrun).
  apply deref_inv in HX as [HX ->].
  apply bind_inv in Hrun as (model & w3 & Hfit & Hrun).
  apply of_sum_inv in Hfit as [Hfit ->].
  rewrite (train_tail_run w2 X Xd model HX) in Hrun. injection Hrun as <-.
  exists Xd, y, model. split; [exact Hfit|]. cbn [files]. apply lookup_insert_eq.
Qed.

(** A run of [train_model] that raises has not written the model. *)
Lemma train_model_raised :
  keeps_if_raised (same_files_outside ["data/bad_timestamp_rows.csv"])
    (Retrain.train_model fit).
Proof.
  unfold Retrain.train_model.
  apply keeps_if_raised_bind; [apply _ | apply load_data_files | intros df].
  apply keeps_if_raised_bind;
    [apply _ | apply build_training_features_files | intros [X y]].
  intros w e w' Hrun. unfold bind at 1 in Hrun.
  destruct (deref X w) as [[e1|Xd] w1] eqn:HX.
  - unfold deref in HX. destruct (heap w !! X); [done|].
    injection HX as <- <-. by injection Hrun as <- <-.
  - apply deref_inv in HX as [HX ->].
    unfold bind at 1, of_sum in Hrun.
    destruct (fit Xd y) as [e2|model].
    + by injection Hrun as <- <-.
    + unfold ret in Hrun. rewrite (train_tail_run w X Xd model HX) in Hrun.
      discriminate Hrun.
Qed.
End training_inversion.

(** X19. [train_model] on a store of observations.  The regressor is
    fitted on the feature rows of the valid observations in time order (all
    but the first two), with their page views as the target.  When the fit
    succeeds the fitted model is written to the model file, where
    [_load_model] finds it; the store is not modified; and after the
    warnings of the loader, the banner gives the number of training rows:
    the number of valid observations minus two. *)
Theorem train_model_saves_fit (ext : External)
    (fit : DataFrame → Series → exn + Model) (obs : list Observation) (w : World)
    (lines : list (list string)) (model : Model) :
  files w !! Retrain.DATA_PATH = Some (FCsv lines) →
  read_csv lines = inr (store_frame obs) →
  let l := chronological (samples true obs) in
  fit (model_input l) ((λ s, CInt (views s)) <$> drop 2 l) = inr model →
  ∃ w',
    Retrain.train_model fit w = (inr tt, w')
    ∧ files w' !! Retrain.MODEL_PATH = Some (FModel model)
    ∧ ModelUtils._load_model w' = (inr model, w')
    ∧ files w' !! Retrain.DATA_PATH = Some (FCsv lines)
    ∧ nrows (model_input l) = (length (samples true obs) - 2)%nat
    ∧ ∃ warnings,
        stdout w'
        = stdout w ++ warnings ++ retraining_banner (length (samples true obs) - 2).
Proof.
  intros Hf Hr l Hfit.
  pose proof (train_model_run fit obs w lines Hf Hr) as Hrun. cbv zeta in Hrun.
  fold l in Hrun. rewrite Hfit in Hrun.
  assert (Hlen : length l = length (samples true obs)) by apply chronological_length.
  rewrite Hlen in Hrun.
  eexists. split; [exact Hrun|].
  assert (Hmodel : ∀ (f : gmap string File),
            <[Retrain.MODEL_PATH := FModel model]> f !! Retrain.MODEL_PATH
            = Some (FModel model)) by (intros f; apply lookup_insert_eq).
  split; [apply Hmodel|].
  split; [apply load_model_run; apply Hmodel|].
  split.
  { cbn [files set_heap]. rewrite lookup_insert_ne by (intros Heq; discriminate Heq).
    rewrite loaded_files. destruct (0 <? _)%nat; [|exact Hf].
    rewrite lookup_insert_ne by (intros Heq; discriminate Heq). exact Hf. }
  split; [cbn [nrows model_input]; by rewrite Hlen|].
  cbn [stdout set_heap]. rewrite loaded_stdout.
  destruct (0 <? _)%nat.
  - eexists [_; _]. rewrite <-app_assoc. reflexivity.
  - exists []. reflexivity.
Qed.

Lemma train_model_saves_fit_witness :
  let w := Demo.world_with_store 5 in
  let obs := Demo.store 5 in
  ∃ w',
    Retrain.train_model (H := Demo.ext) Demo.persistence_fit w = (inr tt, w')
    ∧ files w' !! Retrain.MODEL_PATH = Some (FModel Demo.persistence_model)
    ∧ ModelUtils._load_model w' = (inr Demo.persistence_model, w')
    ∧ files w' !! Retrain.DATA_PATH = Some (FCsv (Demo.store_lines 5))
    ∧ nrows (model_input (chronological (samples (H := Demo.ext) true obs))) = 3%nat
    ∧ ∃ warnings,
        stdout w' = stdout w ++ warnings ++ retraining_banner 3.
Proof.
  intros w obs.
  assert (Hr : read_csv (External := Demo.ext) (Demo.store_lines 5)
               = inr (store_frame obs)) by (vm_compute; reflexivity).
  assert (Hn : length (samples (H := Demo.ext) true obs) = 5%nat)
    by (vm_compute; reflexivity).
  destruct (train_model_saves_fit Demo.ext Demo.persistence_fit obs w (Demo.store_lines 5)
              Demo.persistence_model eq_refl Hr) as (w' & Hrun & Hm & Hl & Hs & Hrows & Hout).
  { unfold Demo.persistence_fit. cbn [nrows model_input].
    rewrite chronological_length, Hn. reflexivity. }
  rewrite Hn in Hrows, Hout.
  exists w'. repeat (split; [assumption|]). exact Hout.
Defined.

(** X20. A run of [train_model] that raises leaves the model file and the
    store as they were: the model is written only after a successful fit,
    and nothing after that can fail.  When the fit raises on a store of
    observations, [train_model] raises the same exception. *)
Theorem train_model_failure_keeps_model (ext : External)
    (fit : DataFrame → Series → exn + Model) (w : World) :
  (∀ e w', Retrain.train_model fit w = (inl e, w') →
     files w' !! Retrain.MODEL_PATH = files w !! Retrain.MODEL_PATH
     ∧ files w' !! Retrain.DATA_PATH = files w !! Retrain.DATA_PATH)
  ∧ (∀ obs lines e,
       files w !! Retrain.DATA_PATH = Some (FCsv lines) →
       read_csv lines = inr (store_frame obs) →
       let l := chronological (samples true obs) in
       fit (model_input l) ((λ s, CInt (views s)) <$> drop 2 l) = inl e →
       ∃ w', Retrain.train_model fit w = (inl e, w')
             ∧ files w' !! Retrain.MODEL_PATH = files w !! Retrain.MODEL_PATH).
Proof.
  assert (Hraised : ∀ e w', Retrain.train_model fit w = (inl e, w') →
            files w' !! Retrain.MODEL_PATH = files w !! Retrain.MODEL_PATH
            ∧ files w' !! Retrain.DATA_PATH = files w !! Retrain.DATA_PATH).
  { intros e w' Hrun.
    split; refine (train_model_raised fit w e w' Hrun _ (not_elem_of_one _ _ _));
      intros Heq; discriminate Heq. }
  split; [exact Hraised|].
  intros obs lines e Hf Hr l Hfit.
  pose proof (train_model_run fit obs w lines Hf Hr) as Hrun. cbv zeta in Hrun.
  fold l in Hrun. rewrite Hfit in Hrun.
  eexists. split; [exact Hrun|]. exact (proj1 (Hraised _ _ Hrun)).
Qed.

Lemma train_model_failure_keeps_model_witness :
  let w := Demo.world_with_store 2 in
  ∃ w', Retrain.train_model (H := Demo.ext) Demo.persistence_fit w
        = (inl (ValueError "Found array with 0 sample(s)"), w')
        ∧ files w' !! Retrain.MODEL_PATH = Some (FModel Demo.persistence_model).
Proof.
  intros w.
  assert (Hr : read_csv (External := Demo.ext) (Demo.store_lines 2)
               = inr (store_frame (Demo.store 2))) by (vm_compute; reflexivity).
  destruct (proj2 (train_model_failure_keeps_model Demo.ext Demo.persistence_fit w)
              (Demo.store 2) (Demo.store_lines 2)
              (ValueError "Found array with 0 sample(s)") eq_refl Hr)
    as (w' & Hrun & Hm).
  { vm_compute. reflexivity. }
  exists w'. split; [exact Hrun|]. rewrite Hm. vm_compute. reflexivity.
Defined.

(** X21. After a run of [train_model] that returns, the service predicts
    with the model this run has fitted: [_load_model] returns it, and
    [/predict] answers a request whose timestamp parses with the value this
    model gives for the feature vector of the request. *)
Theorem train_then_predict (ext : External)
    (fit : DataFrame → Series → exn + Model) (w w' : World) :
  Retrain.train_model fit w = (inr tt, w') →
  ∃ X y model,
    fit X y = inr model
    ∧ ModelUtils._load_model w' = (inr model, w')
    ∧ ∀ text l1 l2 f t v,
        dateutil_parse text = Some t →
        let built := feature_record (lag_cell l1) (lag_cell l2) t (default 0 f) in
        let fed := feature_record (lag_fed l1) (lag_fed l2) t (default 0 f) in
        model (one_row fed) = inr [v] →
        ∃ w'',
          Main.predict (Main.PredictRequest.mk text l1 l2 f) w'
          = (inr (Main.PredictResponse.mk v built), w'').
Proof.
  intros Hrun.
  destruct (train_model_inv fit w w' Hrun) as (X & y & model & Hfit & Hfile).
  exists X, y, model. split; [exact Hfit|].
  split; [by apply load_model_run|].
  intros text l1 l2 f t v Hp built fed Hv.
  eexists. rewrite (predict_run text l1 l2 f w' t Hp). cbv zeta.
  rewrite (load_model_run w' model Hfile). fold fed. rewrite Hv. reflexivity.
Qed.

Lemma train_then_predict_witness :
  let w := Demo.world_with_store 5 in
  ∃ w' w'',
    Retrain.train_model (H := Demo.ext) Demo.persistence_fit w = (inr tt, w')
    ∧ Main.predict (H := Demo.ext)
        (Main.PredictRequest.mk "2025-12-07T15:00:00" (Some 120%Q) None (Some 1)) w'
      = (inr (Main.PredictResponse.mk 120
                [("lag_1", CFloat 120); ("lag_2", CNull); ("hour", CInt 15);
                 ("day_of_week", CInt 6); ("month", CInt 12); ("is_weekend", CInt 1);
                 ("is_festival", CInt 1)]), w'').
Proof.
  intros w.
  assert (Hrun : Retrain.train_model (H := Demo.ext) Demo.persistence_fit w
                 = (inr tt, (Retrain.train_model (H := Demo.ext) Demo.persistence_fit w).2))
    by (vm_compute; reflexivity).
  destruct (train_then_predict Demo.ext Demo.persistence_fit w _ Hrun)
    as (X & y & model & Hfit & Hload & Hpredict).
  assert (Hmodel : model = Demo.persistence_model).
  { revert Hfit. unfold Demo.persistence_fit. destruct (nrows X); [discriminate|].
    by intros [= <-]. }
  subst model.
  destruct (Hpredict "2025-12-07T15:00:00" (Some 120%Q) None (Some 1)
              (mkTimestamp 2025 12 7 15 0 0) 120%Q eq_refl eq_refl) as (w'' & Hp).
  eexists _, w''. split; [exact Hrun | exact Hp].
Defined.

(** ** One schema for training, serving and the drift check *)

Lemma lookup_snoc2 {A} (h : list A) (a b : A) :
  (h ++ [a; b]) !! S (length h) = Some b.
Proof.
  change (h ++ [a; b]) with (h ++ [a] ++ [b]).
  rewrite app_assoc. apply list_lookup_middle.
  rewrite length_app. cbn [length]. lia.
Qed.

(** X22. Retraining, serving and the drift check use one schema.  The
    table [build_training_features] returns for the fit, the table
    [predict_from_df] calls the model on and the table [detect_drift] calls
    the model on all have the columns of [FEATURE_COLS], in that order. *)
Theorem training_and_serving_schema (ext : External) :
  (∀ (w : World) (x : loc) (l : list Sample),
     heap w !! x = Some (timed_frame l) →
     ∃ x' y w' X,
       Retrain.build_training_features x w = (inr (x', y), w')
       ∧ heap w' !! x' = Some X
       ∧ pd.labels X = ModelUtils.FEATURE_COLS)
  ∧ (∀ (w : World) (x : loc) (X : DataFrame) (m : Model),
       heap w !! x = Some X → wf_frame X →
       (∀ c s, c ∈ ["lag_1"; "lag_2"] → pd.getcol X c = Some s → numeric s) →
       files w !! ModelUtils.MODEL_PATH = Some (FModel m) →
       ∃ fed w',
         ModelUtils.predict_from_df x w = (m fed, w')
         ∧ pd.labels fed = ModelUtils.FEATURE_COLS)
  ∧ (∀ (obs : list Observation) (w w' : World) (lines : list (list string))
       (r : Report.t),
       files w !! CheckDrift.DATA_PATH = Some (FCsv lines) →
       read_csv lines = inr (store_frame obs) →
       CheckDrift.detect_drift w = (inr r, w') →
       ∃ X (m : Model) y_pred,
         files w !! CheckDrift.MODEL_PATH = Some (FModel m)
         ∧ m X = inr y_pred
         ∧ pd.labels X = ModelUtils.FEATURE_COLS).
Proof.
  split; [|split].
  - intros w x l Hx. do 4 eexists.
    split; [by apply build_training_features_run|].
    split.
    + cbn [heap set_heap].
      change [features_frame l; model_input l]
        with ([features_frame l] ++ [model_input l]).
      rewrite app_assoc. apply list_lookup_middle.
      rewrite length_app, length_insert. cbn [length]. lia.
    + reflexivity.
  - intros w x X m Hx Hwf Hnum Hfile.
    pose proof (predict_from_df_run w x X m Hx Hwf Hnum Hfile) as Hrun.
    cbv zeta in Hrun.
    set (filled := foldl add_default X ModelUtils.FEATURE_COLS) in *.
    set (Y := mkDF (nrows filled)
                ((λ c, (c, default [] (pd.getcol filled c)))
                   <$> ModelUtils.FEATURE_COLS)) in *.
    assert (Hlabels : pd.labels Y = ModelUtils.FEATURE_COLS) by apply tabulate_labels.
    clearbody Y. clearbody filled.
    do 2 eexists. split; [exact Hrun|].
    rewrite !labels_setcol_present; [exact Hlabels| |].
    + rewrite Hlabels. compute_done.
    + rewrite labels_setcol_present; rewrite Hlabels; compute_done.
  - intros obs w w' lines r Hf Hr Hrun.
    apply detect_drift_inv in Hrun
      as (x1 & w1 & x2 & w2 & F & X & m & y_true & y_pred & ys & Hload & Hbuild & HF
          & Hm & Hsel & Hpred & _).
    rewrite (load_recent_data_run obs w lines 20 Hf Hr) in Hload. cbv zeta in Hload.
    destruct (length (samples false obs) <? 20 + 2)%nat; [discriminate Hload|].
    set (wl := loaded false CheckDrift.DATA_PATH
                 "data/bad_timestamp_rows_for_drift.csv" obs w) in *.
    set (recent := last_n 20 (chronological (samples false obs))) in *.
    injection Hload as <- <-.
    rewrite (build_features_run _ _ recent) in Hbuild.
    2:{ apply (lookup_snoc2 (heap wl)). }
    injection Hbuild as <- <-.
    cbn [heap set_heap] in HF. rewrite list_lookup_middle in HF.
    2:{ by rewrite length_insert. }
    injection HF as <-.
    rewrite select_features in Hsel. injection Hsel as <-.
    exists (model_input recent), m, y_pred.
    split; [|split; [exact Hpred | reflexivity]].
    revert Hm. cbn [files set_heap]. unfold wl. rewrite loaded_files.
    destruct (0 <? _)%nat; [|done].
    by rewrite lookup_insert_ne by (intros Heq; discriminate Heq).
Qed.

Lemma training_and_serving_schema_witness :
  let l := [mkSample (mkTimestamp 2025 1 1 0 0 0) 100 0;
            mkSample (mkTimestamp 2025 1 1 1 0 0) 110 0;
            mkSample (mkTimestamp 2025 1 1 2 0 0) 90 1] in
  ∃ x' y w' X,
    Retrain.build_training_features 0%nat (set_heap [timed_frame l] Demo.empty_world)
    = (inr (x', y), w')
    ∧ heap w' !! x' = Some X
    ∧ pd.labels X
      = ["lag_1"; "lag_2"; "hour"; "day_of_week"; "month"; "is_weekend"; "is_festival"].
Proof.
  intros l.
  exact (proj1 (training_and_serving_schema Demo.ext)
           (set_heap [timed_frame l] Demo.empty_world) 0%nat l eq_refl).
Defined.

(** ** The stand-alone training script *)

Section train_script.
Context `{External}.
Variable to_datetime_strict : Series → exn + Series.
Variable train_test_split : nat → exn + (list nat * list nat).
Variable fit : DataFrame → Series → exn + Model.

Lemma labels_take_rows idx d : pd.labels (pd.take_rows idx d) = pd.labels d.
Proof.
  unfold pd.labels, pd.take_rows. cbn [columns].
  rewrite <-list_fmap_compose. by apply list_fmap_ext.
Qed.

(** The labels of a selection are the labels that were asked for. *)
Lemma labels_select d cols d' c :
  pd.select d cols = Some d' → c ∈ pd.labels d' ↔ c ∈ cols.
Proof.
  unfold pd.select. destruct (forallb (pd.contains d) cols) eqn:Hall; [|done].
  intros [= <-]. unfold pd.labels. cbn [columns].
  rewrite list_elem_of_fmap. split.
  - intros ([k v] & -> & Hin). apply list_elem_of_bind in Hin as (c' & Hin & Hc').
    apply list_elem_of_filter in Hin as [Hk _]. cbn in Hk. by subst.
  - intros Hc. rewrite forallb_forall in Hall.
    specialize (Hall c (proj1 (list_elem_of_In _ _) Hc)).
    apply contains_true in Hall.
    apply list_elem_of_fmap in Hall as ([k v] & -> & Hin).
    exists (k, v). split; [done|].
    apply list_elem_of_bind. exists k. split; [|done].
    by apply list_elem_of_filter.
Qed.

(** A run of the script that returns has fitted the regressor on a
    selection of six columns and saved it. *)
Lemma script_inv w w' :
  Train.script to_datetime_strict train_test_split fit w = (inr tt, w') →
  ∃ d X idx model,
    pd.select d ["hour"; "day"; "month"; "lag_1"; "lag_2"; "is_festival"] = Some X
    ∧ train_test_split (nrows X) = inr idx
    ∧ fit (pd.take_rows idx.1 X) (pd.at_ (default [] (pd.getcol d "page_views")) <$> idx.1)
      = inr model
    ∧ files w' !! Train.MODEL_PATH = Some (FModel model).
Proof.
  unfold Train.script. intros Hrun.
  do 18 (apply bind_inv in Hrun as (? & ? & _ & Hrun)).
  apply bind_inv in Hrun as (X & w1 & Hsel & Hrun).
  apply df_select_inv in Hsel as (d & Xd & Hd & Hsel & -> & ->).
  apply bind_inv in Hrun as (y & w1 & Hy & Hrun).
  apply df_getcol_inv in Hy as (d' & Hd' & Hy & ->).
  cbn [heap set_heap] in Hd'. rewrite (lookup_app_l_Some _ _ _ _ Hd) in Hd'.
  injection Hd' as <-.
  apply bind_inv in Hrun as (Xd' & w1 & HX & Hrun).
  apply deref_inv in HX as [HX ->].
  cbn [heap set_heap] in HX. rewrite list_lookup_middle in HX by done.
  injection HX as <-.
  apply bind_inv in Hrun as (idx & w1 & Hidx & Hrun).
  apply of_sum_inv in Hidx as [Hidx ->].
  apply bind_inv in Hrun as (X_train & w1 & Htrain & Hrun).
  injection Htrain as <- <-.
  apply bind_inv in Hrun as (X_test & w1 & Htest & Hrun).
  injection Htest as <- <-.
  cbv zeta in Hrun.
  apply bind_inv in Hrun as (X_train_d & w1 & HXt & Hrun).
  apply deref_inv in HXt as [HXt ->].
  cbn [heap set_heap] in HXt.
  rewrite lookup_app_l in HXt by (rewrite !length_app; cbn [length]; lia).
  rewrite list_lookup_middle in HXt by done.
  injection HXt as <-.
  apply bind_inv in Hrun as (model & w1 & Hfit & Hrun).
  apply of_sum_inv in Hfit as [Hfit ->].
  do 3 (apply bind_inv in Hrun as (? & ? & _ & Hrun)).
  apply bind_inv in Hrun as ([] & w1 & _ & Hrun).
  apply bind_inv in Hrun as ([] & w2 & Hdump & Hrun).
  injection Hdump as <-. injection Hrun as <-.
  exists d, Xd, idx, model. rewrite Hy. cbn [default].
  split; [exact Hsel|]. split; [exact Hidx|]. split; [exact Hfit|].
  cbn [files set_files set_stdout]. apply lookup_insert_eq.
Qed.

Lemma script_files :
  keeps (same_files_outside [Train.MODEL_PATH])
    (Train.script to_datetime_strict train_test_split fit).
Proof. unfold Train.script. keeps_walk. Qed.

(** A run of the script that raises has written no file: the model is the
    only file it writes, and nothing after that can fail. *)
Lemma script_raised :
  keeps_if_raised (same_files_outside [])
    (Train.script to_datetime_strict train_test_split fit).
Proof.
  unfold Train.script. cbv zeta.
  repeat first
    [ apply keeps_if_raised_bind; [apply _ | solve [keeps_walk] | intros ?] ].
  intros w e w' Hrun. discriminate Hrun.
Qed.
End train_script.

(** X23. The stand-alone script [train.py], started from the project root,
    fits its regressor on the columns [hour, day, month, lag_1, lag_2,
    is_festival] and saves it at the path the service loads its model from.
    This is not the schema of the service: [day] is no feature column of
    [predict_from_df], and [day_of_week] and [is_weekend] are not among the
    columns of the script. *)
Theorem train_script_schema (ext : External)
    (to_datetime_strict : Series → exn + Series)
    (train_test_split : nat → exn + (list nat * list nat))
    (fit : DataFrame → Series → exn + Model) (w w' : World) :
  Train.script to_datetime_strict train_test_split fit w = (inr tt, w') →
  ∃ X_train y_train model,
    fit X_train y_train = inr model
    ∧ files w' !! ModelUtils.MODEL_PATH = Some (FModel model)
    ∧ (∀ c, c ∈ pd.labels X_train
            ↔ c ∈ ["hour"; "day"; "month"; "lag_1"; "lag_2"; "is_festival"])
    ∧ "day" ∈ pd.labels X_train
    ∧ ("day_of_week" ∉ pd.labels X_train)
    ∧ ("is_weekend" ∉ pd.labels X_train)
    ∧ pd.labels X_train ≠ ModelUtils.FEATURE_COLS.
Proof.
  intros Hrun.
  apply script_inv in Hrun as (d & X & idx & model & Hsel & _ & Hfit & Hfile).
  do 3 eexists. split; [exact Hfit|]. split; [exact Hfile|].
  assert (Hlabels : ∀ c, c ∈ pd.labels (pd.take_rows idx.1 X)
                         ↔ c ∈ ["hour"; "day"; "month"; "lag_1"; "lag_2"; "is_festival"]).
  { intros c. rewrite labels_take_rows. by apply (labels_select d). }
  split; [exact Hlabels|].
  assert (Hdow : "day_of_week" ∉ pd.labels (pd.take_rows idx.1 X)).
  { rewrite Hlabels. compute_done. }
  split; [apply Hlabels; compute_done|].
  split; [exact Hdow|].
  split; [rewrite Hlabels; compute_done|].
  intros Heq. apply Hdow. rewrite Heq. compute_done.
Qed.

Lemma train_script_schema_witness :
  let w := Demo.clean_world 4 in
  ∃ w' X_train y_train model,
    Train.script (H := Demo.ext) Demo.strict_datetime Demo.last_row_split Demo.persistence_fit w
    = (inr tt, w')
    ∧ Demo.persistence_fit X_train y_train = inr model
    ∧ files w' !! ModelUtils.MODEL_PATH = Some (FModel model)
    ∧ "day" ∈ pd.labels X_train
    ∧ ("day_of_week" ∉ pd.labels X_train)
    ∧ pd.labels X_train ≠ ModelUtils.FEATURE_COLS.
Proof.
  intros w.
  assert (Hrun : Train.script (H := Demo.ext) Demo.strict_datetime Demo.last_row_split
                   Demo.persistence_fit w
                 = (inr tt, (Train.script (H := Demo.ext) Demo.strict_datetime Demo.last_row_split
                               Demo.persistence_fit w).2))
    by (vm_compute; reflexivity).
  destruct (train_script_schema Demo.ext Demo.strict_datetime Demo.last_row_split Demo.persistence_fit
              w _ Hrun)
    as (X_train & y_train & model & Hfit & Hfile & _ & Hday & Hdow & _ & Hne).
  eexists _, X_train, y_train, model.
  split; [exact Hrun|]. repeat (split; [assumption|]). exact Hne.
Defined.

(** X24. [train.py] has no quarantine: when the strict [pd.to_datetime]
    raises on the timestamp column, the script ends with that exception and
    has written nothing.  More generally, a run of the script that raises
    leaves every file as it was. *)
Theorem train_script_aborts (ext : External)
    (to_datetime_strict : Series → exn + Series)
    (train_test_split : nat → exn + (list nat * list nat))
    (fit : DataFrame → Series → exn + Model) (w : World) :
  (∀ lines d ts e,
     files w !! Train.DATA_PATH = Some (FCsv lines) →
     read_csv lines = inr d →
     pd.getcol d "timestamp" = Some ts →
     to_datetime_strict ts = inl e →
     Train.script to_datetime_strict train_test_split fit w
     = (inl e, set_heap (heap w ++ [d]) w))
  ∧ (∀ e w', Train.script to_datetime_strict train_test_split fit w = (inl e, w') →
       files w' = files w).
Proof.
  split.
  - intros lines d ts e Hf Hr Hts He. unfold Train.script.
    py_step ltac:(eapply pd_read_csv_run; [exact Hf | exact Hr]).
    py_step ltac:(eapply df_getcol_run;
                  [cbn [heap set_heap]; by apply list_lookup_middle | exact Hts]).
    rewrite He. reflexivity.
  - intros e w' Hrun. apply files_equal.
    exact (script_raised to_datetime_strict train_test_split fit w e w' Hrun).
Qed.

Lemma train_script_aborts_witness :
  let w := Demo.world_with_store 3 in
  ∃ d,
    read_csv (External := Demo.ext) (Demo.store_lines 3) = inr d
    ∧ Train.script (H := Demo.ext) Demo.strict_datetime Demo.last_row_split Demo.persistence_fit w
      = (inl (ValueError "Unknown datetime string format"), set_heap [d] w)
    ∧ files (set_heap [d] w) = files w.
Proof.
  intros w.
  destruct (train_script_aborts Demo.ext Demo.strict_datetime Demo.last_row_split
              Demo.persistence_fit w) as [Hbad Hraised].
  eexists. split; [vm_compute; reflexivity|].
  assert (Hrun := Hbad (Demo.store_lines 3) _
                    [CStr "bad stamp"; CStr "2025-01-01 02:00:00";
                     CStr "2025-01-01 01:00:00"; CStr "2025-01-01 00:00:00"]
                    (ValueError "Unknown datetime string format")
                    eq_refl eq_refl eq_refl eq_refl).
  split; [exact Hrun|]. exact (Hraised _ _ Hrun).
Defined.

(** ** When the drift check succeeds *)

Section drift_runs.
Context `{External}.
Implicit Types (w : World) (F : DataFrame) (l : list Sample).

(** A column of numbers that is not empty has a drift score. *)
Lemma drift_score_is_Some F col (s : Series) :
  pd.getcol F col = Some s → s ≠ [] →
  Forall (λ c, is_Some (cell_num c)) s →
  is_Some (drift_score F col).
Proof.
  intros Hs Hne Hnum. unfold drift_score. rewrite Hs. unfold pd.mean.
  assert (filter (λ x, isna x = false) s = s) as ->.
  { clear Hs Hne. induction Hnum as [|x s [q Hx] _ IH]; [done|].
    rewrite filter_cons_True, IH; [done|]. by destruct x. }
  assert (∃ vals, mapM cell_num s = Some vals ∧ length vals = length s)
    as (vals & -> & Hlen).
  { clear Hs Hne. induction Hnum as [|x s [q Hx] _ (vals & IH & Hlen)].
    - by exists [].
    - exists (q :: vals). cbn. rewrite Hx. cbn. rewrite IH. cbn.
      split; [done|]. by rewrite Hlen. }
  cbn. destruct s as [|v s']; [done|].
  apply Forall_cons in Hnum as [[q Hv] _].
  destruct vals as [|a vals]; [discriminate Hlen|].
  cbn [pd.iloc0 lookup list_lookup]. unfold CheckDrift.abs_diff. cbn [cell_num].
  rewrite Hv. destruct v; try discriminate Hv; eauto.
Qed.

(** Every column of the feature rows holds numbers, except the
    timestamps. *)
Lemma features_numeric l col (s : Series) :
  col ∈ ["lag_1"; "lag_2"; "hour"; "day_of_week"; "month"; "is_weekend"; "is_festival"] →
  pd.getcol (features_frame l) col = Some s →
  Forall (λ c, is_Some (cell_num c)) s.
Proof.
  intros Hcol Hs.
  repeat (apply elem_of_cons in Hcol as [->|Hcol];
          [injection Hs as <-; apply Forall_fmap, Forall_forall; intros ? _; by eexists|]).
  by apply elem_of_nil in Hcol.
Qed.

(** The loop that fills the dictionary of drift scores. *)
Lemma scores_loop_run cols : ∀ (acc : gmap string cell) w x F,
  heap w !! x = Some F →
  (∀ col, col ∈ cols → is_Some (drift_score F col)) →
  ∃ r,
    CheckDrift.for_fold cols acc (λ drift_scores col,
      bind (df_getcol x col) (λ s,
      bind (of_option TypeError (pd.mean s)) (λ m,
      bind (df_getcol x col) (λ s,
      bind (of_option IndexError (pd.iloc0 s)) (λ v,
      bind (of_option TypeError (CheckDrift.abs_diff m v)) (λ score,
      ret (<[col := score]> drift_scores))))))) w = (inr r, w).
Proof.
  induction cols as [|col cols IH]; intros acc w x F Hx Hall.
  - by eexists.
  - cbn [CheckDrift.for_fold].
    destruct (Hall col ltac:(left)) as [score Hscore].
    unfold drift_score in Hscore.
    destruct (pd.getcol F col) as [s|] eqn:Hs; [|done].
    destruct (pd.mean s) as [m|] eqn:Hm; [|done].
    destruct (pd.iloc0 s) as [v|] eqn:Hv; [|done].
    erewrite bind_run.
    2:{ py_step ltac:(eapply df_getcol_run; [exact Hx | exact Hs]).
        rewrite Hm. cbn [of_option].
        rewrite (bind_run _ _ w m w) by reflexivity.
        py_step ltac:(eapply df_getcol_run; [exact Hx | exact Hs]).
        rewrite Hv. cbn [of_option].
        rewrite (bind_run _ _ w v w) by reflexivity.
        rewrite Hscore. cbn [of_option].
        rewrite (bind_run _ _ w score w) by reflexivity.
        reflexivity. }
    apply (IH _ w x F Hx). intros c Hc. apply Hall. by right.
Qed.
End drift_runs.

(** X25. The drift check succeeds on a store with at least 22 valid
    observations and a model file, when the model returns one prediction for
    each of the 18 rows it is given: [detect_drift] returns a report whose
    [mae] is the mean absolute difference between these predictions and the
    page views of the last 18 observations, stamps it with the time of the
    call and writes it to the report file.  An exception of the model
    leaves [detect_drift] as it is, and a model that returns another number
    of predictions makes it fail with a [ValueError]. *)
Theorem drift_check_succeeds (ext : External) (obs : list Observation) (w : World)
    (lines : list (list string)) (m : Model) :
  files w !! CheckDrift.DATA_PATH = Some (FCsv lines) →
  read_csv lines = inr (store_frame obs) →
  (22 ≤ length (samples false obs))%nat →
  files w !! CheckDrift.MODEL_PATH = Some (FModel m) →
  let recent := last_n 20 (chronological (samples false obs)) in
  let ys := (λ s, inject_Z (views s)) <$> drop 2 recent in
  (∀ y_pred, m (model_input recent) = inr y_pred → length y_pred = 18%nat →
     ∃ r w',
       CheckDrift.detect_drift w = (inr r, w')
       ∧ Report.mae r = pd.Qmean (zip_with (λ t p, Qabs (p - t)) ys y_pred)
       ∧ Report.timestamp r = clock w
       ∧ files w' !! CheckDrift.DRIFT_REPORT_PATH = Some (FJson r))
  ∧ (∀ e, m (model_input recent) = inl e →
       ∃ w', CheckDrift.detect_drift w = (inl e, w'))
  ∧ (∀ y_pred, m (model_input recent) = inr y_pred → length y_pred ≠ 18%nat →
       ∃ msg w', CheckDrift.detect_drift w = (inl (ValueError msg), w')).
Proof.
  intros Hf Hr Hge Hm recent ys.
  pose proof (load_recent_data_run obs w lines 20 Hf Hr) as Hload. cbv zeta in Hload.
  apply (Nat.ltb_ge _ (20 + 2)) in Hge as Hltb. rewrite Hltb in Hload.
  fold recent in Hload.
  set (wl := loaded false CheckDrift.DATA_PATH
               "data/bad_timestamp_rows_for_drift.csv" obs w) in *.
  set (w1 := set_heap (heap wl ++ [timed_frame recent; timed_frame recent]) wl) in *.
  assert (Hrecent : length recent = 20%nat).
  { unfold recent. apply last_n_length. rewrite chronological_length. lia. }
  pose proof (build_features_run w1 _ recent (lookup_snoc2 (heap wl) _ _)) as Hbuild.
  set (w2 := set_heap (<[S (length (heap wl)) := augmented_frame recent]> (heap w1)
                       ++ [features_frame recent]) w1) in *.
  assert (Hmodel : files w2 !! CheckDrift.MODEL_PATH = Some (FModel m)).
  { change (files w2) with (files wl). unfold wl. rewrite loaded_files.
    destruct (0 <? _)%nat; [|exact Hm].
    by rewrite lookup_insert_ne by (intros Heq; discriminate Heq). }
  assert (Hx2 : heap w2 !! length (heap w1) = Some (features_frame recent)).
  { unfold w2. cbn [heap set_heap]. apply list_lookup_middle.
    by rewrite length_insert. }
  set (w3 := set_heap (heap w2 ++ [model_input recent]) w2).
  assert (Hx2' : heap w3 !! length (heap w1) = Some (features_frame recent)).
  { unfold w3. cbn [heap set_heap]. by apply lookup_app_l_Some. }
  assert (Hprefix :
            CheckDrift.detect_drift w
            = bind (of_sum (m (model_input recent)))
                (λ y_pred,
                   bind (CheckDrift.mean_absolute_error
                           ((λ s, CInt (views s)) <$> drop 2 recent) y_pred)
                     (λ mae,
                        bind (CheckDrift.for_fold
                                ["lag_1"; "lag_2"; "hour"; "day_of_week"; "month";
                                 "is_weekend"; "is_festival"] (∅ : gmap string cell)
                                (λ drift_scores col,
                                   bind (df_getcol (length (heap w1)) col) (λ s,
                                   bind (of_option TypeError (pd.mean s)) (λ mn,
                                   bind (df_getcol (length (heap w1)) col) (λ s,
                                   bind (of_option IndexError (pd.iloc0 s)) (λ v,
                                   bind (of_option TypeError (CheckDrift.abs_diff mn v))
                                     (λ score, ret (<[col := score]> drift_scores))))))))
                          (λ drift_scores,
                             let drift_status :=
                               if Qltb mae 50 then "NO_DRIFT"
                               else if Qltb mae 120 then "MILD_DRIFT"
                               else "SEVERE_DRIFT" in
                             bind now_isoformat (λ now,
                             let report := Report.mk now mae drift_scores drift_status in
                             bind (write_file CheckDrift.DRIFT_REPORT_PATH (FJson report))
                               (λ _, ret report))))) w3).
  { unfold CheckDrift.detect_drift.
    rewrite (bind_run _ _ _ _ _ Hload). rewrite (bind_run _ _ _ _ _ Hbuild).
    rewrite (bind_run _ _ _ _ _ (path_exists_run w2 _ _ Hmodel)). cbn [negb].
    erewrite bind_run.
    2:{ unfold ModelUtils.joblib_load. rewrite Hmodel. reflexivity. }
    cbv zeta.
    py_step ltac:(eapply df_select_run; [exact Hx2 | apply select_features]).
    fold w3.
    py_step ltac:(eapply df_getcol_run; [exact Hx2' | apply features_page_views]).
    py_step ltac:(apply deref_run; unfold w3; cbn [heap set_heap];
                  by apply list_lookup_middle).
    reflexivity. }
  assert (Hys : mapM cell_num ((λ s, CInt (views s)) <$> drop 2 recent) = Some ys)
    by apply views_numeric.
  assert (Hlen : length ((λ s, CInt (views s)) <$> drop 2 recent) = 18%nat).
  { rewrite length_fmap, length_drop, Hrecent. reflexivity. }
  assert (Hlenys : length ys = 18%nat).
  { unfold ys. rewrite length_fmap, length_drop, Hrecent. reflexivity. }
  split; [|split].
  - intros y_pred Hpred Hlp.
    rewrite Hpred in Hprefix. cbn [of_sum] in Hprefix.
    rewrite (bind_run _ _ w3 y_pred w3) in Hprefix by reflexivity.
    assert (Hmae : CheckDrift.mean_absolute_error
                     ((λ s, CInt (views s)) <$> drop 2 recent) y_pred w3
                   = (inr (pd.Qmean (zip_with (λ t p, Qabs (p - t)) ys y_pred)), w3)).
    { unfold CheckDrift.mean_absolute_error. rewrite Hlen, Hlp. cbn [Nat.eqb negb].
      rewrite Hys. destruct ys as [|y0 ys']; [discriminate Hlenys | reflexivity]. }
    rewrite (bind_run _ _ _ _ _ Hmae) in Hprefix.
    destruct (scores_loop_run
                ["lag_1"; "lag_2"; "hour"; "day_of_week"; "month"; "is_weekend";
                 "is_festival"] ∅ w3 (length (heap w1)) (features_frame recent) Hx2')
      as [scores Hscores].
    { intros col Hcol.
      destruct (pd.getcol (features_frame recent) col) as [s|] eqn:Hs.
      - apply (drift_score_is_Some _ col s Hs).
        + apply features_column_length in Hs. rewrite Hrecent in Hs.
          by destruct s.
        + by apply (features_numeric recent col).
      - exfalso.
        repeat (apply elem_of_cons in Hcol as [->|Hcol]; [discriminate Hs|]).
        by apply elem_of_nil in Hcol. }
    rewrite (bind_run _ _ _ _ _ Hscores) in Hprefix.
    do 2 eexists. split; [exact Hprefix|].
    cbn [Report.mae Report.timestamp files set_files].
    split; [reflexivity|]. split; [|apply lookup_insert_eq].
    change (clock w3) with (clock wl). unfold wl, loaded, quarantined.
    by destruct (0 <? _)%nat.
  - intros e He. rewrite He in Hprefix. eexists. exact Hprefix.
  - intros y_pred Hpred Hlp.
    rewrite Hpred in Hprefix. cbn [of_sum] in Hprefix.
    rewrite (bind_run _ _ w3 y_pred w3) in Hprefix by reflexivity.
    do 2 eexists. rewrite Hprefix. erewrite bind_fail; [reflexivity|].
    unfold CheckDrift.mean_absolute_error. rewrite Hlen.
    apply Nat.eqb_neq in Hlp. rewrite Nat.eqb_sym, Hlp. reflexivity.
Qed.

Lemma drift_check_succeeds_witness :
  let w := Demo.world_with_store 22 in
  ∃ r w',
    CheckDrift.detect_drift (H := Demo.ext) w = (inr r, w')
    ∧ (Report.mae r == 10)%Q
    ∧ Report.timestamp r = "2025-12-08T09:00:00"
    ∧ files w' !! CheckDrift.DRIFT_REPORT_PATH = Some (FJson r).
Proof.
  intros w.
  assert (Hr : read_csv (External := Demo.ext) (Demo.store_lines 22)
               = inr (store_frame (Demo.store 22))) by (vm_compute; reflexivity).
  assert (Hge : (22 ≤ length (samples (H := Demo.ext) false (Demo.store 22)))%nat)
    by (vm_compute; lia).
  destruct (proj1 (drift_check_succeeds Demo.ext (Demo.store 22) w (Demo.store_lines 22)
                     Demo.persistence_model eq_refl Hr Hge eq_refl)
              ((λ i, inject_Z (100 + 10 * Z.of_nat i)) <$> seq 3 18))
    as (r & w' & Hrun & Hmae & Hts & Hfile).
  { vm_compute. reflexivity. }
  { reflexivity. }
  exists r, w'. split; [exact Hrun|].
  split; [rewrite Hmae; vm_compute; reflexivity|].
  split; [exact Hts | exact Hfile].
Defined.
